(** * TinyG configuration engine (config.c, build 331.02)

    A shallow embedding of the parameter registry of the TinyG firmware:
    the descriptor table [cfgArray], the two name resolvers, the typed
    accessors, group expansion, the NVM persistence layer, [cfg_init] and
    the text command parser, followed by the properties established of them. *)

From Stdlib Require Import List String Ascii ZArith Lia Bool Arith.
From Stdlib Require Import Floats Uint63.
Import ListNotations.
Local Open Scope string_scope.

(** ** C strings *)

Definition NUL : ascii := Ascii.zero.
Definition NL : string := String (ascii_of_nat 10) EmptyString.
Definition TAB : ascii := ascii_of_nat 9.

(** [s[k]] for a NUL-terminated string: the terminator is read at [k = length s].
    Reads past the terminator are undefined in C and are given as NUL too. *)
Definition char_at (s : string) (k : nat) : ascii :=
  match String.get k s with Some c => c | None => NUL end.

(** [strncpy(dst, src, n)] into a zeroed or otherwise terminated buffer. *)
Definition strncpy (src : string) (n : nat) : string := substring 0 n src.

(** [strstr(h, n)]: offset of the first occurrence of [n] in [h], or NULL. *)
Fixpoint strstr (h n : string) : option nat :=
  if prefix n h then Some 0
  else match h with
       | EmptyString => None
       | String _ h' => option_map S (strstr h' n)
       end.

(** [strchr]-style membership of a character in a set given as a string. *)
Fixpoint strchr (s : string) (c : ascii) : option nat :=
  match s with
  | EmptyString => None
  | String d s' => if Ascii.eqb d c then Some 0 else option_map S (strchr s' c)
  end.

(** [strpbrk(s, accept)]: offset of the first character of [s] that is in [accept]. *)
Fixpoint strpbrk (s accept : string) : option nat :=
  match s with
  | EmptyString => None
  | String c s' =>
      match strchr accept c with
      | Some _ => Some 0
      | None => option_map S (strpbrk s' accept)
      end
  end.

Definition tolower (c : ascii) : ascii :=
  let n := nat_of_ascii c in
  if Nat.leb 65 n && Nat.leb n 90 then ascii_of_nat (n + 32) else c.

Fixpoint strlower (s : string) : string :=
  match s with
  | EmptyString => EmptyString
  | String c s' => String (tolower c) (strlower s')
  end.

(** The tail of [s] from offset [k] (the pointer [s + k]). *)
Fixpoint str_from (k : nat) (s : string) : string :=
  match k, s with
  | O, _ => s
  | S k', String _ s' => str_from k' s'
  | S _, EmptyString => EmptyString
  end.

(** ** Constants of config.h

    config.h is not part of the sources at hand.  The field widths follow the
    limits the file header of config.c gives (tokens of up to four characters,
    friendly names of up to 24). *)

Definition CMD_TOKEN_LEN : nat := 4.
Definition CMD_NAME_LEN : nat := 24.
Definition CMD_NAMES_FIELD_LEN : nat := CMD_TOKEN_LEN + CMD_NAME_LEN + 2.

Definition INDEX_T := Z.
Definition double := float.

(** Status codes (tinyg.h); only their being distinct matters. *)
Inductive status := TG_OK | TG_UNRECOGNIZED_COMMAND | TG_STATUS (code : Z).

(** ** The descriptor table *)

Inductive printKind :=
  print_nul | print_ui8 | print_int | print_dbl | print_lin | print_rot
| print_am | print_grp.

Inductive getKind :=
  get_ui8 | get_int | get_dbl | get_dbu | get_unit | get_sr | get_si | get_gc
| get_stat | get_vel | get_abs | get_pos | get_am | get_grp | get_sys | get_qm.

Inductive setKind :=
  set_nul | set_ui8 | set_int | set_dbl | set_dbu | set_sr | set_si | run_gc
| set_ic | set_il | set_ec | set_ee | set_ex | set_sa | set_mi | set_po
| set_grp.

(** A default is a literal or one of the macros of settings.h and tinyg.h. *)
Inductive defval := Lit (v : double) | Macro (name : string).

(** [struct cfgItem]; the target pointer is kept as the lvalue it points to. *)
Record cfgItem := mkItem {
  item_string : string;
  item_print : printKind;
  item_get : getKind;
  item_set : setKind;
  item_target : string;
  item_def : defval
}.

Definition cfgArray : list cfgItem := [
  mkItem ("fc,config_v,[fc]  config_version  %16.2f" ++ NL) print_dbl get_dbl set_nul "cfg.version" (Macro "TINYG_CONFIG_VERSION");
  mkItem ("fv,firmware_v,[fv]  firmware_version%16.2f" ++ NL) print_dbl get_dbl set_nul "tg.version" (Macro "TINYG_VERSION_NUMBER");
  mkItem ("fb,firmware_b,[fb]  firmware_build  %16.2f" ++ NL) print_dbl get_dbl set_nul "tg.build" (Macro "TINYG_BUILD_NUMBER");
  mkItem ("line,line_number,[line] line_number%17.0f" ++ NL) print_int get_int set_int "cm.linenum" (Lit 0%float);
  mkItem ("stat,machine_state,[stat] machine_state %14d" ++ NL) print_ui8 get_stat set_nul "cm.machine_state" (Lit 0%float);
  mkItem ("vel,velocity,[vel] velocity %23.3f %S/min" ++ NL) print_lin get_vel set_nul "tg.null" (Lit 0%float);
  mkItem "unit,unit," print_nul get_unit set_nul "gm.units_mode" (Lit 0%float);
  mkItem "sr,status_r," print_nul get_sr set_sr "tg.null" (Lit 0%float);
  mkItem ("si,status_i,[si]  status_interval    %10.0f ms [0=off]" ++ NL) print_dbl get_si set_si "cfg.status_report_interval" (Macro "STATUS_REPORT_INTERVAL_MS");
  mkItem "gc,gcod,[gc]" print_nul get_gc run_gc "tg.null" (Lit 0%float);
  mkItem ("gpl,gcode_pl,[gpl] gcode_select_plane %10d [G17,G18,G19]" ++ NL) print_ui8 get_ui8 set_ui8 "cfg.select_plane" (Macro "GCODE_DEFAULT_PLANE");
  mkItem ("gun,gcode_u, [gun] gcode_units_mode   %10d [G20,G21]" ++ NL) print_ui8 get_ui8 set_ui8 "cfg.units_mode" (Macro "GCODE_DEFAULT_UNITS");
  mkItem ("gco,gcode_c, [gco] gcode_coord_system %10d [G54-G59]" ++ NL) print_ui8 get_ui8 set_ui8 "cfg.coord_system" (Macro "GCODE_DEFAULT_COORD_SYSTEM");
  mkItem ("gpa,gcode_pa,[gpa] gcode_path_control %10d [G61,G61.1,G64]" ++ NL) print_ui8 get_ui8 set_ui8 "cfg.path_control" (Macro "GCODE_DEFAULT_PATH_CONTROL");
  mkItem ("gdi,gcode_d, [gdi] gcode_distance_mode%10d [G90,G91]" ++ NL) print_ui8 get_ui8 set_ui8 "cfg.distance_mode" (Macro "GCODE_DEFAULT_DISTANCE_MODE");
  mkItem ("ea,enable_a,[ea]  enable_acceleration%10d [0,1]" ++ NL) print_ui8 get_ui8 set_ui8 "cfg.enable_acceleration" (Macro "ENABLE_ACCELERATION");
  mkItem ("ja,junc,[ja]  junction_acceleration%8.0f%S" ++ NL) print_lin get_dbu set_dbu "cfg.junction_acceleration" (Macro "JUNCTION_ACCELERATION");
  mkItem ("ml,min_l,[ml]  min_line_segment   %14.3f%S" ++ NL) print_lin get_dbu set_dbu "cfg.min_segment_len" (Macro "MIN_LINE_LENGTH");
  mkItem ("ma,min_a,[ma]  min_arc_segment    %14.3f%S" ++ NL) print_lin get_dbu set_dbu "cfg.arc_segment_len" (Macro "MM_PER_ARC_SEGMENT");
  mkItem ("mt,min_s,[mt]  min_segment_time   %10.0f uSec" ++ NL) print_lin get_dbl set_dbl "cfg.estd_segment_usec" (Macro "ESTD_SEGMENT_USEC");
  mkItem ("ic,ignore_c,[ic]  ignore_CR (on RX)%12d [0,1]" ++ NL) print_ui8 get_ui8 set_ic "cfg.ignore_cr" (Macro "COM_IGNORE_RX_CR");
  mkItem ("il,ignore_l,[il]  ignore_LF (on RX)%12d [0,1]" ++ NL) print_ui8 get_ui8 set_il "cfg.ignore_lf" (Macro "COM_IGNORE_RX_LF");
  mkItem ("ec,enable_c,[ec]  enable_CR (on TX)%12d [0,1]" ++ NL) print_ui8 get_ui8 set_ec "cfg.enable_cr" (Macro "COM_APPEND_TX_CR");
  mkItem ("ee,enable_e,[ee]  enable_echo      %12d [0,1]" ++ NL) print_ui8 get_ui8 set_ee "cfg.enable_echo" (Macro "COM_ENABLE_ECHO");
  mkItem ("ex,enable_x,[ex]  enable_xon_xoff  %12d [0,1]" ++ NL) print_ui8 get_ui8 set_ex "cfg.enable_xon" (Macro "COM_ENABLE_XON");
  mkItem ("1ma,m1_ma, [1ma] m1_map_to_axis%15d [0=X, 1=Y...]" ++ NL) print_ui8 get_ui8 set_ui8 "cfg.m[MOTOR_1].motor_map" (Macro "M1_MOTOR_MAP");
  mkItem ("1sa,m1_s,  [1sa] m1_step_angle%20.3f%S" ++ NL) print_rot get_dbl set_sa "cfg.m[MOTOR_1].step_angle" (Macro "M1_STEP_ANGLE");
  mkItem ("1tr,m1_tr, [1tr] m1_travel_per_revolution%9.3f%S" ++ NL) print_lin get_dbl set_sa "cfg.m[MOTOR_1].travel_rev" (Macro "M1_TRAVEL_PER_REV");
  mkItem ("1mi,m1_mi, [1mi] m1_microsteps %15d [1,2,4,8]" ++ NL) print_ui8 get_ui8 set_mi "cfg.m[MOTOR_1].microsteps" (Macro "M1_MICROSTEPS");
  mkItem ("1po,m1_pol,[1po] m1_polarity   %15d [0,1]" ++ NL) print_ui8 get_ui8 set_po "cfg.m[MOTOR_1].polarity" (Macro "M1_POLARITY");
  mkItem ("1pm,m1_pow,[1pm] m1_power_management%10d [0,1]" ++ NL) print_ui8 get_ui8 set_ui8 "cfg.m[MOTOR_1].power_mode" (Macro "M1_POWER_MODE");
  mkItem ("2ma,m2_ma, [2ma] m2_map_to_axis%15d [0=X, 1=Y...]" ++ NL) print_ui8 get_ui8 set_ui8 "cfg.m[MOTOR_2].motor_map" (Macro "M2_MOTOR_MAP");
  mkItem ("2sa,m2_s,  [2sa] m2_step_angle%20.3f%S" ++ NL) print_rot get_dbl set_sa "cfg.m[MOTOR_2].step_angle" (Macro "M2_STEP_ANGLE");
  mkItem ("2tr,m2_tr, [2tr] m2_travel_per_revolution%9.3f%S" ++ NL) print_lin get_dbl set_sa "cfg.m[MOTOR_2].travel_rev" (Macro "M2_TRAVEL_PER_REV");
  mkItem ("2mi,m2_mi, [2mi] m2_microsteps %15d [1,2,4,8]" ++ NL) print_ui8 get_ui8 set_mi "cfg.m[MOTOR_2].microsteps" (Macro "M2_MICROSTEPS");
  mkItem ("2po,m2_pol,[2po] m2_polarity   %15d [0,1]" ++ NL) print_ui8 get_ui8 set_po "cfg.m[MOTOR_2].polarity" (Macro "M2_POLARITY");
  mkItem ("2pm,m2_pow,[2pm] m2_power_management%10d [0,1]" ++ NL) print_ui8 get_ui8 set_ui8 "cfg.m[MOTOR_2].power_mode" (Macro "M2_POWER_MODE");
  mkItem ("3ma,m3_ma, [3ma] m3_map_to_axis%15d [0=X, 1=Y...]" ++ NL) print_ui8 get_ui8 set_ui8 "cfg.m[MOTOR_3].motor_map" (Macro "M3_MOTOR_MAP");
  mkItem ("3sa,m3_s,  [3sa] m3_step_angle%20.3f%S" ++ NL) print_rot get_dbl set_sa "cfg.m[MOTOR_3].step_angle" (Macro "M3_STEP_ANGLE");
  mkItem ("3tr,m3_tr, [3tr] m3_travel_per_revolution%9.3f%S" ++ NL) print_lin get_dbl set_sa "cfg.m[MOTOR_3].travel_rev" (Macro "M3_TRAVEL_PER_REV");
  mkItem ("3mi,m3_mi, [3mi] m3_microsteps %15d [1,2,4,8]" ++ NL) print_ui8 get_ui8 set_mi "cfg.m[MOTOR_3].microsteps" (Macro "M3_MICROSTEPS");
  mkItem ("3po,m3_pol,[3po] m3_polarity   %15d [0,1]" ++ NL) print_ui8 get_ui8 set_po "cfg.m[MOTOR_3].polarity" (Macro "M3_POLARITY");
  mkItem ("3pm,m3_pow,[3pm] m3_power_management%10d [0,1]" ++ NL) print_ui8 get_ui8 set_ui8 "cfg.m[MOTOR_3].power_mode" (Macro "M3_POWER_MODE");
  mkItem ("4ma,m4_ma, [4ma] m4_map_to_axis%15d [0=X, 1=Y...]" ++ NL) print_ui8 get_ui8 set_ui8 "cfg.m[MOTOR_4].motor_map" (Macro "M4_MOTOR_MAP");
  mkItem ("4sa,m4_s,  [4sa] m4_step_angle%20.3f%S" ++ NL) print_rot get_dbl set_sa "cfg.m[MOTOR_4].step_angle" (Macro "M4_STEP_ANGLE");
  mkItem ("4tr,m4_tr, [4tr] m4_travel_per_revolution%9.3f%S" ++ NL) print_lin get_dbl set_sa "cfg.m[MOTOR_4].travel_rev" (Macro "M4_TRAVEL_PER_REV");
  mkItem ("4mi,m4_mi, [4mi] m4_microsteps %15d [1,2,4,8]" ++ NL) print_ui8 get_ui8 set_mi "cfg.m[MOTOR_4].microsteps" (Macro "M4_MICROSTEPS");
  mkItem ("4po,m4_pol,[4po] m4_polarity   %15d [0,1]" ++ NL) print_ui8 get_ui8 set_po "cfg.m[MOTOR_4].polarity" (Macro "M4_POLARITY");
  mkItem ("4pm,m4_pow,[4pm] m4_power_management%10d [0,1]" ++ NL) print_ui8 get_ui8 set_ui8 "cfg.m[MOTOR_4].power_mode" (Macro "M4_POWER_MODE");
  mkItem ("xam,x_a,[xam] x_axis_mode%18d %S" ++ NL) print_am get_am set_ui8 "cfg.a[X].axis_mode" (Macro "X_AXIS_MODE");
  mkItem ("xfr,x_f,[xfr] x_feedrate_maximum%15.3f%S/min" ++ NL) print_lin get_dbu set_dbu "cfg.a[X].feedrate_max" (Macro "X_FEEDRATE_MAX");
  mkItem ("xvm,x_v,[xvm] x_velocity_maximum%15.3f%S/min" ++ NL) print_lin get_dbu set_dbu "cfg.a[X].velocity_max" (Macro "X_VELOCITY_MAX");
  mkItem ("xtm,x_t,[xtm] x_travel_maximum%17.3f%S" ++ NL) print_lin get_dbu set_dbu "cfg.a[X].travel_max" (Macro "X_TRAVEL_MAX");
  mkItem ("xjm,x_je,[xjm] x_jerk_maximum%15.0f%S/min^3" ++ NL) print_lin get_dbu set_dbu "cfg.a[X].jerk_max" (Macro "X_JERK_MAX");
  mkItem ("xjd,x_ju,[xjd] x_junction_deviation%14.4f%S" ++ NL) print_lin get_dbu set_dbu "cfg.a[X].junction_dev" (Macro "X_JUNCTION_DEVIATION");
  mkItem ("xsm,x_s,[xsm] x_switch_mode%16d [0,1]" ++ NL) print_ui8 get_ui8 set_ui8 "cfg.a[X].switch_mode" (Macro "X_SWITCH_MODE");
  mkItem ("xsv,x_s,[xsv] x_search_velocity%16.3f%S/min" ++ NL) print_lin get_dbu set_dbu "cfg.a[X].search_velocity" (Macro "X_SEARCH_VELOCITY");
  mkItem ("xlv,x_l,[xlv] x_latch_velocity%17.3f%S/min" ++ NL) print_lin get_dbu set_dbu "cfg.a[X].latch_velocity" (Macro "X_LATCH_VELOCITY");
  mkItem ("xzo,x_z,[xzo] x_zero_offset%20.3f%S" ++ NL) print_lin get_dbu set_dbu "cfg.a[X].zero_offset" (Macro "X_ZERO_OFFSET");
  mkItem ("xabs,x_ab,x_absolute_position%13.3f%S" ++ NL) print_lin get_abs set_nul "tg.null" (Lit 0%float);
  mkItem ("xpos,x_po,x_position%22.3f%S" ++ NL) print_lin get_pos set_nul "tg.null" (Lit 0%float);
  mkItem ("yam,y_a,[yam] y_axis_mode%18d %S" ++ NL) print_am get_am set_ui8 "cfg.a[Y].axis_mode" (Macro "Y_AXIS_MODE");
  mkItem ("yfr,y_f,[yfr] y_feedrate_maximum%15.3f%S/min" ++ NL) print_lin get_dbu set_dbu "cfg.a[Y].feedrate_max" (Macro "Y_FEEDRATE_MAX");
  mkItem ("yvm,y_v,[yvm] y_velocity_maximum%15.3f%S/min" ++ NL) print_lin get_dbu set_dbu "cfg.a[Y].velocity_max" (Macro "Y_VELOCITY_MAX");
  mkItem ("ytm,y_t,[ytm] y_travel_maximum%17.3f%S" ++ NL) print_lin get_dbu set_dbu "cfg.a[Y].travel_max" (Macro "Y_TRAVEL_MAX");
  mkItem ("yjm,y_je,[yjm] y_jerk_maximum%15.0f%S/min^3" ++ NL) print_lin get_dbu set_dbu "cfg.a[Y].jerk_max" (Macro "Y_JERK_MAX");
  mkItem ("yjd,y_ju,[yjd] y_junction_deviation%14.4f%S" ++ NL) print_lin get_dbu set_dbu "cfg.a[Y].junction_dev" (Macro "Y_JUNCTION_DEVIATION");
  mkItem ("ysm,y_s,[ysm] y_switch_mode%16d [0,1]" ++ NL) print_ui8 get_ui8 set_ui8 "cfg.a[Y].switch_mode" (Macro "Y_SWITCH_MODE");
  mkItem ("ysv,y_s,[ysv] y_search_velocity%16.3f%S/min" ++ NL) print_lin get_dbu set_dbu "cfg.a[Y].search_velocity" (Macro "Y_SEARCH_VELOCITY");
  mkItem ("ylv,y_l,[ylv] y_latch_velocity%17.3f%S/min" ++ NL) print_lin get_dbu set_dbu "cfg.a[Y].latch_velocity" (Macro "Y_LATCH_VELOCITY");
  mkItem ("yzo,y_z,[yzo] y_zero_offset%20.3f%S" ++ NL) print_lin get_dbu set_dbu "cfg.a[Y].zero_offset" (Macro "Y_ZERO_OFFSET");
  mkItem ("yabs,y_ab,[yabs] y_absolute_position%13.3f%S" ++ NL) print_lin get_abs set_nul "tg.null" (Lit 0%float);
  mkItem ("ypos,y_po,[ypos] y_position%22.3f%S" ++ NL) print_lin get_pos set_nul "tg.null" (Lit 0%float);
  mkItem ("zam,z_a,[zam] z_axis_mode%18d %S" ++ NL) print_am get_am set_ui8 "cfg.a[Z].axis_mode" (Macro "Z_AXIS_MODE");
  mkItem ("zfr,z_f,[zfr] z_feedrate_maximum%15.3f%S/min" ++ NL) print_lin get_dbu set_dbu "cfg.a[Z].feedrate_max" (Macro "Z_FEEDRATE_MAX");
  mkItem ("zvm,z_v,[zvm] z_velocity_maximum%15.3f%S/min" ++ NL) print_lin get_dbu set_dbu "cfg.a[Z].velocity_max" (Macro "Z_VELOCITY_MAX");
  mkItem ("ztm,z_t,[ztm] z_travel_maximum%17.3f%S" ++ NL) print_lin get_dbu set_dbu "cfg.a[Z].travel_max" (Macro "Z_TRAVEL_MAX");
  mkItem ("zjm,z_je,[zjm] z_jerk_maximum%15.0f%S/min^3" ++ NL) print_lin get_dbu set_dbu "cfg.a[Z].jerk_max" (Macro "Z_JERK_MAX");
  mkItem ("zjd,z_ju,[zjd] z_junction_deviation%14.4f%S" ++ NL) print_lin get_dbu set_dbu "cfg.a[Z].junction_dev" (Macro "Z_JUNCTION_DEVIATION");
  mkItem ("zsm,z_s,[zsm] z_switch_mode%16d [0,1]" ++ NL) print_ui8 get_ui8 set_ui8 "cfg.a[Z].switch_mode" (Macro "Z_SWITCH_MODE");
  mkItem ("zsv,z_s,[zsv] z_search_velocity%16.3f%S/min" ++ NL) print_lin get_dbu set_dbu "cfg.a[Z].search_velocity" (Macro "Z_SEARCH_VELOCITY");
  mkItem ("zlv,z_l,[zlv] z_latch_velocity%17.3f%S/min" ++ NL) print_lin get_dbu set_dbu "cfg.a[Z].latch_velocity" (Macro "Z_LATCH_VELOCITY");
  mkItem ("zzo,z_z,[zzo] z_zero_offset%20.3f%S" ++ NL) print_lin get_dbu set_dbu "cfg.a[Z].zero_offset" (Macro "Z_ZERO_OFFSET");
  mkItem ("zabs,z_ab,[zabs] z_absolute_position%13.3f%S" ++ NL) print_lin get_abs set_nul "tg.null" (Lit 0%float);
  mkItem ("zpos,z_po,[zpos] z_position%22.3f%S" ++ NL) print_lin get_pos set_nul "tg.null" (Lit 0%float);
  mkItem ("aam,a_a,[aam] a_axis_mode%18d %S" ++ NL) print_am get_am set_ui8 "cfg.a[A].axis_mode" (Macro "A_AXIS_MODE");
  mkItem ("afr,a_f,[afr] a_feedrate_maximum%15.3f%S/min" ++ NL) print_rot get_dbl set_dbl "cfg.a[A].feedrate_max" (Macro "A_FEEDRATE_MAX");
  mkItem ("avm,a_v,[avm] a_velocity_maximum%15.3f%S/min" ++ NL) print_rot get_dbl set_dbl "cfg.a[A].velocity_max" (Macro "A_VELOCITY_MAX");
  mkItem ("atm,a_t,[atm] a_travel_maximum  %15.3f%S" ++ NL) print_rot get_dbl set_dbl "cfg.a[A].travel_max" (Macro "A_TRAVEL_MAX");
  mkItem ("ajm,a_je,[ajm] a_jerk_maximum%15.0f%S/min^3" ++ NL) print_rot get_dbl set_dbl "cfg.a[A].jerk_max" (Macro "A_JERK_MAX");
  mkItem ("ajd,a_ju,[ajc] a_junction_deviation%14.4f%S" ++ NL) print_rot get_dbl set_dbl "cfg.a[A].junction_dev" (Macro "A_JUNCTION_DEVIATION");
  mkItem ("ara,a_r,[ara] a_radius_value%20.4f%S" ++ NL) print_rot get_dbl set_dbl "cfg.a[A].radius" (Macro "A_RADIUS");
  mkItem ("asm,a_s,[asm] a_switch_mode%16d [0,1]" ++ NL) print_ui8 get_ui8 set_ui8 "cfg.a[A].switch_mode" (Macro "A_SWITCH_MODE");
  mkItem ("asv,a_s,[asv] a_search_velocity%16.3f%S/min" ++ NL) print_rot get_dbl set_dbl "cfg.a[A].search_velocity" (Macro "A_SEARCH_VELOCITY");
  mkItem ("alv,a_l,[alv] a_latch_velocity%17.3f%S/min" ++ NL) print_rot get_dbl set_dbl "cfg.a[A].latch_velocity" (Macro "A_LATCH_VELOCITY");
  mkItem ("azo,a_z,[azo] a_zero_offset%20.3f%S" ++ NL) print_rot get_dbl set_dbl "cfg.a[A].zero_offset" (Macro "A_ZERO_OFFSET");
  mkItem ("aabs,a_ab,[aabs] a_absolute_position%13.3f%S" ++ NL) print_rot get_abs set_nul "tg.null" (Lit 0%float);
  mkItem ("apos,a_po,[apos] a_position%22.3f%S" ++ NL) print_rot get_pos set_nul "tg.null" (Lit 0%float);
  mkItem ("bam,b_a,[bam] b_axis_mode%18d %S" ++ NL) print_am get_am set_ui8 "cfg.a[B].axis_mode" (Macro "B_AXIS_MODE");
  mkItem ("bfr,b_f,[bfr] b_feedrate_maximum%15.3f%S/min" ++ NL) print_rot get_dbl set_dbl "cfg.a[B].feedrate_max" (Macro "B_FEEDRATE_MAX");
  mkItem ("bvm,b_v,[bvm] b_velocity_maximum%15.3f%S/min" ++ NL) print_rot get_dbl set_dbl "cfg.a[B].velocity_max" (Macro "B_VELOCITY_MAX");
  mkItem ("btm,b_t,[btm] b_travel_maximum%17.3f%S" ++ NL) print_rot get_dbl set_dbl "cfg.a[B].travel_max" (Macro "B_TRAVEL_MAX");
  mkItem ("bjm,b_je,[bjm] b_jerk_maximum%15.0f%S/min^3" ++ NL) print_rot get_dbl set_dbl "cfg.a[B].jerk_max" (Macro "B_JERK_MAX");
  mkItem ("bcd,b_ju,[bjd] b_junction_deviation%14.4f%S" ++ NL) print_rot get_dbl set_dbl "cfg.a[B].junction_dev" (Macro "B_JUNCTION_DEVIATION");
  mkItem ("bra,b_r,[bra] b_radius_value%20.4f%S" ++ NL) print_rot get_dbl set_dbl "cfg.a[B].radius" (Macro "B_RADIUS");
  mkItem ("bsm,b_s,[bsm] b_switch_mode%16d [0,1]" ++ NL) print_ui8 get_ui8 set_ui8 "cfg.a[B].switch_mode" (Macro "B_SWITCH_MODE");
  mkItem ("bsv,b_s,[bsv] b_search_velocity%16.3f%S/min" ++ NL) print_rot get_dbl set_dbl "cfg.a[B].search_velocity" (Macro "B_SEARCH_VELOCITY");
  mkItem ("blv,b_l,[blv] b_latch_velocity%17.3f%S/min" ++ NL) print_rot get_dbl set_dbl "cfg.a[B].latch_velocity" (Macro "B_LATCH_VELOCITY");
  mkItem ("bzo,b_z,[bzo] b_zero_offset%20.3f%S" ++ NL) print_rot get_dbl set_dbl "cfg.a[B].zero_offset" (Macro "B_ZERO_OFFSET");
  mkItem ("babs,b_ab,[babs] b_absolute_position%13.3f%S" ++ NL) print_rot get_abs set_nul "tg.null" (Lit 0%float);
  mkItem ("bpos,b_po,[bpos] b_position%22.3f%S" ++ NL) print_rot get_pos set_nul "tg.null" (Lit 0%float);
  mkItem ("cam,c_a,[cam] c_axis_mode%18d %S" ++ NL) print_am get_am set_ui8 "cfg.a[C].axis_mode" (Macro "C_AXIS_MODE");
  mkItem ("cfr,c_f,[cfr] c_feedrate_maximum%15.3f%S/min" ++ NL) print_rot get_dbl set_dbl "cfg.a[C].feedrate_max" (Macro "C_FEEDRATE_MAX");
  mkItem ("cvm,c_v,[cvm] c_velocity_maximum%15.3f%S/min" ++ NL) print_rot get_dbl set_dbl "cfg.a[C].velocity_max" (Macro "C_VELOCITY_MAX");
  mkItem ("ctm,c_t,[ctm] c_travel_maximum%17.3f%S" ++ NL) print_rot get_dbl set_dbl "cfg.a[C].travel_max" (Macro "C_TRAVEL_MAX");
  mkItem ("cjm,c_je,[cjm] c_jerk_maximum%15.0f%S/min^3" ++ NL) print_rot get_dbl set_dbl "cfg.a[C].jerk_max" (Macro "C_JERK_MAX");
  mkItem ("cjd,c_ju,[cjd] c_junction_deviation%14.4f%S" ++ NL) print_rot get_dbl set_dbl "cfg.a[C].junction_dev" (Macro "C_JUNCTION_DEVIATION");
  mkItem ("cra,c_r,[cra] c_radius_value%20.4f%S" ++ NL) print_rot get_dbl set_dbl "cfg.a[C].radius" (Macro "C_RADIUS");
  mkItem ("csm,c_s,[csm] c_switch_mode%16d [0,1]" ++ NL) print_ui8 get_ui8 set_ui8 "cfg.a[C].switch_mode" (Macro "C_SWITCH_MODE");
  mkItem ("csv,c_s,[csv] c_search_velocity%16.3f%S/min" ++ NL) print_rot get_dbl set_dbl "cfg.a[C].search_velocity" (Macro "C_SEARCH_VELOCITY");
  mkItem ("cls,c_l,[clv] c_latch_velocity%17.3f%S/min" ++ NL) print_rot get_dbl set_dbl "cfg.a[C].latch_velocity" (Macro "C_LATCH_VELOCITY");
  mkItem ("czo,c_z,[czo] c_zero_offset%20.3f%S" ++ NL) print_rot get_dbl set_dbl "cfg.a[C].zero_offset" (Macro "C_ZERO_OFFSET");
  mkItem ("cabs,c_ab,[cabs] c_absolute_position%13.3f%S" ++ NL) print_rot get_abs set_nul "tg.null" (Lit 0%float);
  mkItem ("cpos,c_po,[cpos] c_position%22.3f%S" ++ NL) print_rot get_pos set_nul "tg.null" (Lit 0%float);
  mkItem ("g54x,g54_x,[g54x] g54_x_offset%18.3f%S" ++ NL) print_lin get_dbu set_dbu "cfg.offset[G54][X]" (Macro "G54_X_OFFSET");
  mkItem ("g54y,g54_y,[g54y] g54_y_offset%18.3f%S" ++ NL) print_lin get_dbu set_dbu "cfg.offset[G54][Y]" (Macro "G54_Y_OFFSET");
  mkItem ("g54z,g54_z,[g54z] g54_z_offset%18.3f%S" ++ NL) print_lin get_dbu set_dbu "cfg.offset[G54][Z]" (Macro "G54_Z_OFFSET");
  mkItem ("g54a,g54_a,[g54a] g54_a_offset%18.3f%S" ++ NL) print_lin get_dbu set_dbu "cfg.offset[G54][A]" (Macro "G54_A_OFFSET");
  mkItem ("g54b,g54_b,[g54b] g54_b_offset%18.3f%S" ++ NL) print_lin get_dbu set_dbu "cfg.offset[G54][B]" (Macro "G54_B_OFFSET");
  mkItem ("g54c,g54_c,[g54c] g54_c_offset%18.3f%S" ++ NL) print_lin get_dbu set_dbu "cfg.offset[G54][C]" (Macro "G54_C_OFFSET");
  mkItem ("g55x,g55_x,[g55x] g55_x_offset%18.3f%S" ++ NL) print_lin get_dbu set_dbu "cfg.offset[G55][X]" (Macro "G55_X_OFFSET");
  mkItem ("g55y,g55_y,[g55y] g55_y_offset%18.3f%S" ++ NL) print_lin get_dbu set_dbu "cfg.offset[G55][Y]" (Macro "G55_Y_OFFSET");
  mkItem ("g55z,g55_z,[g55z] g55_z_offset%18.3f%S" ++ NL) print_lin get_dbu set_dbu "cfg.offset[G55][Z]" (Macro "G55_Z_OFFSET");
  mkItem ("g55a,g55_a,[g55a] g55_a_offset%18.3f%S" ++ NL) print_lin get_dbu set_dbu "cfg.offset[G55][A]" (Macro "G55_A_OFFSET");
  mkItem ("g55b,g55_b,[g55b] g55_b_offset%18.3f%S" ++ NL) print_lin get_dbu set_dbu "cfg.offset[G55][B]" (Macro "G55_B_OFFSET");
  mkItem ("g55c,g55_c,[g55c] g55_c_offset%18.3f%S" ++ NL) print_lin get_dbu set_dbu "cfg.offset[G55][C]" (Macro "G55_C_OFFSET");
  mkItem ("g56x,g56_x,[g56x] g56_x_offset%18.3f%S" ++ NL) print_lin get_dbu set_dbu "cfg.offset[G56][X]" (Macro "G56_X_OFFSET");
  mkItem ("g56y,g56_y,[g56y] g56_y_offset%18.3f%S" ++ NL) print_lin get_dbu set_dbu "cfg.offset[G56][Y]" (Macro "G56_Y_OFFSET");
  mkItem ("g56z,g56_z,[g56z] g56_z_offset%18.3f%S" ++ NL) print_lin get_dbu set_dbu "cfg.offset[G56][Z]" (Macro "G56_Z_OFFSET");
  mkItem ("g56a,g56_a,[g56a] g56_a_offset%18.3f%S" ++ NL) print_lin get_dbu set_dbu "cfg.offset[G56][A]" (Macro "G56_A_OFFSET");
  mkItem ("g56b,g56_b,[g56b] g56_b_offset%18.3f%S" ++ NL) print_lin get_dbu set_dbu "cfg.offset[G56][B]" (Macro "G56_B_OFFSET");
  mkItem ("g56c,g56_c,[g56c] g56_c_offset%18.3f%S" ++ NL) print_lin get_dbu set_dbu "cfg.offset[G56][C]" (Macro "G56_C_OFFSET");
  mkItem ("g57x,g57_x,[g57x] g57_x_offset%18.3f%S" ++ NL) print_lin get_dbu set_dbu "cfg.offset[G57][X]" (Macro "G57_X_OFFSET");
  mkItem ("g57y,g57_y,[g57y] g57_y_offset%18.3f%S" ++ NL) print_lin get_dbu set_dbu "cfg.offset[G57][Y]" (Macro "G57_Y_OFFSET");
  mkItem ("g57z,g57_z,[g57z] g57_z_offset%18.3f%S" ++ NL) print_lin get_dbu set_dbu "cfg.offset[G57][Z]" (Macro "G57_Z_OFFSET");
  mkItem ("g57a,g57_a,[g57a] g57_a_offset%18.3f%S" ++ NL) print_lin get_dbu set_dbu "cfg.offset[G57][A]" (Macro "G57_A_OFFSET");
  mkItem ("g57b,g57_b,[g57b] g57_b_offset%18.3f%S" ++ NL) print_lin get_dbu set_dbu "cfg.offset[G57][B]" (Macro "G57_B_OFFSET");
  mkItem ("g57c,g57_c,[g57c] g57_c_offset%18.3f%S" ++ NL) print_lin get_dbu set_dbu "cfg.offset[G57][C]" (Macro "G57_C_OFFSET");
  mkItem ("g58x,g58_x,[g58x] g58_x_offset%18.3f%S" ++ NL) print_lin get_dbu set_dbu "cfg.offset[G58][X]" (Macro "G58_X_OFFSET");
  mkItem ("g58y,g58_y,[g58y] g58_y_offset%18.3f%S" ++ NL) print_lin get_dbu set_dbu "cfg.offset[G58][Y]" (Macro "G58_Y_OFFSET");
  mkItem ("g58z,g58_z,[g58z] g58_z_offset%18.3f%S" ++ NL) print_lin get_dbu set_dbu "cfg.offset[G58][Z]" (Macro "G58_Z_OFFSET");
  mkItem ("g58a,g58_a,[g58a] g58_a_offset%18.3f%S" ++ NL) print_lin get_dbu set_dbu "cfg.offset[G58][A]" (Macro "G58_A_OFFSET");
  mkItem ("g58b,g58_b,[g58b] g58_b_offset%18.3f%S" ++ NL) print_lin get_dbu set_dbu "cfg.offset[G58][B]" (Macro "G58_B_OFFSET");
  mkItem ("g58c,g58_c,[g58c] g58_c_offset%18.3f%S" ++ NL) print_lin get_dbu set_dbu "cfg.offset[G58][C]" (Macro "G58_C_OFFSET");
  mkItem ("g59x,g59_x,[g59x] g59_x_offset%18.3f%S" ++ NL) print_lin get_dbu set_dbu "cfg.offset[G59][X]" (Macro "G59_X_OFFSET");
  mkItem ("g59y,g59_y,[g59y] g59_y_offset%18.3f%S" ++ NL) print_lin get_dbu set_dbu "cfg.offset[G59][Y]" (Macro "G59_Y_OFFSET");
  mkItem ("g59z,g59_z,[g59z] g59_z_offset%18.3f%S" ++ NL) print_lin get_dbu set_dbu "cfg.offset[G59][Z]" (Macro "G59_Z_OFFSET");
  mkItem ("g59a,g59_a,[g59a] g59_a_offset%18.3f%S" ++ NL) print_lin get_dbu set_dbu "cfg.offset[G59][A]" (Macro "G59_A_OFFSET");
  mkItem ("g59b,g59_b,[g59b] g59_b_offset%18.3f%S" ++ NL) print_lin get_dbu set_dbu "cfg.offset[G59][B]" (Macro "G59_B_OFFSET");
  mkItem ("g59c,g59_c,[g59c] g59_c_offset%18.3f%S" ++ NL) print_lin get_dbu set_dbu "cfg.offset[G59][C]" (Macro "G59_C_OFFSET");
  mkItem "sr00,sr00," print_nul get_int set_int "cfg.status_report_spec[0]" (Lit 0%float);
  mkItem "sr01,sr01," print_nul get_int set_int "cfg.status_report_spec[1]" (Lit 0%float);
  mkItem "sr02,sr02," print_nul get_int set_int "cfg.status_report_spec[2]" (Lit 0%float);
  mkItem "sr03,sr03," print_nul get_int set_int "cfg.status_report_spec[3]" (Lit 0%float);
  mkItem "sr04,sr04," print_nul get_int set_int "cfg.status_report_spec[4]" (Lit 0%float);
  mkItem "sr05,sr05," print_nul get_int set_int "cfg.status_report_spec[5]" (Lit 0%float);
  mkItem "sr06,sr06," print_nul get_int set_int "cfg.status_report_spec[6]" (Lit 0%float);
  mkItem "sr07,sr07," print_nul get_int set_int "cfg.status_report_spec[7]" (Lit 0%float);
  mkItem "sr08,sr08," print_nul get_int set_int "cfg.status_report_spec[8]" (Lit 0%float);
  mkItem "sr09,sr09," print_nul get_int set_int "cfg.status_report_spec[9]" (Lit 0%float);
  mkItem "sr10,sr10," print_nul get_int set_int "cfg.status_report_spec[10]" (Lit 0%float);
  mkItem "sr11,sr11," print_nul get_int set_int "cfg.status_report_spec[11]" (Lit 0%float);
  mkItem "sr12,sr12," print_nul get_int set_int "cfg.status_report_spec[12]" (Lit 0%float);
  mkItem "sr13,sr13," print_nul get_int set_int "cfg.status_report_spec[13]" (Lit 0%float);
  mkItem "sr14,sr14," print_nul get_int set_int "cfg.status_report_spec[14]" (Lit 0%float);
  mkItem "sr15,sr15," print_nul get_int set_int "cfg.status_report_spec[15]" (Lit 0%float);
  mkItem "sr16,sr16," print_nul get_int set_int "cfg.status_report_spec[16]" (Lit 0%float);
  mkItem "sr17,sr17," print_nul get_int set_int "cfg.status_report_spec[17]" (Lit 0%float);
  mkItem "sr18,sr18," print_nul get_int set_int "cfg.status_report_spec[18]" (Lit 0%float);
  mkItem "sr19,sr19," print_nul get_int set_int "cfg.status_report_spec[19]" (Lit 0%float);
  mkItem "g54,g54," print_grp get_grp set_grp "tg.null" (Lit 0%float);
  mkItem "g55,g55," print_grp get_grp set_grp "tg.null" (Lit 0%float);
  mkItem "g56,g56," print_grp get_grp set_grp "tg.null" (Lit 0%float);
  mkItem "g57,g57," print_grp get_grp set_grp "tg.null" (Lit 0%float);
  mkItem "g58,g58," print_grp get_grp set_grp "tg.null" (Lit 0%float);
  mkItem "g59,g59," print_grp get_grp set_grp "tg.null" (Lit 0%float);
  mkItem "sys,sys," print_grp get_sys set_grp "tg.null" (Lit 0%float);
  mkItem "?,qm," print_grp get_qm set_nul "tg.null" (Lit 0%float);
  mkItem "x,x," print_grp get_grp set_grp "tg.null" (Lit 0%float);
  mkItem "y,y," print_grp get_grp set_grp "tg.null" (Lit 0%float);
  mkItem "z,z," print_grp get_grp set_grp "tg.null" (Lit 0%float);
  mkItem "a,a," print_grp get_grp set_grp "tg.null" (Lit 0%float);
  mkItem "b,b," print_grp get_grp set_grp "tg.null" (Lit 0%float);
  mkItem "c,c," print_grp get_grp set_grp "tg.null" (Lit 0%float);
  mkItem "1,1," print_grp get_grp set_grp "tg.null" (Lit 0%float);
  mkItem "2,2," print_grp get_grp set_grp "tg.null" (Lit 0%float);
  mkItem "3,3," print_grp get_grp set_grp "tg.null" (Lit 0%float);
  mkItem "4,4," print_grp get_grp set_grp "tg.null" (Lit 0%float)
].

Definition CMD_INDEX_MAX : nat := List.length cfgArray.

(** "hack alert. Find a better way to do this" *)
Definition CMD_COUNT_STATUS : nat := 20.
Definition CMD_COUNT_GROUPS : nat := 17.
Definition CMD_INDEX_END_SINGLES : nat := CMD_INDEX_MAX - CMD_COUNT_STATUS - CMD_COUNT_GROUPS.
Definition CMD_INDEX_START_GROUPS : nat := CMD_INDEX_MAX - CMD_COUNT_GROUPS.

Definition null_item : cfgItem :=
  mkItem EmptyString print_nul get_ui8 set_nul "tg.null" (Lit 0%float).

(** [cfgArray[i]] for an index already bound-checked by the caller. *)
Definition item_at (i : nat) : cfgItem := nth i cfgArray null_item.

Definition in_table (i : INDEX_T) : bool := ((0 <=? i) && (i <? Z.of_nat CMD_INDEX_MAX))%Z.

(** ** Name and token resolution *)

(** [strstr(a, b) == a] *)
Definition strstr_is_start (a b : string) : bool :=
  match strstr a b with Some 0 => true | _ => false end.

(** The text of [s] before its first comma and the text after it.  With no
    comma the C code dereferences NULL; no descriptor string of [cfgArray] is
    of that kind (see [cfgArray_strings_ok]). *)
Definition split_comma (s : string) : string * string :=
  match strstr s "," with
  | Some k => (substring 0 k s, str_from (S k) s)
  | None => (s, EmptyString)
  end.

(** The token and the friendly name as [cmd_get_index] cuts them out of the
    first [CMD_NAMES_FIELD_LEN] characters of a descriptor string. *)
Definition names_fields (s : string) : string * string :=
  let '(token, rest) := split_comma (strncpy s CMD_NAMES_FIELD_LEN) in
  (token, fst (split_comma rest)).

Fixpoint cmd_get_index_scan (tbl : list cfgItem) (i : INDEX_T) (str : string) : INDEX_T :=
  match tbl with
  | [] => (-1)%Z
  | it :: rest =>
      let '(token, name) := names_fields (item_string it) in
      if strstr_is_start str token then i
      else if strstr_is_start str name then i
      else cmd_get_index_scan rest (i + 1)%Z str
  end.

Definition cmd_get_index (str : string) : INDEX_T := cmd_get_index_scan cfgArray 0%Z str.

(** One iteration of the scan of [cmd_get_index_by_token]: does [str] match
    the four characters copied from the descriptor string? *)
Definition token_test (token str : string) : bool :=
  let t := char_at token in
  let s := char_at str in
  if negb (Ascii.eqb (t 0) (s 0)) || negb (Ascii.eqb (t 1) (s 1)) then false
  else if Ascii.eqb (t 2) "," && Ascii.eqb (s 2) NUL then true
  else if negb (Ascii.eqb (t 2) (s 2)) then false
  else if Ascii.eqb (t 3) "," && Ascii.eqb (s 3) NUL then true
  else if negb (Ascii.eqb (t 3) (s 3)) then false
  else true.

Fixpoint cmd_get_index_by_token_scan (tbl : list cfgItem) (i : INDEX_T) (str : string) : INDEX_T :=
  match tbl with
  | [] => (-1)%Z
  | it :: rest =>
      if token_test (strncpy (item_string it) CMD_TOKEN_LEN) str then i
      else cmd_get_index_by_token_scan rest (i + 1)%Z str
  end.

Definition cmd_get_index_by_token (str : string) : INDEX_T :=
  cmd_get_index_by_token_scan cfgArray 0%Z str.

(** The token of a descriptor string: the text before the first comma of its
    first [CMD_TOKEN_LEN + 1] characters. *)
Definition token_of_string (s : string) : string :=
  fst (split_comma (strncpy s (CMD_TOKEN_LEN + 1))).

Definition cmd_get_token (i : INDEX_T) : string :=
  if in_table i then token_of_string (item_string (item_at (Z.to_nat i)))
  else EmptyString.

Definition name_of_string (s : string) : string := snd (names_fields s).

(** Every descriptor string carries both commas inside the copied fields, and
    its first four characters are not NUL. *)
Definition string_ok (s : string) : bool :=
  match strstr (strncpy s (CMD_TOKEN_LEN + 1)) "," with
  | Some k =>
      match strstr (str_from (S k) (strncpy s CMD_NAMES_FIELD_LEN)) "," with
      | Some _ => Nat.leb 1 k && Nat.leb CMD_TOKEN_LEN (String.length s)
                  && forallb (fun c => negb (Ascii.eqb c NUL)) (list_ascii_of_string (strncpy s CMD_TOKEN_LEN))
      | None => false
      end
  | None => false
  end.

(** ** Numeric conversions

    [double] is modelled by binary floating point numbers (the binary64 of
    the host; avr-gcc gives [double] 32 bits, and nothing below depends on
    the width). *)

(** The integral part of a finite number (truncation toward zero). *)
Definition d2Z (d : double) : Z :=
  match Prim2SF d with
  | S754_finite s m e =>
      let mag := if (0 <=? e)%Z then (Z.pos m * 2 ^ e)%Z else (Z.pos m / 2 ^ (- e))%Z in
      if s then (- mag)%Z else mag
  | _ => 0%Z
  end.

Definition Z2d (z : Z) : double :=
  if (z <? 0)%Z then PrimFloat.opp (PrimFloat.of_uint63 (Uint63.of_Z (- z)))
  else PrimFloat.of_uint63 (Uint63.of_Z z).

Definition is_finite (d : double) : bool :=
  match Prim2SF d with
  | S754_zero _ | S754_finite _ _ _ => true
  | _ => false
  end.

(** The integral part of [d] can be represented in an unsigned type of
    [bits] bits: the condition under which C defines the conversion. *)
Definition fits_unsigned (bits : Z) (d : double) : bool :=
  is_finite d && (0 <=? d2Z d)%Z && (d2Z d <? 2 ^ bits)%Z.

(** [ceil(d)] as an integer, for a finite [d]. *)
Definition ceilZ (d : double) : Z :=
  let t := d2Z d in
  if PrimFloat.ltb (Z2d t) d then (t + 1)%Z else t.

(** [ceil(d)]: an integer is its own ceiling, and so are the numbers from
    2^52 on, the infinities and NaN; a negative number above -1 gives the
    negative zero. *)
Definition ceil (d : double) : double :=
  if is_finite d && PrimFloat.ltb (PrimFloat.abs d) 0x1p+52%float then
    if PrimFloat.eqb (Z2d (d2Z d)) d then d
    else if PrimFloat.ltb d 0%float && (ceilZ d =? 0)%Z then (-0)%float
    else Z2d (ceilZ d)
  else d.

Definition NE_ZERO (d : double) : bool := negb (PrimFloat.eqb d 0%float).

(** Modelled from the spec: the conversion factors of util.h, which is not
    at hand: 25.4 millimetres to the inch, and its reciprocal. *)
Definition MM_PER_INCH : double := 0x1.9666666666666p+4%float.   (* 25.4 *)
Definition INCH_PER_MM : double := (1 / MM_PER_INCH)%float.

Definition INCHES_MODE : Z := 0%Z.
Definition MILLIMETER_MODE : Z := 1%Z.

(** ** Command objects *)

(** The kinds of value config.c names; [_set_sr] also compares the kind
    against [true], which is the boolean kind here. *)

Inductive valueType :=
  VALUE_TYPE_NULL | VALUE_TYPE_FALSE | VALUE_TYPE_TRUE | VALUE_TYPE_INT32
| VALUE_TYPE_FLOAT | VALUE_TYPE_STRING | VALUE_TYPE_PARENT.

Definition valueType_eqb (a b : valueType) : bool :=
  match a, b with
  | VALUE_TYPE_NULL, VALUE_TYPE_NULL | VALUE_TYPE_FALSE, VALUE_TYPE_FALSE
  | VALUE_TYPE_TRUE, VALUE_TYPE_TRUE | VALUE_TYPE_INT32, VALUE_TYPE_INT32
  | VALUE_TYPE_FLOAT, VALUE_TYPE_FLOAT | VALUE_TYPE_STRING, VALUE_TYPE_STRING
  | VALUE_TYPE_PARENT, VALUE_TYPE_PARENT => true
  | _, _ => false
  end.

(** [struct cmdObject]; [nx] points into the array the object lives in. *)
Record cmdObj := mkCmd {
  cmd_index : INDEX_T;
  cmd_name : string;
  cmd_token : string;
  cmd_value : double;
  cmd_value_type : valueType;
  cmd_string : string;
  cmd_nx : option nat;
  cmd_status : status
}.

(** [memset(cmd, 0, sizeof ...)] followed by [value_type = VALUE_TYPE_NULL]. *)
Definition cmd_new_object : cmdObj :=
  mkCmd 0%Z EmptyString EmptyString 0%float VALUE_TYPE_NULL EmptyString None TG_OK.

Definition set_index (c : cmdObj) (i : INDEX_T) : cmdObj :=
  mkCmd i (cmd_name c) (cmd_token c) (cmd_value c) (cmd_value_type c) (cmd_string c) (cmd_nx c) (cmd_status c).
Definition set_name (c : cmdObj) (s : string) : cmdObj :=
  mkCmd (cmd_index c) s (cmd_token c) (cmd_value c) (cmd_value_type c) (cmd_string c) (cmd_nx c) (cmd_status c).
Definition set_token (c : cmdObj) (s : string) : cmdObj :=
  mkCmd (cmd_index c) (cmd_name c) s (cmd_value c) (cmd_value_type c) (cmd_string c) (cmd_nx c) (cmd_status c).
Definition set_value (c : cmdObj) (v : double) : cmdObj :=
  mkCmd (cmd_index c) (cmd_name c) (cmd_token c) v (cmd_value_type c) (cmd_string c) (cmd_nx c) (cmd_status c).
Definition set_value_type (c : cmdObj) (t : valueType) : cmdObj :=
  mkCmd (cmd_index c) (cmd_name c) (cmd_token c) (cmd_value c) t (cmd_string c) (cmd_nx c) (cmd_status c).
Definition set_string (c : cmdObj) (s : string) : cmdObj :=
  mkCmd (cmd_index c) (cmd_name c) (cmd_token c) (cmd_value c) (cmd_value_type c) s (cmd_nx c) (cmd_status c).
Definition set_nx (c : cmdObj) (n : option nat) : cmdObj :=
  mkCmd (cmd_index c) (cmd_name c) (cmd_token c) (cmd_value c) (cmd_value_type c) (cmd_string c) n (cmd_status c).
Definition set_status (c : cmdObj) (s : status) : cmdObj :=
  mkCmd (cmd_index c) (cmd_name c) (cmd_token c) (cmd_value c) (cmd_value_type c) (cmd_string c) (cmd_nx c) s.

(** An array of command objects, read and written through a position. *)
Definition obj_at (arr : list cmdObj) (p : nat) : cmdObj := nth p arr cmd_new_object.

Fixpoint obj_put (arr : list cmdObj) (p : nat) (c : cmdObj) : list cmdObj :=
  match arr, p with
  | [], _ => []
  | _ :: rest, O => c :: rest
  | x :: rest, S p' => x :: obj_put rest p' c
  end.

(** ** Machine state *)

(** A live storage cell, by the width it was last written at. *)
Inductive val := VU8 (z : Z) | VU32 (z : Z) | VDbl (d : double).

(** Reads at a width.  Every target of [cfgArray] is read at the width it is
    written at; a read at another width depends on the byte layout and gives 0. *)
Definition read_u8 (v : val) : Z := match v with VU8 z => z | _ => 0%Z end.
Definition read_u32 (v : val) : Z := match v with VU32 z => z | _ => 0%Z end.
Definition read_dbl (v : val) : double := match v with VDbl d => d | _ => 0%float end.

(** Calls into the collaborators, in the order they were made.  A print
    carries the arguments handed to [fprintf] after the format: the value
    and, for the print functions that pass one, the unit or message string. *)
Inductive event :=
  Ev_xio_cntl (flag : string)
| Ev_st_set_microsteps (motor : Z) (v : Z)
| Ev_st_set_polarity (motor : Z) (v : Z)
| Ev_gcode (block : string)
| Ev_gcode_response (st : status)
| Ev_status_report
| Ev_print (i : INDEX_T) (v : val) (text : option string).

Record machine := mkMachine {
  mem : string -> val;           (* the fields of cfg, tg, cm and gm *)
  nvm : Z -> double;             (* the EEPROM, one value per index *)
  nvm_log : list (Z * double);   (* EEPROM writes, oldest first *)
  cmd_array : list cmdObj;       (* the global array of command objects *)
  in_buf : string;               (* tg.in_buf *)
  io_log : list event
}.

Definition with_mem (m : machine) (f : string -> val) : machine :=
  mkMachine f (nvm m) (nvm_log m) (cmd_array m) (in_buf m) (io_log m).
Definition with_cmd_array (m : machine) (a : list cmdObj) : machine :=
  mkMachine (mem m) (nvm m) (nvm_log m) a (in_buf m) (io_log m).
Definition with_in_buf (m : machine) (s : string) : machine :=
  mkMachine (mem m) (nvm m) (nvm_log m) (cmd_array m) s (io_log m).
Definition emit (m : machine) (e : event) : machine :=
  mkMachine (mem m) (nvm m) (nvm_log m) (cmd_array m) (in_buf m) (io_log m ++ [e]).

(** [*target = v] *)
Definition store (m : machine) (target : string) (v : val) : machine :=
  with_mem m (fun t => if String.eqb t target then v else mem m t).

Definition load (m : machine) (target : string) : val := mem m target.

(** The collaborators and the compile-time settings config.c depends on:
    the macros of settings.h and tinyg.h, libc's [strtod] (value and number of
    characters consumed), the planner, gcode and report entry points, and
    what the platform does where C leaves the result open: the conversion
    of a number that does not fit the integer type, by width, and the
    string found by an index beyond the end of a message array in program
    memory. *)
Record Env := mkEnv {
  settings : string -> double;
  strtod : string -> double * nat;
  CMD_MAX_OBJECTS : nat;
  CMD_STATUS_REPORT_LEN : nat;
  CMD_STRING_LEN : nat;
  INPUT_BUFFER_LEN : nat;
  gc_gcode_parser : string -> status;
  mp_get_runtime_velocity : machine -> double;
  cm_get_machine_runtime_position : Z -> machine -> double;
  cm_get_work_runtime_position : Z -> machine -> double;
  rpt_init_status_report : bool -> machine -> machine;
  cast_out_of_range : Z -> double -> Z;
  pgm_read_beyond : list string -> nat -> string
}.

(** A conversion of a [double] to an unsigned integer type of [bits] bits
    truncates toward zero.  C defines it only when the integral part fits
    the type; for the other numbers the result is what the conversion
    routine of the platform leaves in the destination, [cast_out_of_range]
    cut to the width of the type. *)
Definition to_unsigned (E : Env) (bits : Z) (d : double) : Z :=
  if fits_unsigned bits d then d2Z d else (cast_out_of_range E bits d mod 2 ^ bits)%Z.

Definition to_u8 (E : Env) (d : double) : Z := to_unsigned E 8 d.
Definition to_u32 (E : Env) (d : double) : Z := to_unsigned E 32 d.

Definition def_value (E : Env) (it : cfgItem) : double :=
  match item_def it with Lit v => v | Macro n => settings E n end.

(** Modelled from the spec: the active linear unit mode of the canonical
    machine (canonical_machine.c is not at hand) is the [gm.units_mode] field
    that the "unit" descriptor reads. *)
Definition cm_get_units_mode (m : machine) : Z := read_u8 (load m "gm.units_mode").

(** Modelled from the spec: changing the active unit mode
    (canonical_machine.c is not at hand) writes the [gm.units_mode] field and
    nothing else; conversion happens inside get and set only. *)
Definition cm_set_units_mode (m : machine) (mode : Z) : machine :=
  store m "gm.units_mode" (VU8 mode).

(** ** Helpers that rely on the token naming conventions *)

Definition first_char (i : nat) : ascii := char_at (item_string (item_at i)) 0.

(** [_get_axis]: position of the first character in "xyzabc", or -1. *)
Definition _get_axis (i : nat) : Z :=
  match strchr "xyzabc" (first_char i) with Some k => Z.of_nat k | None => (-1)%Z end.

(** [_get_motor]: position of the first character in "1234", or -1. *)
Definition _get_motor (i : nat) : Z :=
  match strchr "1234" (first_char i) with Some k => Z.of_nat k | None => (-1)%Z end.

(** [cmd_get_group] *)
Definition cmd_get_group (i : INDEX_T) : ascii :=
  if in_table i then
    match strchr "xyzabc1234" (first_char (Z.to_nat i)) with
    | Some _ => first_char (Z.to_nat i)
    | None => "g"%char
    end
  else NUL.

(** The lvalue [cfg.m[m].field] for [uint8_t m]; [cfgArray] names the motors
    MOTOR_1 .. MOTOR_4, which are the array positions 0 .. 3. *)
Definition motor_field (m : Z) (field : string) : string :=
  let tag := match (m mod 256)%Z with
             | 0%Z => "MOTOR_1" | 1%Z => "MOTOR_2" | 2%Z => "MOTOR_3" | 3%Z => "MOTOR_4"
             | _ => "?"
             end in
  "cfg.m[" ++ tag ++ "]." ++ field.

Definition digit_char (n : nat) : ascii := ascii_of_nat (48 + n).

(** The lvalue [cfg.status_report_spec[j]], written as [cfgArray] writes it. *)
Definition sr_spec_field (j : nat) : string :=
  "cfg.status_report_spec["
  ++ (if Nat.ltb j 10 then String (digit_char j) EmptyString
      else String (digit_char (j / 10)) (String (digit_char (j mod 10)) EmptyString))
  ++ "]".

Definition msg_ms : list string := ["reset"; "run"; "stop"; "hold"; "resume"; "homing"].
Definition msg_un : list string := ["inch"; "mm"; "deg"].
Definition msg_am : list string :=
  ["[disabled]"; "[standard]"; "[inhibited]"; "[radius]"; "[slave X]"; "[slave Y]";
   "[slave Z]"; "[slave XY]"; "[slave XZ]"; "[slave YZ]"; "[slave XYZ]"].
Definition msg_units : list string := [" in"; " mm"; " deg"].

(** ** Typed accessors on one command object *)

Section Accessors.
Variable E : Env.

Definition target_of (i : nat) : string := item_target (item_at i).

Definition segment_ms : double := (settings E "ESTD_SEGMENT_USEC" / 1000)%float.

Definition _get_ui8 (i : nat) (m : machine) (c : cmdObj) : cmdObj :=
  set_value_type (set_value c (Z2d (read_u8 (load m (target_of i))))) VALUE_TYPE_INT32.

Definition _get_int (i : nat) (m : machine) (c : cmdObj) : cmdObj :=
  set_value_type (set_value c (Z2d (read_u32 (load m (target_of i))))) VALUE_TYPE_INT32.

Definition _get_dbl (i : nat) (m : machine) (c : cmdObj) : cmdObj :=
  set_value_type (set_value c (read_dbl (load m (target_of i)))) VALUE_TYPE_FLOAT.

Definition _get_dbu (i : nat) (m : machine) (c : cmdObj) : cmdObj :=
  let v := read_dbl (load m (target_of i)) in
  let v := if (cm_get_units_mode m =? INCHES_MODE)%Z then (v * INCH_PER_MM)%float else v in
  set_value_type (set_value c v) VALUE_TYPE_FLOAT.

(** [pgm_read_word(&msgs[k])] for an unsigned [k].  The code does not check
    [k] against the size of the array; beyond it the string is whatever the
    word found there in program memory points to. *)
Definition msg_at (msgs : list string) (k : Z) : string :=
  match nth_error msgs (Z.to_nat k) with
  | Some s => s
  | None => pgm_read_beyond E msgs (Z.to_nat k)
  end.

Definition msg_lookup (msgs : list string) (c : cmdObj) : string :=
  strncpy (msg_at msgs (to_u8 E (cmd_value c))) (CMD_STRING_LEN E).

Definition _get_stat (i : nat) (m : machine) (c : cmdObj) : cmdObj :=
  let c := _get_ui8 i m c in
  set_value_type (set_string c (msg_lookup msg_ms c)) VALUE_TYPE_STRING.

Definition _get_unit (i : nat) (m : machine) (c : cmdObj) : cmdObj :=
  let c := _get_ui8 i m c in
  set_value_type (set_string c (msg_lookup msg_un c)) VALUE_TYPE_STRING.

Definition _get_am (i : nat) (m : machine) (c : cmdObj) : cmdObj :=
  let c := _get_ui8 i m c in
  set_value_type (set_string c (msg_lookup msg_am c)) VALUE_TYPE_INT32.

Definition _get_vel (i : nat) (m : machine) (c : cmdObj) : cmdObj :=
  let v := mp_get_runtime_velocity E m in
  let v := if (cm_get_units_mode m =? INCHES_MODE)%Z then (v * INCH_PER_MM)%float else v in
  set_value_type (set_value c v) VALUE_TYPE_FLOAT.

Definition _get_abs (i : nat) (m : machine) (c : cmdObj) : cmdObj :=
  set_value_type (set_value c (cm_get_machine_runtime_position E (_get_axis i) m)) VALUE_TYPE_FLOAT.

Definition _get_pos (i : nat) (m : machine) (c : cmdObj) : cmdObj :=
  set_value_type (set_value c (cm_get_work_runtime_position E (_get_axis i) m)) VALUE_TYPE_FLOAT.

Definition _get_gc (i : nat) (m : machine) (c : cmdObj) : cmdObj :=
  set_value_type (set_string c (strncpy (in_buf m) (CMD_STRING_LEN E))) VALUE_TYPE_STRING.

Definition _get_si (i : nat) (m : machine) (c : cmdObj) : cmdObj :=
  let c := _get_ui8 i m c in
  set_value c (cmd_value c * segment_ms)%float.

(** The get bindings that touch one object only.  [_get_sr] runs the status
    report of report.c and leaves the object as it is. *)
Definition get_leaf (k : getKind) (i : nat) (m : machine) (c : cmdObj) : machine * cmdObj :=
  match k with
  | get_ui8 => (m, _get_ui8 i m c)
  | get_int => (m, _get_int i m c)
  | get_dbl => (m, _get_dbl i m c)
  | get_dbu => (m, _get_dbu i m c)
  | get_unit => (m, _get_unit i m c)
  | get_sr => (emit m Ev_status_report, c)
  | get_si => (m, _get_si i m c)
  | get_gc => (m, _get_gc i m c)
  | get_stat => (m, _get_stat i m c)
  | get_vel => (m, _get_vel i m c)
  | get_abs => (m, _get_abs i m c)
  | get_pos => (m, _get_pos i m c)
  | get_am => (m, _get_am i m c)
  | get_grp | get_sys | get_qm => (m, c)
  end.

Definition _set_ui8 (i : nat) (m : machine) (c : cmdObj) : machine :=
  store m (target_of i) (VU8 (to_u8 E (cmd_value c))).

Definition _set_int (i : nat) (m : machine) (c : cmdObj) : machine :=
  store m (target_of i) (VU32 (to_u32 E (cmd_value c))).

Definition _set_dbl (i : nat) (m : machine) (c : cmdObj) : machine :=
  store m (target_of i) (VDbl (cmd_value c)).

Definition _set_dbu (i : nat) (m : machine) (c : cmdObj) : machine :=
  if (cm_get_units_mode m =? INCHES_MODE)%Z
  then store m (target_of i) (VDbl (cmd_value c * MM_PER_INCH)%float)
  else store m (target_of i) (VDbl (cmd_value c)).

Definition _set_si (i : nat) (m : machine) (c : cmdObj) : machine * cmdObj :=
  let lo := settings E "STATUS_REPORT_MIN_MS" in
  let hi := settings E "STATUS_REPORT_MAX_MS" in
  let c := if PrimFloat.ltb (cmd_value c) lo then set_value c lo
           else if PrimFloat.ltb hi (cmd_value c) then set_value c hi
           else c in
  (store m "cfg.status_report_interval"
     (VU8 (to_u8 E (ceil (cmd_value c / segment_ms)%float))), c).

Definition _set_motor_steps_per_unit (i : nat) (m : machine) : machine :=
  let mo := _get_motor i in
  let step_angle := read_dbl (load m (motor_field mo "step_angle")) in
  let microsteps := Z2d (read_u8 (load m (motor_field mo "microsteps"))) in
  let travel_rev := read_dbl (load m (motor_field mo "travel_rev")) in
  store m (motor_field mo "steps_per_unit")
    (VDbl (360 / (step_angle / microsteps) / travel_rev)%float).

Definition _set_sa (i : nat) (m : machine) (c : cmdObj) : machine :=
  _set_motor_steps_per_unit i (_set_dbl i m c).

Definition _set_mi (i : nat) (m : machine) (c : cmdObj) : machine :=
  emit (_set_motor_steps_per_unit i (_set_ui8 i m c))
       (Ev_st_set_microsteps (_get_motor i) (to_u8 E (cmd_value c))).

Definition _set_po (i : nat) (m : machine) (c : cmdObj) : machine :=
  emit (_set_ui8 i m c) (Ev_st_set_polarity (_get_motor i) (to_u8 E (cmd_value c))).

(** The serial options: the transport is told first, then the flag is stored. *)
Definition set_serial (on off field : string) (m : machine) (c : cmdObj) : machine :=
  store (emit m (Ev_xio_cntl (if NE_ZERO (cmd_value c) then on else off)))
        field (VU8 (to_u8 E (cmd_value c))).

Definition _run_gc (i : nat) (m : machine) (c : cmdObj) : machine * cmdObj :=
  let m := with_in_buf m (strncpy (cmd_string c) (INPUT_BUFFER_LEN E)) in
  let st := gc_gcode_parser E (in_buf m) in
  (emit (emit m (Ev_gcode (in_buf m))) (Ev_gcode_response st), set_status c st).

(** The set bindings that touch one object only. *)
Definition set_leaf (k : setKind) (i : nat) (m : machine) (c : cmdObj) : machine * cmdObj :=
  match k with
  | set_nul => (m, c)
  | set_ui8 => (_set_ui8 i m c, c)
  | set_int => (_set_int i m c, c)
  | set_dbl => (_set_dbl i m c, c)
  | set_dbu => (_set_dbu i m c, c)
  | set_si => _set_si i m c
  | run_gc => _run_gc i m c
  | set_ic => (set_serial "XIO_IGNORECR" "XIO_NOIGNORECR" "cfg.ignore_cr" m c, c)
  | set_il => (set_serial "XIO_IGNORELF" "XIO_NOIGNORELF" "cfg.ignore_lf" m c, c)
  | set_ec => (set_serial "XIO_CRLF" "XIO_NOCRLF" "cfg.enable_cr" m c, c)
  | set_ee => (set_serial "XIO_ECHO" "XIO_NOECHO" "cfg.enable_echo" m c, c)
  | set_ex => (set_serial "XIO_XOFF" "XIO_NOXOFF" "cfg.enable_xon" m c, c)
  | set_sa => (_set_sa i m c, c)
  | set_mi => (_set_mi i m c, c)
  | set_po => (_set_po i m c, c)
  | set_sr | set_grp => (m, c)
  end.

End Accessors.

(** ** Bindings that walk an array of command objects

    A command object is addressed as a position [p] in an array [arr].  The
    group bindings call back into the dispatcher; the C code relies on the
    order of the table to end that recursion, the model counts its depth and
    gives [None] when the count is used up. *)

Section Dispatch.
Variable E : Env.

Definition binding := nat -> machine -> list cmdObj -> nat -> option (machine * list cmdObj).

Definition no_binding : binding := fun _ _ _ _ => None.

(** [cmd_get_cmd]: clear the object, then index, token and the get binding. *)
Definition cmd_get_cmd (get : binding) (i : INDEX_T) (m : machine) (arr : list cmdObj) (p : nat)
  : option (machine * list cmdObj) :=
  if in_table i then
    get (Z.to_nat i) m
        (obj_put arr p (set_token (set_index cmd_new_object i) (cmd_get_token i))) p
  else Some (m, obj_put arr p (set_status cmd_new_object TG_UNRECOGNIZED_COMMAND)).

(** [(cmd-1)->nx = cmd] for the object at [p + 1]. *)
Definition link_next (arr : list cmdObj) (p : nat) : list cmdObj :=
  obj_put arr p (set_nx (obj_at arr p) (Some (S p))).

(** The scan of [_get_grp] from index [i], [n] indices to go, the last
    object written being at [p]. *)
Fixpoint _get_grp_loop (get : binding) (grp : string) (n : nat) (i : INDEX_T)
         (m : machine) (arr : list cmdObj) (p : nat) : option (machine * list cmdObj) :=
  match n with
  | O => Some (m, arr)
  | S n' =>
      if strstr_is_start (cmd_get_token i) grp then
        match cmd_get_cmd get i m arr (S p) with
        | None => None
        | Some (m', arr') =>
            let c := obj_at arr' (S p) in
            let stripped := strncpy (str_from (String.length grp) (cmd_token c)) (CMD_TOKEN_LEN + 1) in
            _get_grp_loop get grp n' (i + 1)%Z m'
                          (link_next (obj_put arr' (S p) (set_token c stripped)) p) (S p)
        end
      else _get_grp_loop get grp n' (i + 1)%Z m arr p
  end.

Definition _get_grp (get : binding) (m : machine) (arr : list cmdObj) (p : nat)
  : option (machine * list cmdObj) :=
  let cmd := obj_at arr p in
  _get_grp_loop get (cmd_name cmd) (Z.to_nat (cmd_index cmd)) 0%Z m
                (obj_put arr p (set_value_type cmd VALUE_TYPE_PARENT)) p.

Definition is_substring (hay needle : string) : bool :=
  match strstr hay needle with Some _ => true | None => false end.

Definition excluded (exclude : option string) (token : string) : bool :=
  match exclude with Some ex => is_substring ex token | None => false end.

(** The scan shared by [_get_sys] and [_get_qm]: fixed lists of tokens;
    [_get_qm] has its exclusion test commented out. *)
Fixpoint get_listed_loop (get : binding) (include : string) (exclude : option string)
         (n : nat) (i : INDEX_T)
         (m : machine) (arr : list cmdObj) (p : nat) : option (machine * list cmdObj) :=
  match n with
  | O => Some (m, arr)
  | S n' =>
      let token := cmd_get_token i in
      if excluded exclude token then get_listed_loop get include exclude n' (i + 1)%Z m arr p
      else if is_substring include token then
        match cmd_get_cmd get i m arr (S p) with
        | None => None
        | Some (m', arr') =>
            get_listed_loop get include exclude n' (i + 1)%Z m' (link_next arr' p) (S p)
        end
      else get_listed_loop get include exclude n' (i + 1)%Z m arr p
  end.

Definition _get_sys (get : binding) (m : machine) (arr : list cmdObj) (p : nat)
  : option (machine * list cmdObj) :=
  let cmd := obj_at arr p in
  get_listed_loop get "fv,fb,si,gpl,gun,gco,gpa,gdi,ea,ja,ml,ma,mt,ic,il,ec,ee,ex" (Some "gc")
                  (Z.to_nat (cmd_index cmd)) 0%Z m
                  (obj_put arr p (set_value_type cmd VALUE_TYPE_PARENT)) p.

Definition _get_qm (get : binding) (m : machine) (arr : list cmdObj) (p : nat)
  : option (machine * list cmdObj) :=
  let cmd := obj_at arr p in
  get_listed_loop get "xpos,ypos,zpos,apos,bpos,cpos,stat" None
                  (Z.to_nat (cmd_index cmd)) 0%Z m
                  (obj_put arr p (set_value_type cmd VALUE_TYPE_PARENT)) p.

(** The get binding of descriptor [i], given the binding used for children. *)
Definition get_dispatch (rec : binding) : binding :=
  fun i m arr p =>
    match item_get (item_at i) with
    | get_grp => _get_grp rec m arr p
    | get_sys => _get_sys rec m arr p
    | get_qm => _get_qm rec m arr p
    | k => let '(m', c') := get_leaf E k i m (obj_at arr p) in Some (m', obj_put arr p c')
    end.

Fixpoint get_binding (d : nat) : binding :=
  match d with
  | O => get_dispatch no_binding
  | S d' => get_dispatch (get_binding d')
  end.

(** [cmd_get] *)
Definition cmd_get (d : nat) (i : INDEX_T) (m : machine) (arr : list cmdObj) (p : nat)
  : option (machine * list cmdObj * status) :=
  if in_table i then
    match get_binding d (Z.to_nat i) m arr p with
    | Some (m', arr') => Some (m', arr', TG_OK)
    | None => None
    end
  else Some (m, obj_put arr p (set_status (obj_at arr p) TG_UNRECOGNIZED_COMMAND),
             TG_UNRECOGNIZED_COMMAND).

Definition cmd_set_result := option (machine * list cmdObj * status).

(** The walk of [_set_grp] along the [nx] chain, [n] iterations to go. *)
Fixpoint _set_grp_loop (set : INDEX_T -> machine -> list cmdObj -> nat -> cmd_set_result)
         (n : nat) (m : machine) (arr : list cmdObj) (p : nat) : option (machine * list cmdObj) :=
  match n with
  | O => Some (m, arr)
  | S n' =>
      match cmd_nx (obj_at arr p) with
      | None => Some (m, arr)
      | Some q =>
          match set (cmd_index (obj_at arr q)) m arr q with
          | None => None
          | Some (m', arr', _) => _set_grp_loop set n' m' arr' q
          end
      end
  end.

(** [memset(cfg.status_report_spec, 0, ...)] *)
Fixpoint clear_sr_spec (n : nat) (m : machine) : machine :=
  match n with
  | O => m
  | S n' => store (clear_sr_spec n' m) (sr_spec_field n') (VU32 0)
  end.

(** The loop of [_set_sr] over the objects that follow the parent, slot [j]
    onward, [n] iterations to go, [p] the object last visited. *)
Fixpoint _set_sr_loop (n j : nat) (m : machine) (arr : list cmdObj) (p : nat) : machine :=
  match n with
  | O => m
  | S n' =>
      let cmd := obj_at arr (S p) in
      let m' := if valueType_eqb (cmd_value_type cmd) VALUE_TYPE_TRUE
                   && PrimFloat.eqb (cmd_value cmd) 1%float
                then store m (sr_spec_field j) (VU32 (cmd_index cmd mod 2 ^ 32)%Z)
                else m in
      match cmd_nx cmd with
      | None => m'
      | Some _ => _set_sr_loop n' (S j) m' arr (S p)
      end
  end.

Definition _set_sr (m : machine) (arr : list cmdObj) (p : nat) : machine :=
  _set_sr_loop (CMD_STATUS_REPORT_LEN E) 0 (clear_sr_spec (CMD_STATUS_REPORT_LEN E) m) arr p.

(** [cmd_set], given the [cmd_set] used for the children of a group. *)
Definition set_dispatch (rec : INDEX_T -> machine -> list cmdObj -> nat -> cmd_set_result)
           (i : INDEX_T) (m : machine) (arr : list cmdObj) (p : nat) : cmd_set_result :=
  if in_table i then
    match item_set (item_at (Z.to_nat i)) with
    | set_grp =>
        match _set_grp_loop rec (CMD_MAX_OBJECTS E) m arr p with
        | Some (m', arr') => Some (m', arr', TG_OK)
        | None => None
        end
    | set_sr => Some (_set_sr m arr p, arr, TG_OK)
    | k => let '(m', c') := set_leaf E k (Z.to_nat i) m (obj_at arr p) in
           Some (m', obj_put arr p c', TG_OK)
    end
  else Some (m, obj_put arr p (set_status (obj_at arr p) TG_UNRECOGNIZED_COMMAND),
             TG_UNRECOGNIZED_COMMAND).

Fixpoint cmd_set (d : nat) : INDEX_T -> machine -> list cmdObj -> nat -> cmd_set_result :=
  match d with
  | O => set_dispatch (fun _ _ _ _ => None)
  | S d' => set_dispatch (cmd_set d')
  end.

(** [_get_ui8_value] and its siblings: the get binding run on a local
    object, whose value is returned. *)
Definition value_via_get (d : nat) (i : nat) (m : machine) : option (machine * double) :=
  match get_binding d i m [cmd_new_object] 0 with
  | Some (m', arr') => Some (m', cmd_value (obj_at arr' 0))
  | None => None
  end.

(** The walk of [_print_grp] along the chain, [n] iterations to go. *)
Fixpoint _print_grp_loop (print : INDEX_T -> machine -> option machine)
         (n : nat) (m : machine) (p : nat) : option machine :=
  match n with
  | O => Some m
  | S n' =>
      match cmd_nx (obj_at (cmd_array m) p) with
      | None => Some m
      | Some q =>
          match print (cmd_index (obj_at (cmd_array m) q)) m with
          | None => None
          | Some m' => _print_grp_loop print n' m' q
          end
      end
  end.

(** A print function: the value comes from the get binding run on a local
    object and is converted as [conv] says; [text] is the string argument
    that follows it, if the function passes one. *)
Definition print_value (d : nat) (i : nat) (m : machine) (conv : double -> val)
           (text : machine -> double -> option string) : option machine :=
  match value_via_get d i m with
  | Some (m', v) => Some (emit m' (Ev_print (Z.of_nat i) (conv v) (text m' v)))
  | None => None
  end.

Definition no_text (m : machine) (v : double) : option string := None.

(** [cmd_print], given the [cmd_print] used for the children of a group.
    [_get_int_value] returns a [uint8_t].  [_print_lin] passes the unit string
    of the active unit mode, [_print_rot] the one of degrees, and
    [_print_am] the message of the axis mode. *)
Definition print_dispatch (d : nat) (rec : INDEX_T -> machine -> option machine)
           (i : INDEX_T) (m : machine) : option machine :=
  if in_table i then
    let n := Z.to_nat i in
    match item_print (item_at n) with
    | print_nul => Some m
    | print_ui8 => print_value d n m (fun v => VU8 (to_u8 E v)) no_text
    | print_int => print_value d n m (fun v => VU32 (to_u32 E v mod 256)%Z) no_text
    | print_dbl => print_value d n m VDbl no_text
    | print_lin =>
        print_value d n m VDbl (fun m' _ => Some (msg_at E msg_units (cm_get_units_mode m')))
    | print_rot => print_value d n m VDbl (fun _ _ => Some (msg_at E msg_units 2))
    | print_am =>
        print_value d n m (fun v => VU8 (to_u8 E v))
                    (fun _ v => Some (msg_at E msg_am (to_u8 E v)))
    | print_grp =>
        match cmd_get d (cmd_index (obj_at (cmd_array m) 0)) m (cmd_array m) 0 with
        | Some (m', arr', _) =>
            _print_grp_loop rec (CMD_MAX_OBJECTS E) (with_cmd_array m' arr') 0
        | None => None
        end
    end
  else Some m.

Fixpoint cmd_print (d : nat) : INDEX_T -> machine -> option machine :=
  match d with
  | O => print_dispatch 0 (fun _ _ => None)
  | S d' => print_dispatch d (cmd_print d')
  end.

End Dispatch.

(** ** EEPROM access, start-up and the command line *)

Section Config.
Variable E : Env.

(** [cmd_read_NVM_value]: the object is cleared and given the stored value. *)
Definition cmd_read_NVM_value (i : INDEX_T) (m : machine) (c : cmdObj) : cmdObj * status :=
  if in_table i
  then (set_value_type (set_value cmd_new_object (nvm m i)) VALUE_TYPE_FLOAT, TG_OK)
  else (c, TG_UNRECOGNIZED_COMMAND).

(** [cmd_write_NVM_value]: one fixed-width slot per index. *)
Definition cmd_write_NVM_value (i : INDEX_T) (m : machine) (c : cmdObj) : machine * status :=
  if in_table i
  then (mkMachine (mem m)
                  (fun k => if (k =? i)%Z then cmd_value c else nvm m k)
                  (nvm_log m ++ [(i, cmd_value c)])
                  (cmd_array m) (in_buf m) (io_log m),
        TG_OK)
  else (m, TG_UNRECOGNIZED_COMMAND).

Definition exclusions : string := "sr,gc".

(** Case (1) of [cfg_init]: replay the stored values, [n] indices to go. *)
Fixpoint cfg_init_load (d : nat) (n : nat) (i : INDEX_T) (m : machine) (cmd : cmdObj)
  : option (machine * cmdObj) :=
  match n with
  | O => Some (m, cmd)
  | S n' =>
      let cmd := fst (cmd_read_NVM_value i m cmd) in
      let cmd := set_token cmd (cmd_get_token i) in
      if is_substring exclusions (cmd_token cmd) then cfg_init_load d n' (i + 1)%Z m cmd
      else match cmd_set E d i m [cmd] 0 with
           | None => None
           | Some (m', arr', _) => cfg_init_load d n' (i + 1)%Z m' (obj_at arr' 0)
           end
  end.

(** Case (2) of [cfg_init]: defaults into RAM and EEPROM, [n] indices to go. *)
Fixpoint cfg_init_defaults (d : nat) (n : nat) (i : INDEX_T) (m : machine) (cmd : cmdObj)
  : option (machine * cmdObj) :=
  match n with
  | O => Some (m, cmd)
  | S n' =>
      let cmd := set_token cmd_new_object (cmd_get_token i) in
      if is_substring exclusions (cmd_token cmd) then cfg_init_defaults d n' (i + 1)%Z m cmd
      else
        let cmd := set_value (set_index cmd i) (def_value E (item_at (Z.to_nat i))) in
        match cmd_set E d i m [cmd] 0 with
        | None => None
        | Some (m', arr', _) =>
            let cmd := obj_at arr' 0 in
            cfg_init_defaults d n' (i + 1)%Z (fst (cmd_write_NVM_value i m' cmd)) cmd
        end
  end.

(** [cfg_init], EEPROM branch.  The EEPROM is addressed by index, so the base
    addresses the C code sets up first do not appear; nor does the progress
    output.  The local object starts out uninitialised; it is read only after
    [cmd_read_NVM_value] has filled it. *)
Definition cfg_init (d : nat) (m : machine) : option machine :=
  let m := cm_set_units_mode m MILLIMETER_MODE in
  let m := store m "cfg.version" (load m "tg.build") in
  let cmd := fst (cmd_read_NVM_value 0%Z m cmd_new_object) in
  if PrimFloat.eqb (cmd_value cmd) (read_dbl (load m "cfg.version")) then
    match cfg_init_load d CMD_INDEX_START_GROUPS 0%Z m cmd with
    | Some (m', _) => Some m'
    | None => None
    end
  else
    match cfg_init_defaults d CMD_INDEX_START_GROUPS 0%Z m cmd with
    | Some (m', _) => Some (rpt_init_status_report E true m')
    | None => None
    end.

(** A leading dollar sign is skipped. *)
Definition skip_dollar (str : string) : string :=
  match str with
  | String "$" rest => rest
  | _ => str
  end.

Definition separators : string := String " " (String "=" (String ":" (String "|" (String TAB EmptyString)))).

(** [_parse_config_string] *)
Definition _parse_config_string (str : string) : cmdObj * status :=
  let str := strlower (skip_dollar str) in
  let cmd := set_value_type cmd_new_object VALUE_TYPE_NULL in
  let cmd :=
    match strpbrk str separators with
    | None => set_name cmd (strncpy str CMD_NAME_LEN)
    | Some k =>
        let cmd := set_name cmd (strncpy (substring 0 k str) CMD_NAME_LEN) in
        let '(v, used) := strtod E (str_from (S k) str) in
        let cmd := set_value cmd v in
        if Nat.eqb used 0 then cmd else set_value_type cmd VALUE_TYPE_FLOAT
    end in
  let cmd := set_index cmd (cmd_get_index (cmd_name cmd)) in
  if (cmd_index cmd =? -1)%Z then (cmd, TG_UNRECOGNIZED_COMMAND)
  else
    let cmd := set_token cmd (cmd_get_token (cmd_index cmd)) in
    if (Z.of_nat CMD_INDEX_START_GROUPS <=? cmd_index cmd)%Z
    then (set_value_type cmd VALUE_TYPE_PARENT, TG_OK)
    else (cmd, TG_OK).

Definition is_single_value (cmd : cmdObj) : bool :=
  negb (valueType_eqb (cmd_value_type cmd) VALUE_TYPE_PARENT)
  && negb (valueType_eqb (cmd_value_type cmd) VALUE_TYPE_NULL).

(** [cfg_config_parser]; [ritorno] returns at once on a status other than TG_OK. *)
Definition cfg_config_parser (d : nat) (str : string) (m : machine) : option (machine * status) :=
  let '(cmd, st) := _parse_config_string str in
  let m := with_cmd_array m (obj_put (cmd_array m) 0 cmd) in
  match st with
  | TG_OK =>
      let after_set :=
        if is_single_value cmd then
          match cmd_set E d (cmd_index cmd) m (cmd_array m) 0 with
          | None => None
          | Some (m', arr', _) =>
              let m' := with_cmd_array m' arr' in
              Some (fst (cmd_write_NVM_value (cmd_index (obj_at arr' 0)) m' (obj_at arr' 0)))
          end
        else Some m in
      match after_set with
      | None => None
      | Some m' =>
          match cmd_print E d (cmd_index (obj_at (cmd_array m') 0)) m' with
          | None => None
          | Some m'' => Some (m'', TG_OK)
          end
      end
  | _ => Some (m, st)
  end.

End Config.

(** ** A concrete environment

    Used to run the definitions on concrete inputs.  [strtod_dec] reads what
    the command lines of the firmware carry: blanks, an optional sign and a
    decimal literal with an optional fraction.  A number that does not fit
    the integer type is converted by keeping the low bits of its integral
    part, and nothing lies behind the message arrays. *)

Definition is_digit (c : ascii) : bool :=
  Nat.leb 48 (nat_of_ascii c) && Nat.leb (nat_of_ascii c) 57.

(** Digits at the head of [s]: their value, their number, and the rest. *)
Fixpoint read_digits (s : string) (acc : Z) (n : nat) : Z * nat * string :=
  match s with
  | String c s' =>
      if is_digit c then read_digits s' (acc * 10 + Z.of_nat (nat_of_ascii c - 48))%Z (S n)
      else (acc, n, s)
  | EmptyString => (acc, n, s)
  end.

Fixpoint skip_blanks (s : string) (n : nat) : nat * string :=
  match s with
  | String c s' => if Ascii.eqb c " " || Ascii.eqb c TAB then skip_blanks s' (S n) else (n, s)
  | EmptyString => (n, s)
  end.

Definition strtod_dec (s : string) : double * nat :=
  let '(nb, s1) := skip_blanks s 0 in
  let '(neg, ns, s2) :=
    match s1 with
    | String "-" r => (true, 1, r)
    | String "+" r => (false, 1, r)
    | _ => (false, 0, s1)
    end in
  let '(ip, ni, s3) := read_digits s2 0%Z 0 in
  let '(fp, nf, _) :=
    match s3 with
    | String "." r => read_digits r 0%Z 0
    | _ => (0%Z, 0, s3)
    end in
  let dot := match s3 with String "." _ => if Nat.eqb (ni + nf) 0 then 0 else 1 | _ => 0 end in
  if Nat.eqb (ni + nf) 0 then (0%float, 0)
  else
    let v := (Z2d ip + Z2d fp / Z2d (10 ^ Z.of_nat nf))%float in
    (if neg then PrimFloat.opp v else v, nb + ns + ni + dot + nf).

Definition sample_settings (name : string) : double :=
  if String.eqb name "TINYG_CONFIG_VERSION" then 0x1.4b051eb851eb8p+8%float      (* 331.02 *)
  else if String.eqb name "TINYG_BUILD_NUMBER" then 0x1.4b051eb851eb8p+8%float
  else if String.eqb name "ESTD_SEGMENT_USEC" then 5000%float
  else if String.eqb name "STATUS_REPORT_MIN_MS" then 200%float
  else if String.eqb name "STATUS_REPORT_MAX_MS" then 1000%float
  else if String.eqb name "STATUS_REPORT_INTERVAL_MS" then 200%float
  else if String.eqb name "X_FEEDRATE_MAX" then 600%float
  else if String.eqb name "X_VELOCITY_MAX" then 600%float
  else 1%float.

Definition sample_env : Env :=
  mkEnv sample_settings strtod_dec 24 20 64 255
        (fun _ => TG_OK) (fun _ => 0%float) (fun _ _ => 0%float) (fun _ _ => 0%float)
        (fun _ m => m)
        (fun _ d => d2Z d) (fun _ _ => EmptyString).

(** A machine just out of reset: storage zeroed, EEPROM erased to zero. *)
Definition reset_cell (target : string) : val :=
  if String.eqb target "tg.build" then VDbl 0x1.4b051eb851eb8p+8%float
  else VU8 0.

Definition reset_machine : machine :=
  mkMachine reset_cell (fun _ => 0%float) [] (repeat cmd_new_object 24) EmptyString [].

(** An environment whose configuration version constant is not the build
    number the machine runs. *)
Definition skewed_settings (name : string) : double :=
  if String.eqb name "TINYG_CONFIG_VERSION" then 0x1.dc28f5c28f5c3p-1%float      (* 0.93 *)
  else sample_settings name.

Definition skewed_env : Env :=
  mkEnv skewed_settings strtod_dec 24 20 64 255
        (fun _ => TG_OK) (fun _ => 0%float) (fun _ _ => 0%float) (fun _ _ => 0%float)
        (fun _ m => m)
        (fun _ d => d2Z d) (fun _ _ => EmptyString).

(** ** Vocabulary of the statements *)

Definition token_field (i : nat) : string := fst (names_fields (item_string (item_at i))).
Definition name_field (i : nat) : string := snd (names_fields (item_string (item_at i))).

(** Descriptor [i] matches [s] in [cmd_get_index]: its token or its friendly
    name is a prefix of [s]. *)
Definition matches (i : nat) (s : string) : bool :=
  prefix (token_field i) s || prefix (name_field i) s.

(** The same test on a descriptor of any table. *)
Definition matches_item (it : cfgItem) (s : string) : bool :=
  prefix (fst (names_fields (item_string it))) s || prefix (snd (names_fields (item_string it))) s.

(** A token candidate: a C string (no NUL inside) without a comma. *)
Definition token_candidate (s : string) : bool :=
  forallb (fun c => negb (Ascii.eqb c NUL) && negb (Ascii.eqb c ",")) (list_ascii_of_string s).

(** The descriptor strings as the token resolver needs them: at least
    [CMD_TOKEN_LEN] characters, none of the first four NUL, the first not a
    comma, and a comma among the first [CMD_TOKEN_LEN + 1]. *)
Definition token_string_ok (s : string) : bool :=
  Nat.leb CMD_TOKEN_LEN (String.length s)
  && forallb (fun c => negb (Ascii.eqb c NUL)) (list_ascii_of_string (strncpy s CMD_TOKEN_LEN))
  && negb (Ascii.eqb (char_at s 0) ",")
  && match strchr (strncpy s (CMD_TOKEN_LEN + 1)) "," with Some _ => true | None => false end.

(** The token resolver finds descriptor [i] by its own token when the token
    has all four characters. *)
Definition own_token_found (i : nat) : bool :=
  negb (Nat.eqb (String.length (cmd_get_token (Z.of_nat i))) CMD_TOKEN_LEN)
  || (cmd_get_index_by_token (cmd_get_token (Z.of_nat i)) =? Z.of_nat i)%Z.

(** The separator characters of a command line. *)
Definition is_separator (c : ascii) : bool :=
  Ascii.eqb c " " || Ascii.eqb c "=" || Ascii.eqb c ":" || Ascii.eqb c "|" || Ascii.eqb c TAB.

(** [k] is the position of the first separator character of [s]. *)
Definition first_separator (s : string) (k : nat) : Prop :=
  (exists c, String.get k s = Some c /\ is_separator c = true)
  /\ forall j c, j < k -> String.get j s = Some c -> is_separator c = false.

Definition no_separator (s : string) : Prop :=
  forall j c, String.get j s = Some c -> is_separator c = false.

(** The kind a parsed line ends up with: a group index forces "parent",
    otherwise the kind follows from whether [strtod] consumed anything. *)
Definition kind_of (index : INDEX_T) (used : nat) : valueType :=
  if (negb (index =? -1) && (Z.of_nat CMD_INDEX_START_GROUPS <=? index))%Z then VALUE_TYPE_PARENT
  else if Nat.eqb used 0 then VALUE_TYPE_NULL
  else VALUE_TYPE_FLOAT.

(** [set] on a lone object carrying [x], then the machine. *)
Definition set_value_at (E : Env) (d : nat) (i : INDEX_T) (x : double) (m : machine) : option machine :=
  match cmd_set E d i m [set_value cmd_new_object x] 0 with
  | Some (m', _, _) => Some m'
  | None => None
  end.

(** [get] on a lone object, then its value. *)
Definition get_value_at (E : Env) (d : nat) (i : INDEX_T) (m : machine) : option double :=
  match cmd_get E d i m [cmd_new_object] 0 with
  | Some (_, arr, _) => Some (cmd_value (obj_at arr 0))
  | None => None
  end.

(** [set(i, x)] followed at once by [get(i)]. *)
Definition set_then_get (E : Env) (d : nat) (i : INDEX_T) (x : double) (m : machine) : option double :=
  match set_value_at E d i x m with
  | Some m' => get_value_at E d i m'
  | None => None
  end.

Definition is_leaf_set (k : setKind) : bool :=
  match k with set_grp | set_sr => false | _ => true end.

Definition is_leaf_get (k : getKind) : bool :=
  match k with get_grp | get_sys | get_qm => false | _ => true end.

(** The byte [b] is inside the message array the get binding [k] indexes
    with it (six machine states, three unit names, eleven axis modes);
    the other get bindings index none. *)
Definition msg_in_bounds (k : getKind) (b : Z) : bool :=
  match k with
  | get_stat => (b <? 6)%Z
  | get_unit => (b <? 3)%Z
  | get_am => (b <? 11)%Z
  | _ => true
  end.

(** What [set(x)] then [get()] gives for the descriptors that store their
    value.  A byte or a 32-bit integer gives the integral part of [x], when
    it fits the type (and, for an axis mode, is one of the modes); a float
    gives [x]; a unit-bearing float in inch mode gives [x] taken to
    millimetres (times 25.4) and back (times 1/25.4).  The other descriptors
    (write-protected, actions, the status interval) have none. *)
Definition round_trip (i : nat) (inches : bool) (x : double) : option double :=
  match item_set (item_at i), item_get (item_at i) with
  | (set_ui8 | set_mi | set_po | set_ic | set_il | set_ec | set_ee | set_ex),
    ((get_ui8 | get_am) as g) =>
      if fits_unsigned 8 x && msg_in_bounds g (d2Z x) then Some (Z2d (d2Z x)) else None
  | set_int, get_int => if fits_unsigned 32 x then Some (Z2d (d2Z x)) else None
  | (set_dbl | set_sa), get_dbl => Some x
  | set_dbu, get_dbu =>
      Some (if inches
            then (x * 0x1.9666666666666p+4 * (1 / 0x1.9666666666666p+4))%float
            else x)
  | _, _ => None
  end.

(** Facts of the table the accessors lean on: a serial option stores into
    its own target, the derived steps-per-unit field of a motor is no
    descriptor's target, and no storing descriptor targets the unit mode. *)
Definition storage_ok (i : nat) : bool :=
  match item_set (item_at i) with
  | set_ic => String.eqb (target_of i) "cfg.ignore_cr"
  | set_il => String.eqb (target_of i) "cfg.ignore_lf"
  | set_ec => String.eqb (target_of i) "cfg.enable_cr"
  | set_ee => String.eqb (target_of i) "cfg.enable_echo"
  | set_ex => String.eqb (target_of i) "cfg.enable_xon"
  | set_sa | set_mi =>
      negb (String.eqb (target_of i) (motor_field (_get_motor i) "steps_per_unit"))
      && negb (String.eqb (target_of i) "gm.units_mode")
  | set_si => String.eqb (target_of i) "cfg.status_report_interval"
  | set_nul | set_sr | set_grp | run_gc => true
  | _ => negb (String.eqb (target_of i) "gm.units_mode")
  end.

(** ** Vocabulary for start-up *)

(** Index [i] is not on the exclusion list of [cfg_init]. *)
Definition not_excluded (i : nat) : bool :=
  negb (is_substring exclusions (cmd_get_token (Z.of_nat i))).

(** The storage cells the set binding of descriptor [i] may write. *)
Definition writes_of (i : nat) : list string :=
  match item_set (item_at i) with
  | set_ui8 | set_int | set_dbl | set_dbu | set_po => [target_of i]
  | set_sa | set_mi => [target_of i; motor_field (_get_motor i) "steps_per_unit"]
  | set_si => ["cfg.status_report_interval"]
  | set_ic => ["cfg.ignore_cr"]
  | set_il => ["cfg.ignore_lf"]
  | set_ec => ["cfg.enable_cr"]
  | set_ee => ["cfg.enable_echo"]
  | set_ex => ["cfg.enable_xon"]
  | set_nul | run_gc | set_sr | set_grp => []
  end.

(** The value the status interval is clamped to. *)
Definition clamp_si (E : Env) (v : double) : double :=
  if PrimFloat.ltb v (settings E "STATUS_REPORT_MIN_MS") then settings E "STATUS_REPORT_MIN_MS"
  else if PrimFloat.ltb (settings E "STATUS_REPORT_MAX_MS") v then settings E "STATUS_REPORT_MAX_MS"
  else v.

(** The value of the command object after the set binding of descriptor [i]
    has run on its default: the default, clamped for the status interval. *)
Definition stored_value (E : Env) (i : nat) : double :=
  match item_set (item_at i) with
  | set_si => clamp_si E (def_value E (item_at i))
  | _ => def_value E (item_at i)
  end.

(** The cell a storing set binding leaves in the target of descriptor [i]
    when run on the default in millimetre mode. *)
Definition default_cell (E : Env) (i : nat) : option val :=
  let v := def_value E (item_at i) in
  match item_set (item_at i) with
  | set_ui8 | set_mi | set_po | set_ic | set_il | set_ec | set_ee | set_ex => Some (VU8 (to_u8 E v))
  | set_int => Some (VU32 (to_u32 E v))
  | set_dbl | set_sa | set_dbu => Some (VDbl v)
  | set_si => Some (VU8 (to_u8 E (ceil (clamp_si E v / segment_ms E)%float)))
  | set_nul | run_gc | set_sr | set_grp => None
  end.

Definition stores (i : nat) : bool :=
  match item_set (item_at i) with
  | set_nul | run_gc | set_sr | set_grp => false
  | _ => true
  end.

(** The set binding of a later descriptor leaves the targets of the earlier
    storing descriptors and the unit mode alone, and the status report
    binding, which walks past its object, is on the exclusion list. *)
Definition init_ok (k : nat) : bool :=
  storage_ok k
  && (negb (not_excluded k)
      || match item_set (item_at k) with set_sr => false | _ => true end)
  && forallb (fun w =>
                negb (String.eqb "gm.units_mode" w)
                && forallb (fun i => negb (stores i && not_excluded i)
                                     || negb (String.eqb (target_of i) w))
                           (seq 0 k))
             (writes_of k).

(** No set binding the defaults loop runs writes the target of a descriptor
    whose own set binding is the no-op. *)
Definition nul_targets_ok (k : nat) : bool :=
  forallb (fun w => forallb (fun i => match item_set (item_at i) with
                                      | set_nul => negb (String.eqb (target_of i) w)
                                      | _ => true
                                      end)
                            (seq 0 CMD_INDEX_START_GROUPS))
          (writes_of k).

(** What a live cell holds when the loops of [cfg_init] begin: the build
    number in the configuration version, the millimetre mode in the unit
    mode, and in every other cell what it held before. *)
Definition cell_at_start (m : machine) (t : string) : val :=
  if String.eqb t "cfg.version" then load m "tg.build"
  else if String.eqb t "gm.units_mode" then VU8 1
  else load m t.

(** The command object [cfg_init] hands to the set binding of descriptor [k]. *)
Definition init_cmd (E : Env) (k : nat) : cmdObj :=
  set_value (set_index (set_token cmd_new_object (cmd_get_token (Z.of_nat k))) (Z.of_nat k))
            (def_value E (item_at k)).

(** One turn of the defaults loop of [cfg_init] at a descriptor that is not
    excluded: the set binding, then the EEPROM write. *)
Definition init_step (E : Env) (k : nat) (m : machine) : machine :=
  let r := set_leaf E (item_set (item_at k)) k m (init_cmd E k) in
  fst (cmd_write_NVM_value (Z.of_nat k) (fst r) (snd r)).

Definition init_run (E : Env) (l : list nat) (m : machine) : machine :=
  fold_left (fun m k => if not_excluded k then init_step E k m else m) l m.

(** The machine as [cfg_init] has it before it reads the version slot. *)
Definition init_start (m : machine) : machine :=
  let m := cm_set_units_mode m MILLIMETER_MODE in
  store m "cfg.version" (load m "tg.build").

(** What holds of the machine [M] once the defaults loop, started on [m0], is
    through with the indices below [n]. *)
Record init_inv (E : Env) (m0 : machine) (n : nat) (M : machine) : Prop := mkInitInv {
  inv_units : cm_get_units_mode M = MILLIMETER_MODE;
  inv_cells : forall i v, i < n -> not_excluded i = true ->
                          default_cell E i = Some v -> load M (target_of i) = v;
  inv_nvm : forall i, i < n -> not_excluded i = true ->
                      nvm M (Z.of_nat i) = stored_value E i;
  inv_log : nvm_log M
            = (nvm_log m0 ++ map (fun i => (Z.of_nat i, stored_value E i))
                                 (filter not_excluded (seq 0 n)))%list
}.

(** ** Vocabulary for groups *)

(** The objects reached from position [p] along [nx], at most [fuel] of them. *)
Fixpoint chain (fuel : nat) (arr : list cmdObj) (p : nat) : list cmdObj :=
  match fuel with
  | O => []
  | S f =>
      match cmd_nx (obj_at arr p) with
      | None => []
      | Some q => obj_at arr q :: chain f arr q
      end
  end.

Definition axis_letters : list string := ["x"; "y"; "z"; "a"; "b"; "c"].

(** The indices from [k], [n] of them, whose token begins with [g]. *)
Definition kids (g : string) (k n : nat) : list nat :=
  filter (fun i => prefix g (cmd_get_token (Z.of_nat i))) (seq k n).

(** The index and the token a child of the group [g] is reported with. *)
Definition child_of (g : string) (i : nat) : INDEX_T * string :=
  (Z.of_nat i,
   strncpy (str_from (String.length g) (cmd_get_token (Z.of_nat i))) (CMD_TOKEN_LEN + 1)).

Definition reported (c : cmdObj) : INDEX_T * string := (cmd_index c, cmd_token c).

(** The children of [g] below the group index [gi] are in the table, their
    get bindings touch one object only, there are at most [room] of them,
    and [gi] is a descriptor bound to [_get_grp]. *)
Definition group_ok (g : string) (gi room : nat) : bool :=
  forallb (fun i => Nat.ltb i CMD_INDEX_MAX && is_leaf_get (item_get (item_at i))) (kids g 0 gi)
  && Nat.leb (List.length (kids g 0 gi)) room
  && Nat.ltb gi CMD_INDEX_MAX
  && match item_get (item_at gi) with get_grp => true | _ => false end.

(** A token has between one and [CMD_TOKEN_LEN] characters. *)
Definition token_length_ok (i : nat) : bool :=
  Nat.leb 1 (String.length (cmd_get_token (Z.of_nat i)))
  && Nat.leb (String.length (cmd_get_token (Z.of_nat i))) CMD_TOKEN_LEN.

(** The message lookup of the get binding of descriptor [i], if it has one,
    stays inside its array for the byte the target holds in [m]. *)
Definition reads_in_bounds (m : machine) (i : nat) : bool :=
  msg_in_bounds (item_get (item_at i)) (read_u8 (load m (target_of i))).

(** The children of the six axis groups as the table has them, each with
    its index and its token less the axis letter. *)
Definition axis_children (g : string) : list (INDEX_T * string) :=
  if String.eqb g "x" then
    [(49, "am"); (50, "fr"); (51, "vm"); (52, "tm"); (53, "jm"); (54, "jd"); (55, "sm");
     (56, "sv"); (57, "lv"); (58, "zo"); (59, "abs"); (60, "pos")]%Z
  else if String.eqb g "y" then
    [(61, "am"); (62, "fr"); (63, "vm"); (64, "tm"); (65, "jm"); (66, "jd"); (67, "sm");
     (68, "sv"); (69, "lv"); (70, "zo"); (71, "abs"); (72, "pos")]%Z
  else if String.eqb g "z" then
    [(73, "am"); (74, "fr"); (75, "vm"); (76, "tm"); (77, "jm"); (78, "jd"); (79, "sm");
     (80, "sv"); (81, "lv"); (82, "zo"); (83, "abs"); (84, "pos")]%Z
  else if String.eqb g "a" then
    [(85, "am"); (86, "fr"); (87, "vm"); (88, "tm"); (89, "jm"); (90, "jd"); (91, "ra");
     (92, "sm"); (93, "sv"); (94, "lv"); (95, "zo"); (96, "abs"); (97, "pos")]%Z
  else if String.eqb g "b" then
    [(98, "am"); (99, "fr"); (100, "vm"); (101, "tm"); (102, "jm"); (103, "cd"); (104, "ra");
     (105, "sm"); (106, "sv"); (107, "lv"); (108, "zo"); (109, "abs"); (110, "pos")]%Z
  else if String.eqb g "c" then
    [(111, "am"); (112, "fr"); (113, "vm"); (114, "tm"); (115, "jm"); (116, "jd"); (117, "ra");
     (118, "sm"); (119, "sv"); (120, "ls"); (121, "zo"); (122, "abs"); (123, "pos")]%Z
  else [].

(** ** Vocabulary for the further properties *)

(** [m'] has the live storage, the EEPROM and the EEPROM write log of [m]. *)
Definition same_store (m m' : machine) : Prop :=
  mem m' = mem m /\ nvm m' = nvm m /\ nvm_log m' = nvm_log m.

(** [m'] differs from [m] at most in the array of command objects. *)
Definition same_but_objects (m m' : machine) : Prop :=
  same_store m m' /\ in_buf m' = in_buf m /\ io_log m' = io_log m.

(** A get binding that keeps the store and the size of the object array. *)
Definition binding_ok (b : binding) : Prop :=
  forall i m arr p m' arr',
    b i m arr p = Some (m', arr') -> same_store m m' /\ List.length arr' = List.length arr.

(** A print function that keeps the store. *)
Definition print_ok (f : INDEX_T -> machine -> option machine) : Prop :=
  forall i m m', f i m = Some m' -> same_store m m'.

(** A set function that keeps the EEPROM and its log. *)
Definition set_ok (f : INDEX_T -> machine -> list cmdObj -> nat -> cmd_set_result) : Prop :=
  forall i m arr p m' arr' st,
    f i m arr p = Some (m', arr', st) -> nvm m' = nvm m /\ nvm_log m' = nvm_log m.

(** The cell the set binding of descriptor [i] leaves in its target when run
    on the value [x] in millimetre mode; none for the bindings that do not
    store into their target. *)
Definition cell_of (E : Env) (i : nat) (x : double) : option val :=
  match item_set (item_at i) with
  | set_ui8 | set_mi | set_po | set_ic | set_il | set_ec | set_ee | set_ex => Some (VU8 (to_u8 E x))
  | set_int => Some (VU32 (to_u32 E x))
  | set_dbl | set_sa | set_dbu => Some (VDbl x)
  | set_si => Some (VU8 (to_u8 E (ceil (clamp_si E x / segment_ms E)%float)))
  | set_nul | run_gc | set_sr | set_grp => None
  end.

(** The value the command object carries after the set binding of
    descriptor [i] has run on [x]: [x], clamped for the status interval. *)
Definition written_value (E : Env) (i : nat) (x : double) : double :=
  match item_set (item_at i) with
  | set_si => clamp_si E x
  | _ => x
  end.

(** The command object [cfg_init] reads from the EEPROM for descriptor [k]. *)
Definition load_cmd (m : machine) (k : nat) : cmdObj :=
  set_token (set_value_type (set_value cmd_new_object (nvm m (Z.of_nat k))) VALUE_TYPE_FLOAT)
            (cmd_get_token (Z.of_nat k)).

(** One turn of the replay loop of [cfg_init] at a descriptor that is not
    excluded: the set binding on the stored value. *)
Definition load_step (E : Env) (k : nat) (m : machine) : machine :=
  fst (set_leaf E (item_set (item_at k)) k m (load_cmd m k)).

Definition load_run (E : Env) (l : list nat) (m : machine) : machine :=
  fold_left (fun m k => if not_excluded k then load_step E k m else m) l m.

(** What holds of the machine [M] once the replay loop, started on [m0], is
    through with the indices below [n]. *)
Record load_inv (E : Env) (m0 : machine) (n : nat) (M : machine) : Prop := mkLoadInv {
  linv_units : cm_get_units_mode M = MILLIMETER_MODE;
  linv_nvm : nvm M = nvm m0;
  linv_log : nvm_log M = nvm_log m0;
  linv_cells : forall i v, i < n -> not_excluded i = true ->
                           cell_of E i (nvm m0 (Z.of_nat i)) = Some v ->
                           load M (target_of i) = v
}.

(** The indices from [k], [n] of them, whose token is not in [exc] and is
    in [inc], as [_get_sys] and [_get_qm] test it (by [strstr]). *)
Definition listed_kids (inc : string) (exc : option string) (k n : nat) : list nat :=
  filter (fun i => negb (excluded exc (cmd_get_token (Z.of_nat i)))
                   && is_substring inc (cmd_get_token (Z.of_nat i)))
         (seq k n).

(** The index and the token a child of a listed group is reported with. *)
Definition listed_child (i : nat) : INDEX_T * string := (Z.of_nat i, cmd_get_token (Z.of_nat i)).

Definition motor_and_coordinate_groups : list string :=
  ["1"; "2"; "3"; "4"; "g54"; "g55"; "g56"; "g57"; "g58"; "g59"].

(** The children of the motor groups and of the coordinate system groups
    as the table has them, each with its index and its token less the
    group token. *)
Definition motor_and_coordinate_children (g : string) : list (INDEX_T * string) :=
  if String.eqb g "1" then
    [(25, "ma"); (26, "sa"); (27, "tr"); (28, "mi"); (29, "po"); (30, "pm")]%Z
  else if String.eqb g "2" then
    [(31, "ma"); (32, "sa"); (33, "tr"); (34, "mi"); (35, "po"); (36, "pm")]%Z
  else if String.eqb g "3" then
    [(37, "ma"); (38, "sa"); (39, "tr"); (40, "mi"); (41, "po"); (42, "pm")]%Z
  else if String.eqb g "4" then
    [(43, "ma"); (44, "sa"); (45, "tr"); (46, "mi"); (47, "po"); (48, "pm")]%Z
  else if String.eqb g "g54" then
    [(124, "x"); (125, "y"); (126, "z"); (127, "a"); (128, "b"); (129, "c")]%Z
  else if String.eqb g "g55" then
    [(130, "x"); (131, "y"); (132, "z"); (133, "a"); (134, "b"); (135, "c")]%Z
  else if String.eqb g "g56" then
    [(136, "x"); (137, "y"); (138, "z"); (139, "a"); (140, "b"); (141, "c")]%Z
  else if String.eqb g "g57" then
    [(142, "x"); (143, "y"); (144, "z"); (145, "a"); (146, "b"); (147, "c")]%Z
  else if String.eqb g "g58" then
    [(148, "x"); (149, "y"); (150, "z"); (151, "a"); (152, "b"); (153, "c")]%Z
  else if String.eqb g "g59" then
    [(154, "x"); (155, "y"); (156, "z"); (157, "a"); (158, "b"); (159, "c")]%Z
  else [].

Definition listed_group_ok (inc : string) (exc : option string) (gi room : nat) : bool :=
  forallb (fun i => Nat.ltb i CMD_INDEX_MAX && is_leaf_get (item_get (item_at i)))
          (listed_kids inc exc 0 gi)
  && Nat.leb (List.length (listed_kids inc exc 0 gi)) room
  && Nat.ltb gi CMD_INDEX_MAX.

Definition sys_include : string := "fv,fb,si,gpl,gun,gco,gpa,gdi,ea,ja,ml,ma,mt,ic,il,ec,ee,ex".
Definition qm_include : string := "xpos,ypos,zpos,apos,bpos,cpos,stat".

(** The motor bindings sit on motor descriptors only: the descriptor names
    one of the four motors, and its target is the field of that motor the
    binding is about. *)
Definition motor_ok (i : nat) : bool :=
  let mo := _get_motor i in
  match item_set (item_at i) with
  | set_mi => (0 <=? mo)%Z && String.eqb (target_of i) (motor_field mo "microsteps")
  | set_sa => (0 <=? mo)%Z
              && (String.eqb (target_of i) (motor_field mo "step_angle")
                  || String.eqb (target_of i) (motor_field mo "travel_rev"))
  | set_po => (0 <=? mo)%Z && String.eqb (target_of i) (motor_field mo "polarity")
  | _ => true
  end.

(** The position bindings sit on axis descriptors only. *)
Definition axis_ok (i : nat) : bool :=
  match item_get (item_at i) with
  | get_abs | get_pos => (0 <=? _get_axis i)%Z
  | _ => true
  end.

(** [_set_sr] takes an object for a slot when its kind and its value are both
    [true]. *)
Definition sr_flagged (c : cmdObj) : bool :=
  valueType_eqb (cmd_value_type c) VALUE_TYPE_TRUE && PrimFloat.eqb (cmd_value c) 1%float.

(** The [k] objects that follow the one at [p] all have a successor, so the
    loop of [_set_sr] gets as far as the next one. *)
Definition sr_reached (arr : list cmdObj) (p k : nat) : bool :=
  forallb (fun j => match cmd_nx (obj_at arr (p + 1 + j)) with Some _ => true | None => false end)
          (seq 0 k).

(** The content of slot [k] of the status report vector after [_set_sr] on
    the object at [p]. *)
Definition sr_expected (arr : list cmdObj) (p k : nat) : val :=
  if sr_reached arr p k && sr_flagged (obj_at arr (p + 1 + k))
  then VU32 (cmd_index (obj_at arr (p + 1 + k)) mod 2 ^ 32)%Z
  else VU32 0.

(** A descriptor that prints a single value has a get binding that touches
    one object only. *)
Definition single_print_ok (i : nat) : bool :=
  match item_print (item_at i) with
  | print_grp => true
  | _ => is_leaf_get (item_get (item_at i))
  end.

(** Descriptor [i] is printed as a number: not as a group and not as an axis
    mode with its message, and where its print function calls the get
    binding, that binding looks up no message. *)
Definition prints_number (i : nat) : bool :=
  match item_print (item_at i), item_get (item_at i) with
  | (print_grp | print_am), _ => false
  | print_nul, _ => true
  | _, (get_stat | get_unit | get_am) => false
  | _, _ => true
  end.

(** * Properties *)

(** ** The table *)

Lemma cfgArray_strings_ok : forallb (fun it => string_ok (item_string it)) cfgArray = true.
Proof. vm_compute. reflexivity. Qed.

Example ex_index_xfr : cmd_get_index "xfr" = 50%Z.
Proof. vm_compute. reflexivity. Qed.

Example ex_index_zzz : cmd_get_index "zzz" = 190%Z.
Proof. vm_compute. reflexivity. Qed.

Example ex_bytoken_line : cmd_get_index_by_token "linexyz" = 3%Z.
Proof. vm_compute. reflexivity. Qed.

Example ex_counts : (CMD_INDEX_MAX, CMD_INDEX_END_SINGLES, CMD_INDEX_START_GROUPS) = (198, 161, 181).
Proof. vm_compute. reflexivity. Qed.

(** ** Resolution *)

Lemma strstr_is_start_prefix (a b : string) : strstr_is_start a b = prefix b a.
Proof.
  unfold strstr_is_start.
  destruct a as [|c a].
  - destruct b; reflexivity.
  - cbn [strstr]. destruct (prefix b (String c a)); [reflexivity|].
    destruct (strstr a b); reflexivity.
Qed.

Lemma cmd_get_index_scan_spec (tbl : list cfgItem) (s : string) :
  forall i0 : Z,
    (cmd_get_index_scan tbl i0 s = (-1)%Z
     /\ forall k, k < List.length tbl -> matches_item (nth k tbl null_item) s = false)
    \/ (exists k, cmd_get_index_scan tbl i0 s = (i0 + Z.of_nat k)%Z
                  /\ k < List.length tbl
                  /\ matches_item (nth k tbl null_item) s = true
                  /\ forall j, j < k -> matches_item (nth j tbl null_item) s = false).
Proof.
  induction tbl as [|it rest IH]; intro i0.
  - left. split; [reflexivity|]. simpl. intros k Hk. lia.
  - simpl cmd_get_index_scan.
    destruct (names_fields (item_string it)) as [token name] eqn:Hnf.
    rewrite !strstr_is_start_prefix.
    assert (Hm : matches_item it s = prefix token s || prefix name s).
    { unfold matches_item. rewrite Hnf. reflexivity. }
    destruct (prefix token s || prefix name s) eqn:Hhit.
    + right. exists 0. rewrite Z.add_0_r.
      split.
      { destruct (prefix token s); [reflexivity|]. simpl in Hhit. rewrite Hhit. reflexivity. }
      split; [simpl; lia|]. split; [exact Hm|]. intros j Hj. lia.
    + apply orb_false_iff in Hhit. destruct Hhit as [Ht Hn]. rewrite Ht, Hn.
      destruct (IH (i0 + 1)%Z) as [[Hr Hall]|[k [Hr [Hk [Hmk Hlt]]]]].
      * left. split; [exact Hr|]. intros [|k] Hk; [exact Hm|].
        simpl. apply Hall. simpl in Hk. lia.
      * right. exists (S k). split; [rewrite Hr; lia|].
        split; [simpl; lia|]. split; [exact Hmk|].
        intros [|j] Hj; [exact Hm|]. simpl. apply Hlt. lia.
Qed.

(** C3 (as amended): the general resolver returns the least index whose
    stored token or stored friendly name is a prefix of the input, and it
    returns -1 exactly when no descriptor's token or name is a prefix of the
    input. *)
Theorem cmd_get_index_first_match (s : string) :
  (cmd_get_index s = (-1)%Z /\ forall i, i < CMD_INDEX_MAX -> matches i s = false)
  \/ (exists i, cmd_get_index s = Z.of_nat i
                /\ i < CMD_INDEX_MAX
                /\ matches i s = true
                /\ forall j, j < i -> matches j s = false).
Proof.
  unfold cmd_get_index.
  destruct (cmd_get_index_scan_spec cfgArray s 0) as [[Hr Hall]|[k [Hr [Hk [Hm Hlt]]]]].
  - left. split; [exact Hr|]. intros i Hi. apply Hall. exact Hi.
  - right. exists k. rewrite Hr. split; [reflexivity|].
    split; [exact Hk|]. split; [exact Hm|]. exact Hlt.
Qed.

(** C3 (as stated) fails: "f" is a prefix of the token of descriptor 0, yet
    the resolver does not find it; and "x_feedrate" is a prefix of no stored
    token or name, yet it resolves to descriptor 50. *)
Lemma cmd_get_index_not_input_prefix :
  prefix "f" (token_field 0) = true
  /\ cmd_get_index "f" = (-1)%Z
  /\ cmd_get_index "x_feedrate" = 50%Z
  /\ forallb (fun i => negb (prefix "x_feedrate" (token_field i))
                       && negb (prefix "x_feedrate" (name_field i)))
             (seq 0 CMD_INDEX_MAX) = true.
Proof. vm_compute. repeat split; reflexivity. Qed.

Lemma strstr_comma (s : string) : strstr s "," = strchr s ",".
Proof.
  induction s as [|c s IH]; [reflexivity|].
  cbn [strstr strchr prefix].
  destruct (ascii_dec "," c) as [Heq|Hne].
  - subst c. destruct s; reflexivity.
  - destruct (Ascii.eqb_spec c ","); [congruence|]. rewrite IH. reflexivity.
Qed.

Lemma cfgArray_token_strings_ok :
  forallb (fun it => token_string_ok (item_string it)) cfgArray = true.
Proof. vm_compute. reflexivity. Qed.

Lemma substring_none (r : string) : substring 0 0 r = EmptyString.
Proof. destruct r; reflexivity. Qed.

Lemma token_test_sound (str s : string) :
  token_string_ok str = true ->
  token_candidate s = true ->
  token_test (strncpy str CMD_TOKEN_LEN) s = true ->
  prefix (token_of_string str) s = true
  /\ (String.length (token_of_string str) < CMD_TOKEN_LEN -> s = token_of_string str).
Proof.
  intros Hok Hc Ht.
  unfold token_test, char_at in Ht. unfold token_candidate in Hc.
  unfold token_of_string, split_comma. rewrite strstr_comma.
  unfold token_string_ok in Hok.
  destruct str as [|a [|b [|c [|d r]]]]; try discriminate Hok.
  destruct r as [|e r];
    (destruct s as [|s0 [|s1 [|s2 [|s3 s']]]]);
    cbn -[Ascii.eqb] in Hok, Hc, Ht |- *;
    rewrite ?substring_none in *; cbn -[Ascii.eqb] in Hok, Hc, Ht |- *;
    repeat match goal with
      | H : context [Ascii.eqb ?x ?y] |- _ =>
          destruct (Ascii.eqb_spec x y); [subst|]; cbn -[Ascii.eqb] in H; try discriminate H
      | |- context [Ascii.eqb ?x ?y] =>
          destruct (Ascii.eqb_spec x y); [subst|]; cbn -[Ascii.eqb]
      end.
  all: try congruence.
  all: try (cbn in Hok; discriminate Hok).
  all: try (cbn in Ht; discriminate Ht).
  all: try (cbn in Hc; discriminate Hc).
  all: cbn; split;
    [ repeat match goal with
             | |- context [ascii_dec ?x ?y] => destruct (ascii_dec x y); [|congruence]
             end; first [reflexivity | destruct s'; reflexivity]
    | intro Hl; cbn in Hl; unfold CMD_TOKEN_LEN in Hl; try lia; try reflexivity ].
Qed.

Lemma cmd_get_index_by_token_scan_range (tbl : list cfgItem) (s : string) :
  forall j : Z,
    cmd_get_index_by_token_scan tbl j s = (-1)%Z
    \/ (j <= cmd_get_index_by_token_scan tbl j s)%Z.
Proof.
  induction tbl as [|x t IHt]; intro j; simpl; [left; reflexivity|].
  destruct (token_test (strncpy (item_string x) CMD_TOKEN_LEN) s); [right; lia|].
  destruct (IHt (j + 1)%Z) as [H|H]; [left; exact H | right; lia].
Qed.

Lemma cmd_get_index_by_token_scan_hit (tbl : list cfgItem) (s : string) :
  forall (i0 : Z) (k : nat),
    cmd_get_index_by_token_scan tbl i0 s = (i0 + Z.of_nat k)%Z ->
    (0 <= i0)%Z ->
    k < List.length tbl
    /\ token_test (strncpy (item_string (nth k tbl null_item)) CMD_TOKEN_LEN) s = true.
Proof.
  induction tbl as [|it rest IH]; intros i0 k Hr Hi0.
  - simpl in Hr. lia.
  - simpl in Hr.
    destruct (token_test (strncpy (item_string it) CMD_TOKEN_LEN) s) eqn:Ht.
    + assert (k = 0) by lia. subst k. split; [simpl; lia | exact Ht].
    + destruct k as [|k].
      * exfalso.
        destruct (cmd_get_index_by_token_scan_range rest s (i0 + 1)%Z) as [H|H]; lia.
      * destruct (IH (i0 + 1)%Z k) as [Hk Hm]; [rewrite Hr; lia | lia |].
        split; [simpl; lia | exact Hm].
Qed.

Lemma table_fact (P : nat -> bool) :
  forallb P (seq 0 CMD_INDEX_MAX) = true -> forall i, i < CMD_INDEX_MAX -> P i = true.
Proof.
  intros H i Hi. rewrite forallb_forall in H. apply H. apply in_seq. lia.
Qed.

Lemma char_at_strncpy (s : string) (n k : nat) :
  k < n -> char_at (strncpy s n) k = char_at s k.
Proof.
  intro Hk. unfold char_at, strncpy.
  rewrite (substring_correct1 s 0 n k Hk). rewrite Nat.add_0_r. reflexivity.
Qed.

(** The token test looks at the first four characters of the input only. *)
Lemma token_test_first_four (token s : string) :
  token_test token (strncpy s CMD_TOKEN_LEN) = token_test token s.
Proof.
  unfold token_test, CMD_TOKEN_LEN.
  rewrite !char_at_strncpy by lia. reflexivity.
Qed.

Lemma cmd_get_index_by_token_scan_first_four (tbl : list cfgItem) (s : string) :
  forall j, cmd_get_index_by_token_scan tbl j (strncpy s CMD_TOKEN_LEN)
            = cmd_get_index_by_token_scan tbl j s.
Proof.
  induction tbl as [|it rest IH]; intro j; [reflexivity|].
  cbn [cmd_get_index_by_token_scan]. rewrite token_test_first_four, IH. reflexivity.
Qed.

Lemma cfgArray_own_token_found : forall i, i < CMD_INDEX_MAX -> own_token_found i = true.
Proof. apply table_fact. vm_compute. reflexivity. Qed.

Lemma cmd_get_index_by_token_complete (s : string) (i : nat) :
  i < CMD_INDEX_MAX ->
  String.length (cmd_get_token (Z.of_nat i)) = CMD_TOKEN_LEN ->
  prefix (cmd_get_token (Z.of_nat i)) s = true ->
  cmd_get_index_by_token s = Z.of_nat i.
Proof.
  intros Hi Hlen Hpre.
  apply prefix_correct in Hpre. rewrite Hlen in Hpre.
  unfold cmd_get_index_by_token.
  rewrite <- cmd_get_index_by_token_scan_first_four.
  unfold strncpy. rewrite Hpre.
  pose proof (cfgArray_own_token_found i Hi) as H. unfold own_token_found in H.
  rewrite Hlen, Nat.eqb_refl in H. cbn [negb orb] in H.
  apply Z.eqb_eq in H. exact H.
Qed.

Lemma cmd_get_index_by_token_only (s : string) (i : nat) :
  token_candidate s = true ->
  cmd_get_index_by_token s = Z.of_nat i ->
  i < CMD_INDEX_MAX
  /\ prefix (cmd_get_token (Z.of_nat i)) s = true
  /\ (String.length (cmd_get_token (Z.of_nat i)) < CMD_TOKEN_LEN -> s = cmd_get_token (Z.of_nat i)).
Proof.
  intros Hc Hr.
  destruct (cmd_get_index_by_token_scan_hit cfgArray s 0 i) as [Hi Ht]; [exact Hr | lia |].
  split; [exact Hi|].
  assert (Hok : token_string_ok (item_string (nth i cfgArray null_item)) = true).
  { pose proof cfgArray_token_strings_ok as Hall.
    rewrite forallb_forall in Hall. apply Hall. apply nth_In. exact Hi. }
  unfold cmd_get_token, in_table.
  replace ((0 <=? Z.of_nat i)%Z && (Z.of_nat i <? Z.of_nat CMD_INDEX_MAX)%Z) with true.
  2:{ symmetry. apply andb_true_iff. split; [apply Z.leb_le; lia | apply Z.ltb_lt; unfold CMD_INDEX_MAX; lia]. }
  rewrite Nat2Z.id. unfold item_at.
  apply token_test_sound; assumption.
Qed.

(** C4 (as amended): for an input without comma, an index returned by the
    token resolver is that of a descriptor whose token is a prefix of the
    input, and a token of fewer than four characters is matched only by an
    input equal to it.  Four characters at most are compared: every input
    that begins with a four-character token, however long, resolves to the
    descriptor of that token. *)
Theorem cmd_get_index_by_token_sound (s : string) (i : nat) :
  (token_candidate s = true ->
   cmd_get_index_by_token s = Z.of_nat i ->
   i < CMD_INDEX_MAX
   /\ prefix (cmd_get_token (Z.of_nat i)) s = true
   /\ (String.length (cmd_get_token (Z.of_nat i)) < CMD_TOKEN_LEN ->
       s = cmd_get_token (Z.of_nat i)))
  /\ (i < CMD_INDEX_MAX ->
      String.length (cmd_get_token (Z.of_nat i)) = CMD_TOKEN_LEN ->
      prefix (cmd_get_token (Z.of_nat i)) s = true ->
      cmd_get_index_by_token s = Z.of_nat i).
Proof.
  split.
  - apply cmd_get_index_by_token_only.
  - apply cmd_get_index_by_token_complete.
Qed.

(** The three-character token "xfr" is found by the input "xfr" alone; the
    four-character token "xpos" (descriptor 60) is found by the longer input
    "xposition" too. *)
Lemma cmd_get_index_by_token_sound_witness :
  (token_candidate "xfr" = true
   /\ cmd_get_index_by_token "xfr" = 50%Z
   /\ 50 < CMD_INDEX_MAX
   /\ prefix (cmd_get_token 50%Z) "xfr" = true
   /\ (String.length (cmd_get_token 50%Z) < CMD_TOKEN_LEN -> "xfr" = cmd_get_token 50%Z))
  /\ (60 < CMD_INDEX_MAX
      /\ cmd_get_token 60%Z = "xpos"
      /\ prefix (cmd_get_token 60%Z) "xposition" = true
      /\ cmd_get_index_by_token "xposition" = 60%Z).
Proof.
  split.
  - split; [reflexivity|]. split; [vm_compute; reflexivity|].
    apply (proj1 (cmd_get_index_by_token_sound "xfr" 50)); vm_compute; reflexivity.
  - split; [vm_compute; lia|]. split; [vm_compute; reflexivity|].
    split; [vm_compute; reflexivity|].
    apply (proj2 (cmd_get_index_by_token_sound "xposition" 60)).
    + vm_compute. lia.
    + vm_compute. reflexivity.
    + vm_compute. reflexivity.
Defined.

(** C4 (as stated) fails: the token "line" is a proper prefix of the input
    "linexyz", and the token resolver returns its index 3 for that input. *)
Lemma cmd_get_index_by_token_longer_input :
  cmd_get_index_by_token "linexyz" = 3%Z
  /\ cmd_get_token 3%Z = "line"
  /\ "linexyz" <> cmd_get_token 3%Z.
Proof.
  split; [vm_compute; reflexivity|]. split; [vm_compute; reflexivity|].
  vm_compute. discriminate.
Qed.

(** ** The command line parser *)

Lemma strchr_separators (c : ascii) :
  strchr separators c = None <-> is_separator c = false.
Proof.
  unfold separators, is_separator. cbn [strchr].
  rewrite !(Ascii.eqb_sym c).
  destruct (Ascii.eqb " " c), (Ascii.eqb "=" c), (Ascii.eqb ":" c),
           (Ascii.eqb "|" c), (Ascii.eqb TAB c); cbn; split; intro H; congruence.
Qed.

Lemma strpbrk_first (s : string) (k : nat) :
  first_separator s k -> strpbrk s separators = Some k.
Proof.
  revert k. induction s as [|c s IH]; intros k [[x [Hx Hsep]] Hbefore].
  - destruct k; discriminate Hx.
  - cbn [strpbrk]. destruct k as [|k].
    + cbn in Hx. injection Hx as ->.
      destruct (strchr separators x) eqn:Hc; [reflexivity|].
      apply strchr_separators in Hc. congruence.
    + assert (Hc : is_separator c = false) by (apply (Hbefore 0 c); [lia | reflexivity]).
      apply strchr_separators in Hc. rewrite Hc.
      rewrite (IH k); [reflexivity|].
      split; [exists x; split; [exact Hx | exact Hsep]|].
      intros j y Hj Hy. apply (Hbefore (S j) y); [lia | exact Hy].
Qed.

Lemma strpbrk_none (s : string) :
  no_separator s -> strpbrk s separators = None.
Proof.
  induction s as [|c s IH]; intro Hno; [reflexivity|].
  cbn [strpbrk].
  assert (Hc : is_separator c = false) by (apply (Hno 0 c); reflexivity).
  apply strchr_separators in Hc. rewrite Hc.
  rewrite IH; [reflexivity|].
  intros j y Hy. apply (Hno (S j) y). exact Hy.
Qed.

(** C7 (as amended): after the optional leading '$' is dropped and the line
    is lowercased, the parser splits at the first character among space,
    '=', ':', '|' and tab.  The text before it, cut to the name length, is
    the name; the text after it is handed to [strtod], whose value becomes
    the object's value; the kind is "float" when [strtod] consumed
    something and null when it did not, unless the name resolves to a group
    index, which forces "parent".  A line without separator is a name only,
    of kind null (or "parent"). *)
Theorem parse_config_string_split (E : Env) (line : string) :
  let body := strlower (skip_dollar line) in
  let cmd := fst (_parse_config_string E line) in
  (forall k, first_separator body k ->
     cmd_name cmd = strncpy (substring 0 k body) CMD_NAME_LEN
     /\ cmd_value cmd = fst (strtod E (str_from (S k) body))
     /\ cmd_value_type cmd = kind_of (cmd_index cmd) (snd (strtod E (str_from (S k) body))))
  /\ (no_separator body ->
      cmd_name cmd = strncpy body CMD_NAME_LEN
      /\ cmd_value_type cmd = kind_of (cmd_index cmd) 0).
Proof.
  cbv zeta. split.
  - intros k Hk. apply strpbrk_first in Hk.
    unfold _parse_config_string. rewrite Hk.
    destruct (strtod E (str_from (S k) (strlower (skip_dollar line)))) as [v used].
    unfold kind_of. cbn [fst snd].
    destruct (Nat.eqb used 0); cbn -[cmd_get_index CMD_INDEX_START_GROUPS Z.leb Z.eqb];
      destruct (cmd_get_index _ =? -1)%Z eqn:Hi;
      cbn -[cmd_get_index CMD_INDEX_START_GROUPS Z.leb Z.eqb];
      try (destruct (Z.of_nat CMD_INDEX_START_GROUPS <=? cmd_get_index _)%Z eqn:Hg);
      cbn -[cmd_get_index CMD_INDEX_START_GROUPS Z.leb Z.eqb];
      rewrite ?Hi, ?Hg; cbn -[cmd_get_index CMD_INDEX_START_GROUPS Z.leb Z.eqb];
      repeat split; reflexivity.
  - intro Hno. apply strpbrk_none in Hno.
    unfold _parse_config_string. rewrite Hno.
    unfold kind_of.
    cbn -[cmd_get_index CMD_INDEX_START_GROUPS Z.leb Z.eqb];
      destruct (cmd_get_index _ =? -1)%Z eqn:Hi;
      cbn -[cmd_get_index CMD_INDEX_START_GROUPS Z.leb Z.eqb];
      try (destruct (Z.of_nat CMD_INDEX_START_GROUPS <=? cmd_get_index _)%Z eqn:Hg);
      cbn -[cmd_get_index CMD_INDEX_START_GROUPS Z.leb Z.eqb];
      rewrite ?Hi, ?Hg; cbn -[cmd_get_index CMD_INDEX_START_GROUPS Z.leb Z.eqb];
      repeat split; reflexivity.
Qed.

Lemma parse_config_string_split_witness :
  first_separator (strlower (skip_dollar "$XFR=1200")) 3
  /\ cmd_name (fst (_parse_config_string sample_env "$XFR=1200")) = "xfr"
  /\ cmd_value (fst (_parse_config_string sample_env "$XFR=1200")) = 1200%float
  /\ cmd_value_type (fst (_parse_config_string sample_env "$XFR=1200")) = VALUE_TYPE_FLOAT.
Proof.
  assert (H : first_separator (strlower (skip_dollar "$XFR=1200")) 3).
  { split.
    - exists "="%char. split; reflexivity.
    - intros [|[|[|j]]] c Hj Hc; try lia; cbn in Hc; injection Hc as <-; reflexivity. }
  split; [exact H|].
  destruct (parse_config_string_split sample_env "$XFR=1200") as [Hsplit _].
  destruct (Hsplit 3 H) as [Hn [Hv Ht]].
  split; [exact Hn|]. split; [exact Hv|]. exact Ht.
Defined.

(** C7 (as stated) fails: "xfr|5" has none of space, '=', ':' and tab, yet
    the parser splits it at the bar into the name "xfr" and the value 5. *)
Lemma parse_config_string_splits_at_bar :
  forallb (fun c => negb (Ascii.eqb c " " || Ascii.eqb c "=" || Ascii.eqb c ":" || Ascii.eqb c TAB))
          (list_ascii_of_string "xfr|5") = true
  /\ cmd_name (fst (_parse_config_string sample_env "$xfr|5")) = "xfr"
  /\ cmd_value (fst (_parse_config_string sample_env "$xfr|5")) = 5%float
  /\ cmd_value_type (fst (_parse_config_string sample_env "$xfr|5")) = VALUE_TYPE_FLOAT.
Proof. vm_compute. repeat split; reflexivity. Qed.

(** ** Command processing *)

Lemma parse_config_string_unresolved (E : Env) (line : string) :
  cmd_index (fst (_parse_config_string E line)) = (-1)%Z ->
  snd (_parse_config_string E line) = TG_UNRECOGNIZED_COMMAND.
Proof.
  unfold _parse_config_string.
  set (cmd0 := match strpbrk _ _ with Some _ => _ | None => _ end).
  cbv zeta.
  destruct (cmd_index (set_index cmd0 (cmd_get_index (cmd_name cmd0))) =? -1)%Z eqn:Hi.
  - intros _. reflexivity.
  - apply Z.eqb_neq in Hi. cbn [cmd_index set_index] in Hi.
    destruct (Z.of_nat CMD_INDEX_START_GROUPS <=? _)%Z;
      cbn [fst snd cmd_index set_index set_token set_value_type];
      intro H; exfalso; exact (Hi H).
Qed.

(** C8 (as amended): a command line whose name resolves to no descriptor is
    answered with the "unrecognized" status before anything is dispatched:
    live storage, the EEPROM, its write log and the collaborators are left
    as they were, whether or not a value was on the line. *)
Theorem cfg_config_parser_unresolved (E : Env) (d : nat) (line : string) (m : machine) :
  cmd_index (fst (_parse_config_string E line)) = (-1)%Z ->
  exists m',
    cfg_config_parser E d line m = Some (m', TG_UNRECOGNIZED_COMMAND)
    /\ mem m' = mem m /\ nvm m' = nvm m /\ nvm_log m' = nvm_log m /\ io_log m' = io_log m.
Proof.
  intro Hi. apply parse_config_string_unresolved in Hi.
  unfold cfg_config_parser.
  destruct (_parse_config_string E line) as [cmd st]. cbn in Hi. subst st.
  eexists. split; [reflexivity|]. repeat split; reflexivity.
Qed.

Lemma cfg_config_parser_unresolved_witness :
  cmd_index (fst (_parse_config_string sample_env "$qqq=5")) = (-1)%Z
  /\ exists m',
      cfg_config_parser sample_env 2 "$qqq=5" reset_machine = Some (m', TG_UNRECOGNIZED_COMMAND)
      /\ mem m' = mem reset_machine /\ nvm m' = nvm reset_machine
      /\ nvm_log m' = nvm_log reset_machine /\ io_log m' = io_log reset_machine.
Proof.
  split; [vm_compute; reflexivity|].
  apply (cfg_config_parser_unresolved sample_env 2 "$qqq=5" reset_machine).
  vm_compute. reflexivity.
Defined.

(** C8 (as stated) fails on its example: the name of "$zzz=5" resolves, to
    the group "z" (its token is a prefix of "zzz"), and the line is answered
    with TG_OK. *)
Lemma cfg_config_parser_zzz_resolves :
  cmd_index (fst (_parse_config_string sample_env "$zzz=5")) = 190%Z
  /\ token_field 190 = "z"
  /\ option_map snd (cfg_config_parser sample_env 2 "$zzz=5" reset_machine) = Some TG_OK.
Proof. vm_compute. repeat split; reflexivity. Qed.

(** C10, at the line "$g54=5": "g54" is the group descriptor 180, which
    [CMD_INDEX_START_GROUPS] = 181 leaves out of the group region; the line
    is taken for a single-value set and slot 180 of the EEPROM is written. *)
Lemma cfg_config_parser_group_g54_written :
  cmd_index (fst (_parse_config_string sample_env "$g54=5")) = 180%Z
  /\ item_get (item_at 180) = get_grp
  /\ item_set (item_at 180) = set_grp
  /\ CMD_INDEX_START_GROUPS = 181
  /\ option_map (fun r => nvm_log (fst r))
                (cfg_config_parser sample_env 2 "$g54=5" reset_machine) = Some [(180%Z, 5%float)].
Proof. vm_compute. repeat split; reflexivity. Qed.

(** A single-value set in inch mode: live storage takes the value in
    millimetres, the EEPROM slot takes the value as it was typed. *)
Example ex_set_in_inch_mode :
  option_map (fun r => (load (fst r) (target_of 50), nvm_log (fst r)))
             (cfg_config_parser sample_env 1 "$xfr=2"
                                (cm_set_units_mode reset_machine INCHES_MODE))
  = Some (VDbl (2 * MM_PER_INCH)%float, [(50%Z, 2%float)]).
Proof. vm_compute. reflexivity. Qed.

(** ** Typed accessors *)

Lemma cfgArray_storage_ok : forall i, i < CMD_INDEX_MAX -> storage_ok i = true.
Proof. apply table_fact. vm_compute. reflexivity. Qed.

Lemma in_table_nat (i : nat) : i < CMD_INDEX_MAX -> in_table (Z.of_nat i) = true.
Proof.
  intro Hi. unfold in_table. apply andb_true_iff.
  split; [apply Z.leb_le; lia | apply Z.ltb_lt; lia].
Qed.

Lemma load_store_same (m : machine) (t : string) (v : val) : load (store m t v) t = v.
Proof. unfold load, store. cbn. rewrite String.eqb_refl. reflexivity. Qed.

Lemma load_store_other (m : machine) (t u : string) (v : val) :
  String.eqb u t = false -> load (store m t v) u = load m u.
Proof. intro H. unfold load, store. cbn. rewrite H. reflexivity. Qed.

Lemma load_emit (m : machine) (e : event) (t : string) : load (emit m e) t = load m t.
Proof. reflexivity. Qed.

Lemma units_store_other (m : machine) (t : string) (v : val) :
  String.eqb t "gm.units_mode" = false ->
  cm_get_units_mode (store m t v) = cm_get_units_mode m.
Proof.
  intro H. unfold cm_get_units_mode. rewrite load_store_other; [reflexivity|].
  rewrite String.eqb_sym. exact H.
Qed.

Lemma cmd_set_leaf (E : Env) (d i : nat) (m : machine) (arr : list cmdObj) (p : nat) :
  i < CMD_INDEX_MAX ->
  is_leaf_set (item_set (item_at i)) = true ->
  cmd_set E d (Z.of_nat i) m arr p
  = Some (fst (set_leaf E (item_set (item_at i)) i m (obj_at arr p)),
          obj_put arr p (snd (set_leaf E (item_set (item_at i)) i m (obj_at arr p))),
          TG_OK).
Proof.
  intros Hi Hleaf.
  assert (Hd : cmd_set E d = set_dispatch E (match d with
                                             | O => fun _ _ _ _ => None
                                             | S d' => cmd_set E d'
                                             end)) by (destruct d; reflexivity).
  rewrite Hd. unfold set_dispatch. rewrite (in_table_nat i Hi), Nat2Z.id.
  destruct (item_set (item_at i)); try discriminate Hleaf;
    destruct (set_leaf E _ i m (obj_at arr p)); reflexivity.
Qed.

Lemma cmd_get_leaf (E : Env) (d i : nat) (m : machine) (arr : list cmdObj) (p : nat) :
  i < CMD_INDEX_MAX ->
  is_leaf_get (item_get (item_at i)) = true ->
  cmd_get E d (Z.of_nat i) m arr p
  = Some (fst (get_leaf E (item_get (item_at i)) i m (obj_at arr p)),
          obj_put arr p (snd (get_leaf E (item_get (item_at i)) i m (obj_at arr p))),
          TG_OK).
Proof.
  intros Hi Hleaf.
  unfold cmd_get. rewrite (in_table_nat i Hi), Nat2Z.id.
  assert (Hd : get_binding E d = get_dispatch E (match d with
                                                 | O => no_binding
                                                 | S d' => get_binding E d'
                                                 end)) by (destruct d; reflexivity).
  rewrite Hd. unfold get_dispatch.
  destruct (item_get (item_at i)); try discriminate Hleaf;
    destruct (get_leaf E _ i m (obj_at arr p)); reflexivity.
Qed.

Lemma round_trip_leaf (i : nat) (b : bool) (x v : double) :
  round_trip i b x = Some v ->
  is_leaf_set (item_set (item_at i)) = true /\ is_leaf_get (item_get (item_at i)) = true.
Proof.
  unfold round_trip.
  destruct (item_set (item_at i)), (item_get (item_at i)); intro H;
    try discriminate H; split; reflexivity.
Qed.

Ltac storage_facts H :=
  unfold storage_ok in H;
  match type of H with
  | context [item_set (item_at ?i)] =>
      match goal with
      | Hs : item_set (item_at i) = _ |- _ => rewrite Hs in H
      end
  end;
  repeat match type of H with
    | (_ && _) = true => let H1 := fresh H in apply andb_true_iff in H as [H H1]
    end.

Lemma to_u8_fits (E : Env) (x : double) : fits_unsigned 8 x = true -> to_u8 E x = d2Z x.
Proof. intro H. unfold to_u8, to_unsigned. rewrite H. reflexivity. Qed.

Lemma to_u32_fits (E : Env) (x : double) : fits_unsigned 32 x = true -> to_u32 E x = d2Z x.
Proof. intro H. unfold to_u32, to_unsigned. rewrite H. reflexivity. Qed.

(** C5 (as amended): for every descriptor whose set binding stores the value
    (byte, integer, float, float with unit conversion, and the motor and
    serial-option variants), [set(x)] followed at once by [get()] in the same
    unit mode gives [x] narrowed to the storage kind: the integral part of
    [x] for a byte or an integer, when it fits the type (and is one of the
    eleven modes for an axis mode), [x] itself for a float, and in inch mode
    [x] multiplied by 25.4 and then by 1/25.4 for a unit-bearing float. *)
Theorem set_then_get_round_trip (E : Env) (d i : nat) (x v : double) (m : machine) :
  i < CMD_INDEX_MAX ->
  round_trip i (cm_get_units_mode m =? INCHES_MODE)%Z x = Some v ->
  set_then_get E d (Z.of_nat i) x m = Some v.
Proof.
  intros Hi Hrt.
  destruct (round_trip_leaf _ _ _ _ Hrt) as [Hls Hlg].
  pose proof (cfgArray_storage_ok i Hi) as Hok.
  unfold set_then_get, set_value_at, get_value_at.
  rewrite (cmd_set_leaf E d i m _ 0 Hi Hls), (cmd_get_leaf E d i _ _ 0 Hi Hlg).
  unfold round_trip in Hrt.
  destruct (item_set (item_at i)) eqn:Hs; try discriminate Hls;
    destruct (item_get (item_at i)) eqn:Hg; try discriminate Hrt;
    try (destruct (fits_unsigned 8 x) eqn:Hfit; [|discriminate Hrt]);
    try (destruct (fits_unsigned 32 x) eqn:Hfit; [|discriminate Hrt]);
    cbn [andb] in Hrt;
    try (destruct (msg_in_bounds _ _); [|discriminate Hrt]);
    injection Hrt as <-; storage_facts Hok;
    cbn [set_leaf get_leaf fst snd obj_at obj_put nth];
    unfold _get_ui8, _get_am, _get_int, _get_dbl, _get_dbu, _set_ui8, _set_int, _set_dbl,
           _set_dbu, _set_sa, _set_mi, _set_po, set_serial, _set_motor_steps_per_unit;
    cbn [cmd_value set_value set_value_type set_string];
    unfold _get_ui8, _set_ui8, _set_dbl;
    cbn [cmd_value set_value set_value_type set_string];
    rewrite ?(to_u8_fits E x) by assumption;
    rewrite ?(to_u32_fits E x) by assumption;
    repeat match goal with
      | H : negb _ = true |- _ => apply negb_true_iff in H
      | H : String.eqb _ _ = true |- _ => apply String.eqb_eq in H
      end;
    try match goal with H : target_of i = _ |- _ => rewrite H in * end;
    try destruct (cm_get_units_mode m =? INCHES_MODE)%Z eqn:Hmode;
    rewrite ?units_store_other by assumption;
    rewrite ?Hmode;
    rewrite ?load_emit;
    try (erewrite load_store_other by eassumption);
    rewrite ?load_store_same;
    try reflexivity.
Qed.

(** A byte parameter narrows: 3.7 set on the plane selection (descriptor 10)
    reads back as 3; a unit-bearing parameter in inch mode converts there
    and back: 2 set on the x feed rate (descriptor 50) is stored as 50.8
    and reads back as 1.9999999999999998, the float next below 2. *)
Lemma set_then_get_round_trip_witness :
  (10 < CMD_INDEX_MAX
   /\ round_trip 10 (cm_get_units_mode reset_machine =? INCHES_MODE)%Z 0x1.d99999999999ap+1%float
      = Some 3%float
   /\ set_then_get sample_env 0 10%Z 0x1.d99999999999ap+1%float reset_machine = Some 3%float)
  /\ (50 < CMD_INDEX_MAX
      /\ round_trip 50 (cm_get_units_mode (cm_set_units_mode reset_machine INCHES_MODE)
                        =? INCHES_MODE)%Z 2%float
         = Some 0x1.fffffffffffffp+0%float
      /\ set_then_get sample_env 0 50%Z 2%float (cm_set_units_mode reset_machine INCHES_MODE)
         = Some 0x1.fffffffffffffp+0%float).
Proof.
  split.
  - split; [vm_compute; lia|]. split; [vm_compute; reflexivity|].
    apply (set_then_get_round_trip sample_env 0 10 0x1.d99999999999ap+1%float 3%float
             reset_machine).
    + vm_compute. lia.
    + vm_compute. reflexivity.
  - split; [vm_compute; lia|]. split; [vm_compute; reflexivity|].
    apply (set_then_get_round_trip sample_env 0 50 2%float 0x1.fffffffffffffp+0%float
             (cm_set_units_mode reset_machine INCHES_MODE)).
    + vm_compute. lia.
    + vm_compute. reflexivity.
Defined.

Example ex_set_in_inches_stores_millimetres :
  option_map (fun m => load m (target_of 50))
             (set_value_at sample_env 0 50%Z 2%float (cm_set_units_mode reset_machine INCHES_MODE))
  = Some (VDbl 0x1.9666666666666p+5%float).
Proof. vm_compute. reflexivity. Qed.

(** C5 (as stated) fails: descriptor 0, the configuration version, is a
    singleton whose set binding is the no-op: after [set(5)] its [get()] still
    gives the stored 331.02.  Descriptor 8, the status interval, clamps and
    quantises: after [set(5)] its [get()] gives 200. *)
Lemma set_then_get_not_identity :
  item_set (item_at 0) = set_nul
  /\ set_then_get sample_env 0 0%Z 5%float
                  (store reset_machine "cfg.version" (VDbl 0x1.4b051eb851eb8p+8%float))
     = Some 0x1.4b051eb851eb8p+8%float
  /\ PrimFloat.eqb 0x1.4b051eb851eb8p+8%float 5%float = false
  /\ item_set (item_at 8) = set_si
  /\ set_then_get sample_env 0 8%Z 5%float reset_machine = Some 200%float
  /\ PrimFloat.eqb 200%float 5%float = false.
Proof. vm_compute. repeat split; reflexivity. Qed.

Lemma units_after_set (m : machine) (mode : Z) :
  cm_get_units_mode (cm_set_units_mode m mode) = mode.
Proof. unfold cm_get_units_mode, cm_set_units_mode. rewrite load_store_same. reflexivity. Qed.

(** C9: the claim fails on the code, at the travel per revolution of a
    motor.  Descriptor 27, "1tr", is printed by [_print_lin], with the unit
    string of the active unit mode, but it is bound to [_set_sa] and
    [_get_dbl], which do not convert.  The line "$1tr=1.25", taken in inch
    mode, stores 1.25 and prints 1.25 with the unit string " in"; read in
    millimetre mode the parameter gives 1.25, not 31.75.  The same line for
    the x feed rate, descriptor 50, bound to [_set_dbu] and [_get_dbu],
    stores 31.75 and gives 31.75 in millimetre mode. *)
Theorem travel_per_revolution_not_converted :
  let inch_machine := cm_set_units_mode reset_machine INCHES_MODE in
  let outcome (line : string) (i : nat) :=
    option_map (fun r => (load (fst r) (target_of i),
                          last (io_log (fst r)) Ev_status_report,
                          get_value_at sample_env 0 (Z.of_nat i)
                                       (cm_set_units_mode (fst r) MILLIMETER_MODE)))
               (cfg_config_parser sample_env 0 line inch_machine) in
  cmd_get_token 27%Z = "1tr"
  /\ item_print (item_at 27) = print_lin
  /\ item_set (item_at 27) = set_sa
  /\ item_get (item_at 27) = get_dbl
  /\ outcome "$1tr=1.25" 27
     = Some (VDbl 1.25%float, Ev_print 27%Z (VDbl 1.25%float) (Some " in"), Some 1.25%float)
  /\ (1.25 * 0x1.9666666666666p+4)%float = 31.75%float
  /\ item_print (item_at 50) = print_lin
  /\ item_set (item_at 50) = set_dbu
  /\ item_get (item_at 50) = get_dbu
  /\ outcome "$xfr=1.25" 50
     = Some (VDbl 31.75%float, Ev_print 50%Z (VDbl 1.25%float) (Some " in"), Some 31.75%float).
Proof. vm_compute. repeat split; reflexivity. Qed.

(** ** Start-up *)

Lemma cfgArray_init_ok : forall k, k < CMD_INDEX_MAX -> init_ok k = true.
Proof. apply table_fact. vm_compute. reflexivity. Qed.

Lemma set_leaf_frame (E : Env) (k : nat) (m : machine) (c : cmdObj) (t : string) :
  (forall w, In w (writes_of k) -> String.eqb t w = false) ->
  load (fst (set_leaf E (item_set (item_at k)) k m c)) t = load m t.
Proof.
  unfold writes_of. intro H.
  destruct (item_set (item_at k));
    cbn [set_leaf fst];
    unfold _set_si, _run_gc, _set_sa, _set_mi, _set_po, set_serial, _set_motor_steps_per_unit,
           _set_dbu, _set_ui8, _set_int, _set_dbl;
    cbn [fst];
    try destruct (cm_get_units_mode m =? INCHES_MODE)%Z;
    rewrite ?load_emit;
    repeat (rewrite load_store_other; [| apply H; cbn; tauto]);
    rewrite ?load_emit;
    reflexivity.
Qed.

Lemma set_leaf_stored_value (E : Env) (k : nat) (m : machine) :
  cmd_value (snd (set_leaf E (item_set (item_at k)) k m (init_cmd E k))) = stored_value E k.
Proof.
  unfold stored_value, init_cmd.
  destruct (item_set (item_at k)); cbn [set_leaf snd _set_si _run_gc]; try reflexivity.
  - unfold _set_si, clamp_si. cbn [cmd_value set_value snd].
    destruct (PrimFloat.ltb _ _); [reflexivity|].
    destruct (PrimFloat.ltb _ _); reflexivity.
Qed.

Lemma set_leaf_default (E : Env) (k : nat) (m : machine) (v : val) :
  storage_ok k = true ->
  cm_get_units_mode m = MILLIMETER_MODE ->
  default_cell E k = Some v ->
  load (fst (set_leaf E (item_set (item_at k)) k m (init_cmd E k))) (target_of k) = v.
Proof.
  unfold storage_ok, default_cell, init_cmd. intros Hok Hmm Hv.
  destruct (item_set (item_at k)); try discriminate Hv; injection Hv as <-;
    cbn [set_leaf fst];
    unfold _set_si, clamp_si, _set_sa, _set_mi, _set_po, set_serial, _set_motor_steps_per_unit,
           _set_dbu, _set_ui8, _set_int, _set_dbl;
    cbn [fst cmd_value set_value];
    rewrite ?Hmm; cbn [Z.eqb MILLIMETER_MODE INCHES_MODE];
    repeat match goal with
      | H : (_ && _) = true |- _ => let H1 := fresh H in apply andb_true_iff in H as [H H1]
      | H : negb _ = true |- _ => apply negb_true_iff in H
      | H : String.eqb _ _ = true |- _ => apply String.eqb_eq in H
      end;
    try match goal with H : target_of k = _ |- _ => rewrite H in * end;
    rewrite ?load_emit;
    try (erewrite load_store_other by eassumption);
    try (destruct (PrimFloat.ltb _ _); [|destruct (PrimFloat.ltb _ _)]);
    cbn [cmd_value set_value];
    rewrite ?load_store_same; reflexivity.
Qed.

Lemma set_leaf_nvm (E : Env) (k : setKind) (i : nat) (m : machine) (c : cmdObj) :
  nvm (fst (set_leaf E k i m c)) = nvm m
  /\ nvm_log (fst (set_leaf E k i m c)) = nvm_log m.
Proof.
  destruct k; cbn [set_leaf fst];
    unfold _set_si, _run_gc, _set_sa, _set_mi, _set_po, set_serial,
           _set_motor_steps_per_unit, _set_dbu, _set_ui8, _set_int, _set_dbl;
    try destruct (cm_get_units_mode m =? INCHES_MODE)%Z; split; reflexivity.
Qed.

Lemma nvm_write_in_table (k : nat) (m : machine) (c : cmdObj) :
  k < CMD_INDEX_MAX ->
  fst (cmd_write_NVM_value (Z.of_nat k) m c)
  = mkMachine (mem m)
              (fun j => if (j =? Z.of_nat k)%Z then cmd_value c else nvm m j)
              (nvm_log m ++ [(Z.of_nat k, cmd_value c)])
              (cmd_array m) (in_buf m) (io_log m).
Proof.
  intro Hk. unfold cmd_write_NVM_value. rewrite (in_table_nat k Hk). reflexivity.
Qed.

Lemma cmd_set_init (E : Env) (d k : nat) (m : machine) :
  k < CMD_INDEX_MAX ->
  not_excluded k = true ->
  cmd_set E d (Z.of_nat k) m [init_cmd E k] 0
  = Some (fst (set_leaf E (item_set (item_at k)) k m (init_cmd E k)),
          [snd (set_leaf E (item_set (item_at k)) k m (init_cmd E k))],
          TG_OK).
Proof.
  intros Hk Hne.
  pose proof (cfgArray_init_ok k Hk) as Hok. unfold init_ok in Hok.
  apply andb_true_iff in Hok as [Hok _]. apply andb_true_iff in Hok as [_ Hsr].
  rewrite Hne in Hsr. cbn [negb orb] in Hsr.
  destruct (is_leaf_set (item_set (item_at k))) eqn:Hleaf.
  - rewrite (cmd_set_leaf E d k m _ 0 Hk Hleaf). reflexivity.
  - assert (Hd : cmd_set E d = set_dispatch E (match d with
                                               | O => fun _ _ _ _ => None
                                               | S d' => cmd_set E d'
                                               end)) by (destruct d; reflexivity).
    rewrite Hd. unfold set_dispatch. rewrite (in_table_nat k Hk), Nat2Z.id.
    destruct (item_set (item_at k)); try discriminate Hleaf; try discriminate Hsr.
    destruct (CMD_MAX_OBJECTS E); reflexivity.
Qed.

Lemma start_groups_in_table : CMD_INDEX_START_GROUPS <= CMD_INDEX_MAX.
Proof. vm_compute. lia. Qed.

(** The defaults loop is the fold of [init_step] over the indices that are
    not excluded; it always runs to its end. *)
Lemma cfg_init_defaults_run (E : Env) (d : nat) :
  forall n k m cmd,
    k + n <= CMD_INDEX_MAX ->
    exists cmd',
      cfg_init_defaults E d n (Z.of_nat k) m cmd = Some (init_run E (seq k n) m, cmd').
Proof.
  induction n as [|n IH]; intros k m cmd Hkn.
  - exists cmd. reflexivity.
  - cbn [cfg_init_defaults seq init_run fold_left].
    replace (Z.of_nat k + 1)%Z with (Z.of_nat (S k)) by lia.
    cbn [cmd_token set_token].
    unfold not_excluded.
    destruct (is_substring exclusions (cmd_get_token (Z.of_nat k))) eqn:Hex; cbn [negb].
    + apply IH. lia.
    + assert (Hne : not_excluded k = true) by (unfold not_excluded; rewrite Hex; reflexivity).
      rewrite Nat2Z.id.
      change (set_value (set_index (set_token cmd_new_object (cmd_get_token (Z.of_nat k)))
                                   (Z.of_nat k)) (def_value E (item_at k)))
        with (init_cmd E k).
      rewrite (cmd_set_init E d k m ltac:(lia) Hne).
      cbn [obj_at nth].
      destruct (IH (S k) (init_step E k m)
                   (snd (set_leaf E (item_set (item_at k)) k m (init_cmd E k)))
                   ltac:(lia)) as [cmd' Hrun].
      exists cmd'. exact Hrun.
Qed.

Lemma default_cell_stores (E : Env) (i : nat) (v : val) :
  default_cell E i = Some v -> stores i = true.
Proof.
  unfold default_cell, stores. destruct (item_set (item_at i)); intro H;
    try discriminate H; reflexivity.
Qed.

Lemma init_ok_units (k : nat) :
  init_ok k = true -> forall w, In w (writes_of k) -> String.eqb "gm.units_mode" w = false.
Proof.
  unfold init_ok. intros H w Hw.
  apply andb_true_iff in H as [_ H]. rewrite forallb_forall in H.
  specialize (H w Hw). apply andb_true_iff in H as [H _].
  apply negb_true_iff in H. exact H.
Qed.

Lemma init_ok_earlier (k i : nat) :
  init_ok k = true -> i < k -> stores i = true -> not_excluded i = true ->
  forall w, In w (writes_of k) -> String.eqb (target_of i) w = false.
Proof.
  unfold init_ok. intros H Hi Hst Hne w Hw.
  apply andb_true_iff in H as [_ H]. rewrite forallb_forall in H.
  specialize (H w Hw). apply andb_true_iff in H as [_ H].
  rewrite forallb_forall in H.
  specialize (H i ltac:(apply in_seq; lia)).
  rewrite Hst, Hne in H. cbn in H. apply negb_true_iff in H. exact H.
Qed.

Lemma init_step_load (E : Env) (k : nat) (m : machine) (t : string) :
  k < CMD_INDEX_MAX ->
  load (init_step E k m) t
  = load (fst (set_leaf E (item_set (item_at k)) k m (init_cmd E k))) t.
Proof.
  intro Hk. unfold init_step. cbv zeta. rewrite (nvm_write_in_table k _ _ Hk). reflexivity.
Qed.

Lemma init_run_snoc (E : Env) (n : nat) (m : machine) :
  init_run E (seq 0 (S n)) m
  = if not_excluded n then init_step E n (init_run E (seq 0 n) m) else init_run E (seq 0 n) m.
Proof.
  unfold init_run. rewrite seq_S, fold_left_app. reflexivity.
Qed.

Lemma init_run_inv (E : Env) (m0 : machine) :
  cm_get_units_mode m0 = MILLIMETER_MODE ->
  forall n, n <= CMD_INDEX_MAX -> init_inv E m0 n (init_run E (seq 0 n) m0).
Proof.
  intros Hmm. induction n as [|n IH]; intro Hn.
  - constructor.
    + exact Hmm.
    + intros i v Hi. lia.
    + intros i Hi. lia.
    + cbn. rewrite app_nil_r. reflexivity.
  - specialize (IH ltac:(lia)). destruct IH as [Hu Hc Hv Hl].
    rewrite init_run_snoc.
    set (M := init_run E (seq 0 n) m0) in *.
    pose proof (cfgArray_init_ok n ltac:(lia)) as Hok.
    destruct (not_excluded n) eqn:Hne.
    + assert (Hsok : storage_ok n = true).
      { unfold init_ok in Hok. apply andb_true_iff in Hok as [Hok _].
        apply andb_true_iff in Hok as [Hok _]. exact Hok. }
      constructor.
      * unfold cm_get_units_mode. rewrite init_step_load by lia.
        rewrite set_leaf_frame; [exact Hu|]. apply init_ok_units. exact Hok.
      * intros i v Hi Hnei Hd. rewrite init_step_load by lia.
        destruct (Nat.eq_dec i n) as [->|Hin].
        -- apply set_leaf_default; assumption.
        -- rewrite set_leaf_frame; [apply Hc; [lia | exact Hnei | exact Hd]|].
           apply (init_ok_earlier n i Hok); [lia | | exact Hnei].
           exact (default_cell_stores E i v Hd).
      * intros i Hi Hnei. unfold init_step. cbv zeta.
        rewrite (nvm_write_in_table n _ _ ltac:(lia)). cbn [nvm].
        destruct (Z.eqb_spec (Z.of_nat i) (Z.of_nat n)) as [Heq|Hneq].
        -- apply Nat2Z.inj in Heq. subst i. apply set_leaf_stored_value.
        -- destruct (set_leaf_nvm E (item_set (item_at n)) n M (init_cmd E n)) as [Hnvm1 _].
           rewrite Hnvm1. apply Hv; [lia | exact Hnei].
      * unfold init_step. cbv zeta.
        rewrite (nvm_write_in_table n _ _ ltac:(lia)). cbn [nvm_log map].
        rewrite set_leaf_stored_value. fold M.
        destruct (set_leaf_nvm E (item_set (item_at n)) n M (init_cmd E n)) as [_ Hlog1].
        rewrite seq_S, filter_app, map_app. cbn [filter Nat.add]. rewrite Hne. cbn [map].
        rewrite Hlog1, Hl, app_assoc. reflexivity.
    + constructor.
      * exact Hu.
      * intros i v Hi Hnei Hd.
        destruct (Nat.eq_dec i n) as [->|Hin]; [congruence|].
        apply Hc; [lia | exact Hnei | exact Hd].
      * intros i Hi Hnei.
        destruct (Nat.eq_dec i n) as [->|Hin]; [congruence|].
        apply Hv; [lia | exact Hnei].
      * rewrite seq_S, filter_app, map_app. cbn [filter Nat.add]. rewrite Hne.
        cbn [map]. rewrite app_nil_r. exact Hl.
Qed.

Lemma cfg_init_mismatch_run (E : Env) (d : nat) (m : machine) :
  PrimFloat.eqb (nvm m 0%Z) (read_dbl (load m "tg.build")) = false ->
  cfg_init E d m
  = Some (rpt_init_status_report E true
            (init_run E (seq 0 CMD_INDEX_START_GROUPS) (init_start m))).
Proof.
  intro Hver.
  unfold cfg_init. fold (init_start m).
  assert (Hread : cmd_value (fst (cmd_read_NVM_value 0%Z (init_start m) cmd_new_object)) = nvm m 0%Z)
    by reflexivity.
  assert (Hcur : read_dbl (load (init_start m) "cfg.version") = read_dbl (load m "tg.build")).
  { unfold init_start. rewrite load_store_same. unfold cm_set_units_mode.
    rewrite load_store_other by reflexivity. reflexivity. }
  rewrite Hread, Hcur, Hver.
  destruct (cfg_init_defaults_run E d CMD_INDEX_START_GROUPS 0 (init_start m)
              (fst (cmd_read_NVM_value 0%Z (init_start m) cmd_new_object))
              start_groups_in_table) as [cmd' Hrun].
  change (Z.of_nat 0) with 0%Z in Hrun. rewrite Hrun. reflexivity.
Qed.

(** On a version mismatch [cfg_init] runs the defaults loop to its end and
    then hands over to the status report initialisation of report.c. *)
Lemma cfg_init_mismatch (E : Env) (d : nat) (m : machine) :
  PrimFloat.eqb (nvm m 0%Z) (read_dbl (load m "tg.build")) = false ->
  exists M,
    cfg_init E d m = Some (rpt_init_status_report E true M)
    /\ init_inv E (init_start m) CMD_INDEX_START_GROUPS M.
Proof.
  intro Hver.
  eexists. split; [exact (cfg_init_mismatch_run E d m Hver)|].
  apply init_run_inv; [|exact start_groups_in_table].
  unfold init_start. rewrite units_store_other by reflexivity. apply units_after_set.
Qed.

Lemma cfgArray_nul_targets_ok : forall k, k < CMD_INDEX_MAX -> nul_targets_ok k = true.
Proof. apply table_fact. vm_compute. reflexivity. Qed.

Lemma nul_target_unwritten (k i : nat) :
  k < CMD_INDEX_MAX -> i < CMD_INDEX_START_GROUPS -> item_set (item_at i) = set_nul ->
  forall w, In w (writes_of k) -> String.eqb (target_of i) w = false.
Proof.
  intros Hk Hi Hnul w Hw.
  pose proof (cfgArray_nul_targets_ok k Hk) as H. unfold nul_targets_ok in H.
  rewrite forallb_forall in H. specialize (H w Hw).
  rewrite forallb_forall in H. specialize (H i ltac:(apply in_seq; lia)).
  rewrite Hnul in H. apply negb_true_iff in H. exact H.
Qed.

(** The defaults loop leaves alone every cell that none of its set bindings
    writes. *)
Lemma init_run_frame (E : Env) (m0 : machine) (t : string) :
  forall n, n <= CMD_INDEX_MAX ->
    (forall k, k < n -> forall w, In w (writes_of k) -> String.eqb t w = false) ->
    load (init_run E (seq 0 n) m0) t = load m0 t.
Proof.
  induction n as [|n IH]; intros Hn Hfree; [reflexivity|].
  rewrite init_run_snoc.
  assert (Hprev : load (init_run E (seq 0 n) m0) t = load m0 t).
  { apply IH; [lia|]. intros k Hk. apply Hfree. lia. }
  destruct (not_excluded n); [|exact Hprev].
  rewrite init_step_load by lia.
  rewrite set_leaf_frame; [exact Hprev|]. apply Hfree. lia.
Qed.

Lemma load_init_start (m : machine) (t : string) : load (init_start m) t = cell_at_start m t.
Proof.
  unfold init_start, cell_at_start, cm_set_units_mode, load, store. cbn [mem with_mem].
  destruct (String.eqb t "cfg.version"); [reflexivity|].
  destruct (String.eqb t "gm.units_mode"); reflexivity.
Qed.

(** C1 (as amended): when [cfg_init] finds a version slot that differs from
    the running version, it runs its defaults loop to the end, and then, for
    every index below [CMD_INDEX_START_GROUPS] whose token is not excluded:
    the target of a storing set binding holds the default narrowed to its
    storage kind (the tick count for the status interval); the target of a
    no-op set binding holds what it held when the loop began, which is what
    it held before [cfg_init] but for the configuration version (the build
    number) and the unit mode (millimetres), both written by [cfg_init]
    itself; and the durable slot holds the value the set binding left in the
    command object (the compiled default, clamped for the status interval).
    The durable slot 0 holds the constant TINYG_CONFIG_VERSION, the compiled
    default of descriptor 0. *)
Theorem cfg_init_defaults_applied (E : Env) (d : nat) (m : machine) :
  PrimFloat.eqb (nvm m 0%Z) (read_dbl (load m "tg.build")) = false ->
  exists M,
    cfg_init E d m = Some (rpt_init_status_report E true M)
    /\ (forall i v, i < CMD_INDEX_START_GROUPS -> not_excluded i = true ->
                    default_cell E i = Some v -> load M (target_of i) = v)
    /\ (forall i, i < CMD_INDEX_START_GROUPS -> not_excluded i = true ->
                  item_set (item_at i) = set_nul ->
                  load M (target_of i) = cell_at_start m (target_of i))
    /\ (forall i, i < CMD_INDEX_START_GROUPS -> not_excluded i = true ->
                  nvm M (Z.of_nat i) = stored_value E i)
    /\ nvm M 0%Z = settings E "TINYG_CONFIG_VERSION".
Proof.
  intro Hver.
  pose proof (init_run_inv E (init_start m)) as Hinv.
  assert (Hmm : cm_get_units_mode (init_start m) = MILLIMETER_MODE).
  { unfold init_start. rewrite units_store_other by reflexivity. apply units_after_set. }
  destruct (Hinv Hmm CMD_INDEX_START_GROUPS start_groups_in_table) as [_ Hc Hv _].
  exists (init_run E (seq 0 CMD_INDEX_START_GROUPS) (init_start m)).
  split; [exact (cfg_init_mismatch_run E d m Hver)|].
  split; [exact Hc|]. split; [|split; [exact Hv|]].
  - intros i Hi _ Hnul. rewrite <- load_init_start.
    apply init_run_frame; [exact start_groups_in_table|].
    intros k Hk. apply nul_target_unwritten; [|exact Hi | exact Hnul].
    pose proof start_groups_in_table. lia.
  - transitivity (stored_value E 0); [|reflexivity].
    apply (Hv 0); [vm_compute; lia | vm_compute; reflexivity].
Qed.

Lemma cfg_init_defaults_applied_witness :
  PrimFloat.eqb (nvm reset_machine 0%Z) (read_dbl (load reset_machine "tg.build")) = false
  /\ exists M,
      cfg_init sample_env 0 reset_machine = Some (rpt_init_status_report sample_env true M)
      /\ (forall i v, i < CMD_INDEX_START_GROUPS -> not_excluded i = true ->
                      default_cell sample_env i = Some v -> load M (target_of i) = v)
      /\ (forall i, i < CMD_INDEX_START_GROUPS -> not_excluded i = true ->
                    item_set (item_at i) = set_nul ->
                    load M (target_of i) = cell_at_start reset_machine (target_of i))
      /\ (forall i, i < CMD_INDEX_START_GROUPS -> not_excluded i = true ->
                    nvm M (Z.of_nat i) = stored_value sample_env i)
      /\ nvm M 0%Z = settings sample_env "TINYG_CONFIG_VERSION".
Proof.
  split; [vm_compute; reflexivity|].
  apply (cfg_init_defaults_applied sample_env 0 reset_machine).
  vm_compute. reflexivity.
Defined.

(** What the defaults loop leaves behind on the machine just out of reset,
    with the sample settings: the plane selection (descriptor 10, a byte,
    default 1) holds 1, the x feed rate (descriptor 50, a float, default
    600) holds 600 in live storage and in its durable slot, the machine
    state (descriptor 4, no-op set binding) holds the 0 it held before, and
    the durable slot 0 holds the configuration version constant. *)
Example ex_cfg_init_defaults :
  option_map (fun M => (load M (target_of 10), load M (target_of 50), nvm M 50%Z,
                        load M (target_of 4), nvm M 0%Z))
             (cfg_init sample_env 0 reset_machine)
  = Some (VU8 1, VDbl 600%float, 600%float, VU8 0, 0x1.4b051eb851eb8p+8%float).
Proof. vm_compute. reflexivity. Qed.

(** C1 (as stated) fails: descriptor 6, "unit", is below the group region and
    not excluded, its default is 0 and its set binding is the no-op; after
    [cfg_init] its live storage holds the millimetre mode, 1.  The live
    storage of descriptor 8, the status interval with default 200, holds the
    tick count 40.  And where the constant TINYG_CONFIG_VERSION (here 0.93)
    is not the build number the machine runs (331.02), the durable version
    slot does not hold the running version afterwards. *)
Lemma cfg_init_not_all_defaults :
  not_excluded 6 = true
  /\ def_value sample_env (item_at 6) = 0%float
  /\ option_map (fun M => load M (target_of 6)) (cfg_init sample_env 0 reset_machine)
     = Some (VU8 1)
  /\ not_excluded 8 = true
  /\ def_value sample_env (item_at 8) = 200%float
  /\ option_map (fun M => load M (target_of 8)) (cfg_init sample_env 0 reset_machine)
     = Some (VU8 40)
  /\ read_dbl (load reset_machine "tg.build") = 0x1.4b051eb851eb8p+8%float
  /\ option_map (fun M => nvm M 0%Z) (cfg_init skewed_env 0 reset_machine)
     = Some 0x1.dc28f5c28f5c3p-1%float
  /\ PrimFloat.eqb 0x1.dc28f5c28f5c3p-1%float 0x1.4b051eb851eb8p+8%float = false.
Proof. vm_compute. repeat split; reflexivity. Qed.

Lemma written_indices_head :
  filter not_excluded (seq 0 CMD_INDEX_START_GROUPS) = 0 :: filter not_excluded (seq 1 180).
Proof. vm_compute. reflexivity. Qed.

Lemma stored_value_version (E : Env) : stored_value E 0 = def_value E (item_at 0).
Proof. reflexivity. Qed.

(** C2 (as amended): on a version mismatch the durable writes of [cfg_init]
    happen in ascending index order over the indices that are not excluded:
    slot 0, the version stamp, is written first, and every other default is
    written after it. *)
Theorem cfg_init_write_order (E : Env) (d : nat) (m : machine) :
  PrimFloat.eqb (nvm m 0%Z) (read_dbl (load m "tg.build")) = false ->
  exists M,
    cfg_init E d m = Some (rpt_init_status_report E true M)
    /\ map fst (nvm_log M)
       = (map fst (nvm_log m)
          ++ map Z.of_nat (filter not_excluded (seq 0 CMD_INDEX_START_GROUPS)))%list
    /\ exists rest,
        nvm_log M = (nvm_log m ++ (0%Z, def_value E (item_at 0)) :: rest)%list.
Proof.
  intro Hver.
  destruct (cfg_init_mismatch E d m Hver) as [M [Hrun [_ _ _ Hl]]].
  exists M. split; [exact Hrun|].
  change (nvm_log (init_start m)) with (nvm_log m) in Hl.
  split.
  - rewrite Hl, map_app, map_map. reflexivity.
  - rewrite Hl, written_indices_head, map_cons, stored_value_version.
    exists (map (fun i => (Z.of_nat i, stored_value E i)) (filter not_excluded (seq 1 180))).
    reflexivity.
Qed.

Lemma cfg_init_write_order_witness :
  PrimFloat.eqb (nvm reset_machine 0%Z) (read_dbl (load reset_machine "tg.build")) = false
  /\ exists M,
      cfg_init sample_env 0 reset_machine = Some (rpt_init_status_report sample_env true M)
      /\ map fst (nvm_log M)
         = (map fst (nvm_log reset_machine)
            ++ map Z.of_nat (filter not_excluded (seq 0 CMD_INDEX_START_GROUPS)))%list
      /\ exists rest,
          nvm_log M
          = (nvm_log reset_machine ++ (0%Z, def_value sample_env (item_at 0)) :: rest)%list.
Proof.
  split; [vm_compute; reflexivity|].
  apply (cfg_init_write_order sample_env 0 reset_machine).
  vm_compute. reflexivity.
Defined.

(** C2 (as stated) fails: the first durable write of the bulk reset is the
    one of slot 0, and the default of descriptor 1, which is not excluded, is
    written after it. *)
Lemma cfg_init_version_slot_first :
  not_excluded 1 = true
  /\ option_map (fun M => firstn 2 (map fst (nvm_log M))) (cfg_init sample_env 0 reset_machine)
     = Some [0%Z; 1%Z].
Proof. vm_compute. repeat split; reflexivity. Qed.

(** ** Group expansion *)

Lemma obj_put_length (arr : list cmdObj) (p : nat) (c : cmdObj) :
  List.length (obj_put arr p c) = List.length arr.
Proof.
  revert p. induction arr as [|x arr IH]; intros [|p]; cbn; try reflexivity.
  rewrite IH. reflexivity.
Qed.

Lemma obj_at_put_same (arr : list cmdObj) (p : nat) (c : cmdObj) :
  p < List.length arr -> obj_at (obj_put arr p c) p = c.
Proof.
  revert p. induction arr as [|x arr IH]; intros [|p] Hp; cbn in *; try lia; try reflexivity.
  apply IH. lia.
Qed.

Lemma obj_at_put_other (arr : list cmdObj) (p q : nat) (c : cmdObj) :
  p <> q -> obj_at (obj_put arr p c) q = obj_at arr q.
Proof.
  revert p q. induction arr as [|x arr IH]; intros [|p] [|q] Hpq; cbn; try reflexivity; try lia.
  apply IH. lia.
Qed.

Lemma get_leaf_keeps (E : Env) (k : getKind) (i : nat) (m : machine) (c : cmdObj) :
  cmd_index (snd (get_leaf E k i m c)) = cmd_index c
  /\ cmd_token (snd (get_leaf E k i m c)) = cmd_token c
  /\ cmd_nx (snd (get_leaf E k i m c)) = cmd_nx c.
Proof.
  destruct k; cbn [get_leaf snd];
    unfold _get_ui8, _get_int, _get_dbl, _get_dbu, _get_unit, _get_si, _get_gc, _get_stat,
           _get_vel, _get_abs, _get_pos, _get_am, _get_ui8;
    repeat split; reflexivity.
Qed.

Lemma get_binding_leaf (E : Env) (d i : nat) (m : machine) (arr : list cmdObj) (p : nat) :
  is_leaf_get (item_get (item_at i)) = true ->
  get_binding E d i m arr p
  = Some (fst (get_leaf E (item_get (item_at i)) i m (obj_at arr p)),
          obj_put arr p (snd (get_leaf E (item_get (item_at i)) i m (obj_at arr p)))).
Proof.
  intro Hleaf.
  assert (Hd : get_binding E d = get_dispatch E (match d with
                                                 | O => no_binding
                                                 | S d' => get_binding E d'
                                                 end)) by (destruct d; reflexivity).
  rewrite Hd. unfold get_dispatch.
  destruct (item_get (item_at i)); try discriminate Hleaf;
    destruct (get_leaf E _ i m (obj_at arr p)); reflexivity.
Qed.

Lemma kids_step (g : string) (k n : nat) :
  kids g k (S n)
  = if prefix g (cmd_get_token (Z.of_nat k)) then k :: kids g (S k) n else kids g (S k) n.
Proof. reflexivity. Qed.

Lemma get_grp_loop_chain (E : Env) (d : nat) (g : string) :
  forall n k m arr p fuel,
    (forall i, In i (kids g k n) ->
               i < CMD_INDEX_MAX /\ is_leaf_get (item_get (item_at i)) = true) ->
    cmd_nx (obj_at arr p) = None ->
    p + List.length (kids g k n) < List.length arr ->
    List.length (kids g k n) <= fuel ->
    exists m' arr',
      _get_grp_loop (get_binding E d) g n (Z.of_nat k) m arr p = Some (m', arr')
      /\ List.length arr' = List.length arr
      /\ (forall q, q < p -> obj_at arr' q = obj_at arr q)
      /\ reported (obj_at arr' p) = reported (obj_at arr p)
      /\ cmd_value_type (obj_at arr' p) = cmd_value_type (obj_at arr p)
      /\ map reported (chain fuel arr' p) = map (child_of g) (kids g k n).
Proof.
  induction n as [|n IH]; intros k m arr p fuel Hkids Hnx Hroom Hfuel.
  - exists m, arr. cbn [_get_grp_loop]. repeat split.
    destruct fuel; cbn [chain]; [reflexivity|]. rewrite Hnx. reflexivity.
  - cbn [_get_grp_loop]. rewrite strstr_is_start_prefix.
    replace (Z.of_nat k + 1)%Z with (Z.of_nat (S k)) by lia.
    rewrite kids_step in *.
    destruct (prefix g (cmd_get_token (Z.of_nat k))) eqn:Hpre.
    + destruct (Hkids k (or_introl eq_refl)) as [Hk Hleaf].
      cbn [List.length] in Hroom, Hfuel.
      destruct fuel as [|fuel]; [lia|].
      unfold cmd_get_cmd. rewrite (in_table_nat k Hk), Nat2Z.id.
      rewrite (get_binding_leaf E d k m _ (S p) Hleaf).
      set (c0 := set_token (set_index cmd_new_object (Z.of_nat k)) (cmd_get_token (Z.of_nat k))).
      rewrite (obj_at_put_same arr (S p) c0) by lia.
      set (r := get_leaf E (item_get (item_at k)) k m c0).
      destruct (get_leaf_keeps E (item_get (item_at k)) k m c0) as [Hci [Hct Hcn]].
      fold r in Hci, Hct, Hcn.
      set (arr1 := obj_put (obj_put arr (S p) c0) (S p) (snd r)).
      assert (Hlen1 : List.length arr1 = List.length arr)
        by (unfold arr1; rewrite !obj_put_length; reflexivity).
      assert (Hat1 : obj_at arr1 (S p) = snd r).
      { unfold arr1. apply obj_at_put_same. rewrite obj_put_length. lia. }
      rewrite Hat1.
      set (c2 := set_token (snd r)
                   (strncpy (str_from (String.length g) (cmd_token (snd r))) (CMD_TOKEN_LEN + 1))).
      set (arr3 := link_next (obj_put arr1 (S p) c2) p).
      assert (Hlen3 : List.length arr3 = List.length arr)
        by (unfold arr3, link_next; rewrite !obj_put_length; exact Hlen1).
      assert (Hat3 : obj_at arr3 (S p) = c2).
      { unfold arr3, link_next. rewrite obj_at_put_other by lia.
        apply obj_at_put_same. lia. }
      assert (Hatp : obj_at arr3 p = set_nx (obj_at arr p) (Some (S p))).
      { unfold arr3, link_next. rewrite obj_at_put_same by (rewrite obj_put_length; lia).
        rewrite obj_at_put_other by lia. unfold arr1.
        rewrite !obj_at_put_other by lia. reflexivity. }
      destruct (IH (S k) (fst r) arr3 (S p) fuel) as [m' [arr' [Hrun [Hlen [Hframe [Hrep [Hvt Hch]]]]]]].
      * intros i Hi. apply Hkids. right. exact Hi.
      * rewrite Hat3. unfold c2. cbn [cmd_nx set_token]. rewrite Hcn. reflexivity.
      * rewrite Hlen3. lia.
      * lia.
      * exists m', arr'. split; [exact Hrun|]. split; [rewrite Hlen; exact Hlen3|].
        split; [|split; [|split]].
        -- intros q Hq. rewrite Hframe by lia.
           unfold arr3, link_next. rewrite obj_at_put_other by lia.
           rewrite obj_at_put_other by lia. unfold arr1.
           rewrite !obj_at_put_other by lia. reflexivity.
        -- rewrite Hframe by lia. rewrite Hatp. reflexivity.
        -- rewrite Hframe by lia. rewrite Hatp. reflexivity.
        -- cbn [chain]. rewrite (Hframe p) by lia. rewrite Hatp. cbn [cmd_nx set_nx map].
           rewrite Hch, Hrep, Hat3. f_equal.
           unfold reported, child_of, c2. cbn [cmd_index cmd_token set_token].
           rewrite Hci, Hct. reflexivity.
    + apply IH; assumption.
Qed.

Lemma cfgArray_token_length_ok : forall i, i < CMD_INDEX_MAX -> token_length_ok i = true.
Proof. apply table_fact. vm_compute. reflexivity. Qed.

Lemma token_length_bound (i : nat) :
  i < CMD_INDEX_MAX -> String.length (cmd_get_token (Z.of_nat i)) <= CMD_TOKEN_LEN.
Proof.
  intro Hi. pose proof (cfgArray_token_length_ok i Hi) as H. unfold token_length_ok in H.
  apply andb_true_iff in H as [_ H]. apply Nat.leb_le in H. exact H.
Qed.

Lemma prefix_trans (c : string) :
  forall a b, prefix a b = true -> prefix b c = true -> prefix a c = true.
Proof.
  induction c as [|z c IH]; intros [|x a] [|y b]; cbn; intros Hab Hbc;
    try reflexivity; try discriminate.
  destruct (ascii_dec x y) as [->|]; [|discriminate].
  destruct (ascii_dec y z) as [->|]; [|discriminate].
  exact (IH a b Hab Hbc).
Qed.

Lemma kids_narrow (g s : string) (k n i : nat) :
  prefix g s = true -> In i (kids s k n) -> In i (kids g k n).
Proof.
  unfold kids. intros Hgs Hi. apply filter_In in Hi as [Hin Hp].
  apply filter_In. split; [exact Hin|]. exact (prefix_trans _ _ _ Hgs Hp).
Qed.

Lemma filter_length_le (A : Type) (p q : A -> bool) (l : list A) :
  (forall x, p x = true -> q x = true) ->
  List.length (filter p l) <= List.length (filter q l).
Proof.
  intro Hpq. induction l as [|x l IH]; [reflexivity|].
  cbn [filter]. destruct (p x) eqn:Hp.
  - rewrite (Hpq x Hp). cbn [List.length]. lia.
  - destruct (q x); cbn [List.length]; lia.
Qed.

Lemma strncpy_short (t : string) :
  forall n, String.length t <= n -> strncpy t n = t.
Proof.
  unfold strncpy. induction t as [|c t IH]; intros [|n] Hn; cbn in *; try reflexivity; try lia.
  rewrite IH by lia. reflexivity.
Qed.

Lemma str_from_length (t : string) :
  forall k, String.length (str_from k t) <= String.length t.
Proof.
  induction t as [|c t IH]; intros [|k]; cbn; try lia.
  specialize (IH k). lia.
Qed.

(** [_get_grp] on a parent that carries the name [s]: the children are the
    descriptors below the group whose token begins with [s], each with as
    many leading characters taken off its token as [s] has. *)
Lemma named_group_children (E : Env) (d : nat) (g s : string) (gi room : nat) (m : machine)
      (arr : list cmdObj) :
  group_ok g gi room = true ->
  prefix g s = true ->
  cmd_name (obj_at arr 0) = s ->
  cmd_index (obj_at arr 0) = Z.of_nat gi ->
  cmd_nx (obj_at arr 0) = None ->
  room < List.length arr ->
  exists m' arr',
    cmd_get E (S d) (Z.of_nat gi) m arr 0 = Some (m', arr', TG_OK)
    /\ cmd_value_type (obj_at arr' 0) = VALUE_TYPE_PARENT
    /\ map reported (chain (List.length arr') arr' 0)
       = map (fun i => (Z.of_nat i, str_from (String.length s) (cmd_get_token (Z.of_nat i))))
             (kids s 0 gi).
Proof.
  intros Hok Hgs Hname Hindex Hnx Hlen.
  unfold group_ok in Hok.
  apply andb_true_iff in Hok as [Hok Hgrp].
  apply andb_true_iff in Hok as [Hok Hgi].
  apply andb_true_iff in Hok as [Hleaf Hcount].
  apply Nat.ltb_lt in Hgi. apply Nat.leb_le in Hcount.
  rewrite forallb_forall in Hleaf.
  assert (Hfew : List.length (kids s 0 gi) <= room).
  { apply (Nat.le_trans _ (List.length (kids g 0 gi))); [|exact Hcount].
    unfold kids. apply filter_length_le. intros i Hp. exact (prefix_trans _ _ _ Hgs Hp). }
  assert (Hkids : forall i, In i (kids s 0 gi) ->
                            i < CMD_INDEX_MAX /\ is_leaf_get (item_get (item_at i)) = true).
  { intros i Hi. specialize (Hleaf i (kids_narrow g s 0 gi i Hgs Hi)).
    apply andb_true_iff in Hleaf as [Hlt Hl]. apply Nat.ltb_lt in Hlt. split; assumption. }
  unfold cmd_get. rewrite (in_table_nat gi Hgi), Nat2Z.id.
  cbn [get_binding]. unfold get_dispatch.
  destruct (item_get (item_at gi)); try discriminate Hgrp.
  unfold _get_grp. rewrite Hname, Hindex, Nat2Z.id.
  set (arr0 := obj_put arr 0 (set_value_type (obj_at arr 0) VALUE_TYPE_PARENT)).
  assert (Hat0 : obj_at arr0 0 = set_value_type (obj_at arr 0) VALUE_TYPE_PARENT)
    by (unfold arr0; apply obj_at_put_same; lia).
  assert (Hlen0 : List.length arr0 = List.length arr) by (unfold arr0; apply obj_put_length).
  destruct (get_grp_loop_chain E d s gi 0 m arr0 0 (List.length arr0))
    as [m' [arr' [Hrun [Hlen' [_ [_ [Hvt Hch]]]]]]].
  - exact Hkids.
  - rewrite Hat0. exact Hnx.
  - rewrite Hlen0. lia.
  - rewrite Hlen0. lia.
  - change (Z.of_nat 0) with 0%Z in Hrun. rewrite Hrun.
    exists m', arr'. split; [reflexivity|].
    split; [rewrite Hvt, Hat0; reflexivity|].
    rewrite Hlen'. rewrite Hch. apply map_ext_in.
    intros i Hi. unfold child_of. f_equal.
    apply strncpy_short.
    pose proof (str_from_length (cmd_get_token (Z.of_nat i)) (String.length s)).
    pose proof (token_length_bound i (proj1 (Hkids i Hi))).
    lia.
Qed.

Lemma axis_groups_ok :
  forallb (fun g => group_ok g (Z.to_nat (cmd_get_index g)) 13
                    && (0 <=? cmd_get_index g)%Z) axis_letters = true.
Proof. vm_compute. reflexivity. Qed.

Lemma axis_children_table (g : string) :
  In g axis_letters ->
  map (fun i => (Z.of_nat i, str_from (String.length g) (cmd_get_token (Z.of_nat i))))
      (kids g 0 (Z.to_nat (cmd_get_index g)))
  = axis_children g.
Proof.
  intro Hg. repeat (destruct Hg as [<-|Hg]; [vm_compute; reflexivity|]). destruct Hg.
Qed.

(** C6 (as amended): [_get_grp] matches the tokens against the name the
    parent object carries.  For a parent of an axis group whose name begins
    with the axis letter, in an array with room for the children and with
    the stored axis mode inside its message array if the axis mode is among
    them, expanding the group gives a chain of exactly the descriptors below
    the group's index whose token begins with that name, in ascending index
    order, each reported with as many leading characters stripped as the
    name has.  When the name is the axis letter itself these are the
    descriptors whose token begins with the letter, the letter stripped:
    the twelve or thirteen children the table lists for the axis. *)
Theorem get_grp_axis_children (E : Env) (d : nat) (g : string) (m : machine)
        (arr : list cmdObj) :
  In g axis_letters ->
  prefix g (cmd_name (obj_at arr 0)) = true ->
  cmd_index (obj_at arr 0) = cmd_get_index g ->
  cmd_nx (obj_at arr 0) = None ->
  13 < List.length arr ->
  (forall i, In i (kids (cmd_name (obj_at arr 0)) 0 (Z.to_nat (cmd_get_index g))) ->
             reads_in_bounds m i = true) ->
  exists m' arr',
    cmd_get E (S d) (cmd_get_index g) m arr 0 = Some (m', arr', TG_OK)
    /\ cmd_value_type (obj_at arr' 0) = VALUE_TYPE_PARENT
    /\ map reported (chain (List.length arr') arr' 0)
       = map (fun i => (Z.of_nat i,
                        str_from (String.length (cmd_name (obj_at arr 0)))
                                 (cmd_get_token (Z.of_nat i))))
             (filter (fun i => prefix (cmd_name (obj_at arr 0)) (cmd_get_token (Z.of_nat i)))
                     (seq 0 (Z.to_nat (cmd_get_index g))))
    /\ (cmd_name (obj_at arr 0) = g ->
        map reported (chain (List.length arr') arr' 0) = axis_children g).
Proof.
  intros Hg Hname Hindex Hnx Hlen _.
  pose proof axis_groups_ok as Hall. rewrite forallb_forall in Hall.
  specialize (Hall g Hg). apply andb_true_iff in Hall as [Hok Hpos].
  apply Z.leb_le in Hpos.
  assert (Hgi : cmd_get_index g = Z.of_nat (Z.to_nat (cmd_get_index g)))
    by (symmetry; apply Z2Nat.id; exact Hpos).
  pose proof (axis_children_table g Hg) as Htable.
  set (gi := Z.to_nat (cmd_get_index g)) in *.
  rewrite Hgi in Hindex. rewrite Hgi.
  destruct (named_group_children E d g (cmd_name (obj_at arr 0)) gi 13 m arr
              Hok Hname eq_refl Hindex Hnx Hlen) as [m' [arr' [Hrun [Hvt Hch]]]].
  exists m', arr'. split; [exact Hrun|]. split; [exact Hvt|]. split; [exact Hch|].
  intro Hsame. rewrite Hch, Hsame. exact Htable.
Qed.

Lemma get_grp_axis_children_witness :
  In "x" axis_letters
  /\ prefix "x" (cmd_name (obj_at (set_index (set_name cmd_new_object "x") 188%Z
                                    :: repeat cmd_new_object 23) 0)) = true
  /\ exists m' arr',
      cmd_get sample_env 1 (cmd_get_index "x") reset_machine
              (set_index (set_name cmd_new_object "x") 188%Z :: repeat cmd_new_object 23) 0
      = Some (m', arr', TG_OK)
      /\ cmd_value_type (obj_at arr' 0) = VALUE_TYPE_PARENT
      /\ map reported (chain (List.length arr') arr' 0)
         = [(49%Z, "am"); (50%Z, "fr"); (51%Z, "vm"); (52%Z, "tm"); (53%Z, "jm"); (54%Z, "jd");
            (55%Z, "sm"); (56%Z, "sv"); (57%Z, "lv"); (58%Z, "zo"); (59%Z, "abs"); (60%Z, "pos")].
Proof.
  split; [left; reflexivity|]. split; [reflexivity|].
  destruct (get_grp_axis_children sample_env 0 "x" reset_machine
              (set_index (set_name cmd_new_object "x") 188%Z :: repeat cmd_new_object 23))
    as [m' [arr' [Hrun [Hvt [_ Hlist]]]]].
  - left. reflexivity.
  - reflexivity.
  - vm_compute. reflexivity.
  - reflexivity.
  - vm_compute. lia.
  - apply forallb_forall. vm_compute. reflexivity.
  - exists m', arr'. split; [exact Hrun|]. split; [exact Hvt|].
    exact (Hlist eq_refl).
Defined.

(** C6 (as stated) fails: the line "$xs" resolves to the group of the x
    axis, index 188, and its parent object carries the name "xs"; expanding
    the group gives the two descriptors whose token begins with "xs", with
    two characters stripped, and not the twelve descriptors below the group
    whose token begins with the axis letter. *)
Lemma get_grp_follows_typed_name :
  cmd_index (fst (_parse_config_string sample_env "$xs")) = 188%Z
  /\ cmd_get_index "x" = 188%Z
  /\ option_map (fun r => map reported (chain 24 (snd (fst r)) 0))
                (cmd_get sample_env 1 188%Z reset_machine
                         (fst (_parse_config_string sample_env "$xs")
                          :: repeat cmd_new_object 23) 0)
     = Some [(55%Z, "m"); (56%Z, "v")]
  /\ List.length (filter (fun i => prefix "x" (cmd_get_token (Z.of_nat i))) (seq 0 188)) = 12.
Proof. vm_compute. repeat split; reflexivity. Qed.

Example ex_group_x :
  option_map (fun r => map reported (chain 24 (snd (fst r)) 0))
             (cmd_get sample_env 1 188%Z reset_machine
                      (set_index (set_name cmd_new_object "x") 188%Z :: repeat cmd_new_object 23) 0)
  = Some [(49%Z, "am"); (50%Z, "fr"); (51%Z, "vm"); (52%Z, "tm"); (53%Z, "jm"); (54%Z, "jd");
          (55%Z, "sm"); (56%Z, "sv"); (57%Z, "lv"); (58%Z, "zo"); (59%Z, "abs"); (60%Z, "pos")].
Proof. vm_compute. reflexivity. Qed.

(** * Further properties *)

(** ** The EEPROM by index *)

(** X1: a value written to the slot of an index in the table is the value
    read back from it, as a float on a cleared object; the other slots and
    live storage are as before, and the log has grown by that one write. *)
Theorem nvm_write_then_read (i : INDEX_T) (m : machine) (c c0 : cmdObj) :
  in_table i = true ->
  snd (cmd_write_NVM_value i m c) = TG_OK
  /\ cmd_read_NVM_value i (fst (cmd_write_NVM_value i m c)) c0
     = (set_value_type (set_value cmd_new_object (cmd_value c)) VALUE_TYPE_FLOAT, TG_OK)
  /\ (forall j, j <> i -> nvm (fst (cmd_write_NVM_value i m c)) j = nvm m j)
  /\ mem (fst (cmd_write_NVM_value i m c)) = mem m
  /\ nvm_log (fst (cmd_write_NVM_value i m c)) = (nvm_log m ++ [(i, cmd_value c)])%list.
Proof.
  intro Hi. unfold cmd_write_NVM_value, cmd_read_NVM_value. rewrite Hi. cbn [fst snd nvm mem nvm_log].
  rewrite Z.eqb_refl. repeat split.
  intros j Hj. destruct (Z.eqb_spec j i); [contradiction | reflexivity].
Qed.

Lemma nvm_write_then_read_witness :
  in_table 50%Z = true
  /\ snd (cmd_write_NVM_value 50%Z reset_machine (set_value cmd_new_object 7%float)) = TG_OK.
Proof.
  split; [vm_compute; reflexivity|].
  apply (nvm_write_then_read 50%Z reset_machine (set_value cmd_new_object 7%float) cmd_new_object).
  vm_compute. reflexivity.
Defined.

(** ** Bounds *)

(** X2: every entry point that takes an index turns down one outside the
    table, whatever the depth allowed: get and set flag the object as
    unrecognized and return that status, the EEPROM read and write return it,
    print does nothing, the token is empty and the group is NUL; the machine
    is left as it was but for the flagged object. *)
Theorem out_of_table_rejected (E : Env) (d : nat) (i : INDEX_T) (m : machine)
        (arr : list cmdObj) (p : nat) (c : cmdObj) :
  in_table i = false ->
  cmd_get E d i m arr p
  = Some (m, obj_put arr p (set_status (obj_at arr p) TG_UNRECOGNIZED_COMMAND),
          TG_UNRECOGNIZED_COMMAND)
  /\ cmd_set E d i m arr p
     = Some (m, obj_put arr p (set_status (obj_at arr p) TG_UNRECOGNIZED_COMMAND),
             TG_UNRECOGNIZED_COMMAND)
  /\ cmd_print E d i m = Some m
  /\ cmd_read_NVM_value i m c = (c, TG_UNRECOGNIZED_COMMAND)
  /\ cmd_write_NVM_value i m c = (m, TG_UNRECOGNIZED_COMMAND)
  /\ cmd_get_token i = EmptyString
  /\ cmd_get_group i = NUL.
Proof.
  intro Hi.
  unfold cmd_get, cmd_read_NVM_value, cmd_write_NVM_value, cmd_get_token, cmd_get_group.
  rewrite Hi. split; [reflexivity|]. split.
  { destruct d; cbn [cmd_set]; unfold set_dispatch; rewrite Hi; reflexivity. }
  split.
  { destruct d; cbn [cmd_print]; unfold print_dispatch; rewrite Hi; reflexivity. }
  repeat split.
Qed.

Lemma out_of_table_rejected_witness :
  in_table 198%Z = false
  /\ cmd_get sample_env 2 198%Z reset_machine (cmd_array reset_machine) 0
     = Some (reset_machine,
             obj_put (cmd_array reset_machine) 0
                     (set_status (obj_at (cmd_array reset_machine) 0) TG_UNRECOGNIZED_COMMAND),
             TG_UNRECOGNIZED_COMMAND).
Proof.
  split; [vm_compute; reflexivity|].
  apply (out_of_table_rejected sample_env 2 198%Z reset_machine (cmd_array reset_machine) 0
                               cmd_new_object).
  vm_compute. reflexivity.
Defined.

(** ** Resolution and the parser *)

Lemma cmd_get_index_by_token_scan_bound (tbl : list cfgItem) (s : string) :
  forall j : Z,
    cmd_get_index_by_token_scan tbl j s = (-1)%Z
    \/ (j <= cmd_get_index_by_token_scan tbl j s < j + Z.of_nat (List.length tbl))%Z.
Proof.
  induction tbl as [|x t IHt]; intro j; [left; reflexivity|].
  cbn [cmd_get_index_by_token_scan List.length].
  destruct (token_test (strncpy (item_string x) CMD_TOKEN_LEN) s); [right; lia|].
  destruct (IHt (j + 1)%Z) as [H|H]; [left; exact H | right; lia].
Qed.

Lemma cmd_get_index_range (s : string) :
  cmd_get_index s = (-1)%Z \/ in_table (cmd_get_index s) = true.
Proof.
  unfold cmd_get_index.
  destruct (cmd_get_index_scan_spec cfgArray s 0) as [[Hr _]|[k [Hr [Hk _]]]].
  - left. exact Hr.
  - right. rewrite Hr. apply (in_table_nat k). exact Hk.
Qed.

(** X3: what either resolver returns is -1 or an index inside the table, so
    an index that was resolved is never turned down by the bounds checks. *)
Theorem resolved_index_in_table (s : string) :
  (cmd_get_index s = (-1)%Z \/ in_table (cmd_get_index s) = true)
  /\ (cmd_get_index_by_token s = (-1)%Z \/ in_table (cmd_get_index_by_token s) = true).
Proof.
  split.
  - apply cmd_get_index_range.
  - unfold cmd_get_index_by_token.
    destruct (cmd_get_index_by_token_scan_bound cfgArray s 0) as [H|H]; [left; exact H|].
    right. unfold in_table. apply andb_true_iff.
    split; [apply Z.leb_le; lia | apply Z.ltb_lt; unfold CMD_INDEX_MAX; lia].
Qed.

Lemma parse_config_string_facts (E : Env) (line : string) :
  let cmd := fst (_parse_config_string E line) in
  (snd (_parse_config_string E line) = TG_OK <-> cmd_index cmd <> (-1)%Z)
  /\ (snd (_parse_config_string E line) = TG_OK ->
      in_table (cmd_index cmd) = true
      /\ cmd_token cmd = cmd_get_token (cmd_index cmd)
      /\ cmd_nx cmd = None
      /\ (cmd_value_type cmd = VALUE_TYPE_PARENT
          <-> (Z.of_nat CMD_INDEX_START_GROUPS <= cmd_index cmd)%Z)).
Proof.
  cbv zeta. unfold _parse_config_string.
  set (cmd0 := match strpbrk _ _ with Some _ => _ | None => _ end).
  assert (Hk0 : cmd_value_type cmd0 <> VALUE_TYPE_PARENT /\ cmd_nx cmd0 = None).
  { unfold cmd0. destruct (strpbrk _ _); [|split; [discriminate | reflexivity]].
    destruct (strtod E _) as [v used]. destruct (Nat.eqb used 0); split; try discriminate; reflexivity. }
  destruct Hk0 as [Hk0 Hnx0].
  cbv zeta. cbn [cmd_index set_index set_token].
  destruct (cmd_get_index_range (cmd_name cmd0)) as [Hr|Hr].
  - rewrite Hr. cbn [Z.eqb fst snd cmd_index set_index].
    split; [split; [discriminate | intro H; contradiction H; reflexivity]|].
    discriminate.
  - assert (Hne : cmd_get_index (cmd_name cmd0) <> (-1)%Z).
    { intro H. rewrite H in Hr. discriminate Hr. }
    apply Z.eqb_neq in Hne. rewrite Hne.
    destruct (Z.leb_spec (Z.of_nat CMD_INDEX_START_GROUPS) (cmd_get_index (cmd_name cmd0)));
      cbn [fst snd cmd_index cmd_token cmd_nx cmd_value_type set_index set_token set_value_type];
      apply Z.eqb_neq in Hne.
    + split; [split; [intros _; exact Hne | reflexivity]|].
      intros _. repeat split; try assumption. intros _. assumption.
    + split; [split; [intros _; exact Hne | reflexivity]|].
      intros _. repeat split; try assumption.
      * intro H1. contradiction.
      * intro H1. lia.
Qed.

(** X4: a line the parser accepts carries an index inside the table and the
    token of that index, its kind is "parent" exactly for the indices from
    [CMD_INDEX_START_GROUPS] on, and the parser accepts exactly the lines
    whose name resolves. *)
Theorem parse_config_string_accepts (E : Env) (line : string) :
  let cmd := fst (_parse_config_string E line) in
  (snd (_parse_config_string E line) = TG_OK <-> cmd_index cmd <> (-1)%Z)
  /\ (snd (_parse_config_string E line) = TG_OK ->
      in_table (cmd_index cmd) = true
      /\ cmd_token cmd = cmd_get_token (cmd_index cmd)
      /\ cmd_nx cmd = None
      /\ (cmd_value_type cmd = VALUE_TYPE_PARENT
          <-> (Z.of_nat CMD_INDEX_START_GROUPS <= cmd_index cmd)%Z)).
Proof. exact (parse_config_string_facts E line). Qed.

Lemma parse_config_string_accepts_witness :
  snd (_parse_config_string sample_env "$xfr=1200") = TG_OK
  /\ in_table (cmd_index (fst (_parse_config_string sample_env "$xfr=1200"))) = true.
Proof.
  split; [vm_compute; reflexivity|].
  destruct (parse_config_string_accepts sample_env "$xfr=1200") as [_ H].
  apply H. vm_compute. reflexivity.
Defined.

Lemma tolower_idem (c : ascii) : tolower (tolower c) = tolower c.
Proof.
  destruct c as [b0 b1 b2 b3 b4 b5 b6 b7];
    destruct b0, b1, b2, b3, b4, b5, b6, b7; reflexivity.
Qed.

Lemma strlower_idem (s : string) : strlower (strlower s) = strlower s.
Proof.
  induction s as [|c s IH]; [reflexivity|].
  cbn [strlower]. rewrite tolower_idem, IH. reflexivity.
Qed.

Lemma skip_dollar_lower (s : string) : skip_dollar (strlower s) = strlower (skip_dollar s).
Proof.
  destruct s as [|c s]; [reflexivity|].
  destruct c as [b0 b1 b2 b3 b4 b5 b6 b7];
    destruct b0, b1, b2, b3, b4, b5, b6, b7; reflexivity.
Qed.

(** X5: command lines are case-insensitive: a line and its lowercased form
    parse to the same object and status, and are processed alike. *)
Theorem command_line_case_insensitive (E : Env) (d : nat) (line : string) (m : machine) :
  _parse_config_string E (strlower line) = _parse_config_string E line
  /\ cfg_config_parser E d (strlower line) m = cfg_config_parser E d line m.
Proof.
  assert (H : _parse_config_string E (strlower line) = _parse_config_string E line).
  { unfold _parse_config_string. rewrite skip_dollar_lower, strlower_idem. reflexivity. }
  split; [exact H|]. unfold cfg_config_parser. rewrite H. reflexivity.
Qed.

Example ex_case_insensitive :
  _parse_config_string sample_env "$XFR=1200" = _parse_config_string sample_env "$xfr=1200".
Proof. vm_compute. reflexivity. Qed.

(** X6: the leading dollar sign is optional: a line that does not itself
    begin with one is parsed and processed the same with a dollar sign put in
    front of it. *)
Theorem command_line_dollar_optional (E : Env) (d : nat) (line : string) (m : machine) :
  skip_dollar line = line ->
  _parse_config_string E (String "$" line) = _parse_config_string E line
  /\ cfg_config_parser E d (String "$" line) m = cfg_config_parser E d line m.
Proof.
  intro Hno.
  assert (H : _parse_config_string E (String "$" line) = _parse_config_string E line).
  { unfold _parse_config_string. rewrite Hno. reflexivity. }
  split; [exact H|]. unfold cfg_config_parser. rewrite H. reflexivity.
Qed.

Lemma command_line_dollar_optional_witness :
  skip_dollar "xfr=1200" = "xfr=1200"
  /\ _parse_config_string sample_env "$xfr=1200" = _parse_config_string sample_env "xfr=1200".
Proof.
  split; [reflexivity|].
  apply (command_line_dollar_optional sample_env 0 "xfr=1200" reset_machine).
  reflexivity.
Defined.

(** ** What get and print never do *)

Lemma same_store_refl (m : machine) : same_store m m.
Proof. repeat split. Qed.

Lemma same_store_trans (a b c : machine) : same_store a b -> same_store b c -> same_store a c.
Proof.
  intros [H1 [H2 H3]] [H4 [H5 H6]]. repeat split; congruence.
Qed.

Lemma get_leaf_same_store (E : Env) (k : getKind) (i : nat) (m : machine) (c : cmdObj) :
  same_store m (fst (get_leaf E k i m c)).
Proof. destruct k; cbn [get_leaf fst]; repeat split. Qed.

Lemma cmd_get_cmd_ok (rec : binding) :
  binding_ok rec ->
  forall i m arr p m' arr',
    cmd_get_cmd rec i m arr p = Some (m', arr') ->
    same_store m m' /\ List.length arr' = List.length arr.
Proof.
  intros Hrec i m arr p m' arr'. unfold cmd_get_cmd.
  destruct (in_table i).
  - intro H. apply Hrec in H. rewrite obj_put_length in H. exact H.
  - intro H. injection H as <- <-. split; [apply same_store_refl | apply obj_put_length].
Qed.

Lemma get_grp_loop_ok (rec : binding) (g : string) :
  binding_ok rec ->
  forall n i m arr p m' arr',
    _get_grp_loop rec g n i m arr p = Some (m', arr') ->
    same_store m m' /\ List.length arr' = List.length arr.
Proof.
  intro Hrec. induction n as [|n IH]; intros i m arr p m' arr'; cbn [_get_grp_loop].
  - intro H. injection H as <- <-. split; [apply same_store_refl | reflexivity].
  - destruct (strstr_is_start (cmd_get_token i) g); [|apply IH].
    destruct (cmd_get_cmd rec i m arr (S p)) as [[m1 arr1]|] eqn:Hc; [|discriminate].
    intro H. apply IH in H. apply (cmd_get_cmd_ok rec Hrec) in Hc.
    destruct H as [Hs Hl], Hc as [Hs1 Hl1].
    split; [exact (same_store_trans _ _ _ Hs1 Hs)|].
    rewrite Hl. unfold link_next. rewrite !obj_put_length. exact Hl1.
Qed.

Lemma get_listed_loop_ok (rec : binding) (inc : string) (exc : option string) :
  binding_ok rec ->
  forall n i m arr p m' arr',
    get_listed_loop rec inc exc n i m arr p = Some (m', arr') ->
    same_store m m' /\ List.length arr' = List.length arr.
Proof.
  intro Hrec. induction n as [|n IH]; intros i m arr p m' arr'; cbn [get_listed_loop].
  - intro H. injection H as <- <-. split; [apply same_store_refl | reflexivity].
  - destruct (excluded exc (cmd_get_token i)); [apply IH|].
    destruct (is_substring inc (cmd_get_token i)); [|apply IH].
    destruct (cmd_get_cmd rec i m arr (S p)) as [[m1 arr1]|] eqn:Hc; [|discriminate].
    intro H. apply IH in H. apply (cmd_get_cmd_ok rec Hrec) in Hc.
    destruct H as [Hs Hl], Hc as [Hs1 Hl1].
    split; [exact (same_store_trans _ _ _ Hs1 Hs)|].
    rewrite Hl. unfold link_next. rewrite !obj_put_length. exact Hl1.
Qed.

Lemma get_dispatch_ok (E : Env) (rec : binding) :
  binding_ok rec -> binding_ok (get_dispatch E rec).
Proof.
  intros Hrec i m arr p m' arr'. unfold get_dispatch.
  destruct (item_get (item_at i)) eqn:Hk;
    try match goal with
        | |- context [get_leaf E ?k i m (obj_at arr p)] =>
            pose proof (get_leaf_same_store E k i m (obj_at arr p)) as Hs;
            destruct (get_leaf E k i m (obj_at arr p)) as [m1 c1];
            intro H; injection H as <- <-;
            split; [exact Hs | apply obj_put_length]
        end.
  - unfold _get_grp. intro H. apply (get_grp_loop_ok rec _ Hrec) in H.
    rewrite obj_put_length in H. exact H.
  - unfold _get_sys. intro H. apply (get_listed_loop_ok rec _ _ Hrec) in H.
    rewrite obj_put_length in H. exact H.
  - unfold _get_qm. intro H. apply (get_listed_loop_ok rec _ _ Hrec) in H.
    rewrite obj_put_length in H. exact H.
Qed.

Lemma get_binding_ok (E : Env) (d : nat) : binding_ok (get_binding E d).
Proof.
  induction d as [|d IH]; cbn [get_binding]; apply get_dispatch_ok.
  - intros i m arr p m' arr' H. discriminate H.
  - exact IH.
Qed.

Lemma cmd_get_same_store (E : Env) (d : nat) (i : INDEX_T) (m : machine)
      (arr : list cmdObj) (p : nat) (m' : machine) (arr' : list cmdObj) (st : status) :
  cmd_get E d i m arr p = Some (m', arr', st) -> same_store m m'.
Proof.
  unfold cmd_get. destruct (in_table i).
  - destruct (get_binding E d (Z.to_nat i) m arr p) as [[m1 arr1]|] eqn:Hg; [|discriminate].
    intro H. injection H as <- _ _. exact (proj1 (get_binding_ok E d _ _ _ _ _ _ Hg)).
  - intro H. injection H as <- _ _. apply same_store_refl.
Qed.

(** X7: a get, of a single value or of a whole group and at any depth, never
    writes: live storage, the EEPROM and its write log are as before, and the
    array of command objects keeps its size. *)
Theorem cmd_get_never_writes (E : Env) (d : nat) (i : INDEX_T) (m : machine)
        (arr : list cmdObj) (p : nat) (m' : machine) (arr' : list cmdObj) (st : status) :
  cmd_get E d i m arr p = Some (m', arr', st) ->
  same_store m m' /\ List.length arr' = List.length arr.
Proof.
  unfold cmd_get. destruct (in_table i).
  - destruct (get_binding E d (Z.to_nat i) m arr p) as [[m1 arr1]|] eqn:Hg; [|discriminate].
    intro H. injection H as <- <- _. exact (get_binding_ok E d _ _ _ _ _ _ Hg).
  - intro H. injection H as <- <- _. split; [apply same_store_refl | apply obj_put_length].
Qed.

Lemma cmd_get_never_writes_witness :
  cmd_get sample_env 0 50%Z reset_machine [cmd_new_object] 0
  = Some (reset_machine,
          [set_value_type (set_value cmd_new_object 0%float) VALUE_TYPE_FLOAT], TG_OK)
  /\ same_store reset_machine reset_machine.
Proof.
  assert (H : cmd_get sample_env 0 50%Z reset_machine [cmd_new_object] 0
              = Some (reset_machine,
                      [set_value_type (set_value cmd_new_object 0%float) VALUE_TYPE_FLOAT],
                      TG_OK)) by (vm_compute; reflexivity).
  split; [exact H|].
  exact (proj1 (cmd_get_never_writes sample_env 0 50%Z reset_machine [cmd_new_object] 0
                                     reset_machine _ TG_OK H)).
Defined.

Lemma value_via_get_same_store (E : Env) (d i : nat) (m m' : machine) (v : double) :
  value_via_get E d i m = Some (m', v) -> same_store m m'.
Proof.
  unfold value_via_get.
  destruct (get_binding E d i m [cmd_new_object] 0) as [[m1 arr1]|] eqn:Hg; [|discriminate].
  intro H. injection H as <- _. exact (proj1 (get_binding_ok E d _ _ _ _ _ _ Hg)).
Qed.

Lemma print_value_same_store (E : Env) (d i : nat) (m m' : machine) (conv : double -> val)
      (text : machine -> double -> option string) :
  print_value E d i m conv text = Some m' -> same_store m m'.
Proof.
  unfold print_value.
  destruct (value_via_get E d i m) as [[m1 v]|] eqn:Hv; [|discriminate].
  intro H. injection H as <-.
  apply value_via_get_same_store in Hv. destruct Hv as [H1 [H2 H3]]. repeat split; assumption.
Qed.

Lemma print_grp_loop_ok (print : INDEX_T -> machine -> option machine) :
  print_ok print ->
  forall n m p m', _print_grp_loop print n m p = Some m' -> same_store m m'.
Proof.
  intro Hrec. induction n as [|n IH]; intros m p m'; cbn [_print_grp_loop].
  - intro H. injection H as <-. apply same_store_refl.
  - destruct (cmd_nx (obj_at (cmd_array m) p)) as [q|].
    + destruct (print (cmd_index (obj_at (cmd_array m) q)) m) as [m1|] eqn:Hp; [|discriminate].
      intro H. apply IH in H. apply Hrec in Hp. exact (same_store_trans _ _ _ Hp H).
    + intro H. injection H as <-. apply same_store_refl.
Qed.

Lemma print_dispatch_ok (E : Env) (d : nat) (rec : INDEX_T -> machine -> option machine) :
  print_ok rec -> print_ok (print_dispatch E d rec).
Proof.
  intros Hrec i m m'. unfold print_dispatch.
  destruct (in_table i); [|intro H; injection H as <-; apply same_store_refl].
  destruct (item_print (item_at (Z.to_nat i)));
    try (apply print_value_same_store).
  - intro H. injection H as <-. apply same_store_refl.
  - destruct (cmd_get E d (cmd_index (obj_at (cmd_array m) 0)) m (cmd_array m) 0)
      as [[[m1 arr1] st]|] eqn:Hg; [|discriminate].
    intro H. apply (print_grp_loop_ok rec Hrec) in H.
    apply cmd_get_same_store in Hg.
    apply (same_store_trans _ _ _ Hg).
    destruct H as [H1 [H2 H3]]. repeat split; assumption.
Qed.

(** X8: printing, of a single value or of a whole group and at any depth,
    never writes: live storage, the EEPROM and its write log are as before. *)
Theorem cmd_print_never_writes (E : Env) (d : nat) (i : INDEX_T) (m m' : machine) :
  cmd_print E d i m = Some m' -> same_store m m'.
Proof.
  revert i m m'. induction d as [|d IH]; cbn [cmd_print]; apply print_dispatch_ok.
  - intros i m m' H. discriminate H.
  - exact IH.
Qed.

Lemma cmd_print_never_writes_witness :
  exists m', cmd_print sample_env 0 50%Z reset_machine = Some m' /\ same_store reset_machine m'.
Proof.
  destruct (cmd_print sample_env 0 50%Z reset_machine) as [m'|] eqn:Hp.
  - exists m'. split; [reflexivity|].
    exact (cmd_print_never_writes sample_env 0 50%Z reset_machine m' Hp).
  - exfalso. revert Hp. vm_compute. discriminate.
Defined.

(** ** What set never does *)

Lemma clear_sr_spec_nvm (n : nat) (m : machine) :
  nvm (clear_sr_spec n m) = nvm m /\ nvm_log (clear_sr_spec n m) = nvm_log m.
Proof.
  induction n as [|n IH]; [split; reflexivity|]. cbn [clear_sr_spec]. exact IH.
Qed.

Lemma set_sr_loop_nvm (arr : list cmdObj) :
  forall n j m p,
    nvm (_set_sr_loop n j m arr p) = nvm m /\ nvm_log (_set_sr_loop n j m arr p) = nvm_log m.
Proof.
  induction n as [|n IH]; intros j m p; [split; reflexivity|].
  cbn [_set_sr_loop].
  match goal with
  | |- context [if ?b then store m ?t ?v else m] => set (m1 := if b then store m t v else m)
  end.
  assert (H1 : nvm m1 = nvm m /\ nvm_log m1 = nvm_log m).
  { unfold m1.
    match goal with |- context [if ?b then _ else _] => destruct b end; split; reflexivity. }
  destruct (cmd_nx (obj_at arr (S p))); [|exact H1].
  destruct (IH (S j) m1 (S p)) as [Ha Hb]. destruct H1 as [Hc Hd].
  split; congruence.
Qed.

Lemma set_grp_loop_ok (set : INDEX_T -> machine -> list cmdObj -> nat -> cmd_set_result) :
  set_ok set ->
  forall n m arr p m' arr',
    _set_grp_loop set n m arr p = Some (m', arr') -> nvm m' = nvm m /\ nvm_log m' = nvm_log m.
Proof.
  intro Hrec. induction n as [|n IH]; intros m arr p m' arr'; cbn [_set_grp_loop].
  - intro H. injection H as <- <-. split; reflexivity.
  - destruct (cmd_nx (obj_at arr p)) as [q|].
    + destruct (set (cmd_index (obj_at arr q)) m arr q) as [[[m1 arr1] st]|] eqn:Hs; [|discriminate].
      intro H. apply IH in H. apply Hrec in Hs. destruct H, Hs. split; congruence.
    + intro H. injection H as <- <-. split; reflexivity.
Qed.

Lemma set_dispatch_ok (E : Env) (rec : INDEX_T -> machine -> list cmdObj -> nat -> cmd_set_result) :
  set_ok rec -> set_ok (set_dispatch E rec).
Proof.
  intros Hrec i m arr p m' arr' st. unfold set_dispatch.
  destruct (in_table i); [|intro H; injection H as <- _ _; split; reflexivity].
  destruct (item_set (item_at (Z.to_nat i)));
    try match goal with
        | |- context [set_leaf E ?k ?n m (obj_at arr p)] =>
            pose proof (set_leaf_nvm E k n m (obj_at arr p)) as Hs;
            destruct (set_leaf E k n m (obj_at arr p)) as [m1 c1];
            intro H; injection H as <- _ _; exact Hs
        end.
  - intro H. injection H as <- _ _. unfold _set_sr.
    destruct (set_sr_loop_nvm arr (CMD_STATUS_REPORT_LEN E) 0
                (clear_sr_spec (CMD_STATUS_REPORT_LEN E) m) p) as [Ha Hb].
    destruct (clear_sr_spec_nvm (CMD_STATUS_REPORT_LEN E) m) as [Hc Hd].
    split; congruence.
  - destruct (_set_grp_loop rec (CMD_MAX_OBJECTS E) m arr p) as [[m1 arr1]|] eqn:Hl; [|discriminate].
    intro H. injection H as <- _ _. exact (set_grp_loop_ok rec Hrec _ _ _ _ _ _ Hl).
Qed.

Lemma cmd_set_never_persists_aux (E : Env) (d : nat) (i : INDEX_T) (m : machine)
      (arr : list cmdObj) (p : nat) (m' : machine) (arr' : list cmdObj) (st : status) :
  cmd_set E d i m arr p = Some (m', arr', st) ->
  nvm m' = nvm m /\ nvm_log m' = nvm_log m.
Proof.
  revert i m arr p m' arr' st.
  induction d as [|d IH]; cbn [cmd_set]; apply set_dispatch_ok.
  - intros i m arr p m' arr' st H. discriminate H.
  - exact IH.
Qed.

(** X9: a set, of a single value or of a whole group and at any depth, never
    touches the EEPROM: persisting is left to the caller. *)
Theorem cmd_set_never_persists (E : Env) (d : nat) (i : INDEX_T) (m : machine)
        (arr : list cmdObj) (p : nat) (m' : machine) (arr' : list cmdObj) (st : status) :
  cmd_set E d i m arr p = Some (m', arr', st) ->
  nvm m' = nvm m /\ nvm_log m' = nvm_log m.
Proof.
  revert i m arr p m' arr' st.
  induction d as [|d IH]; cbn [cmd_set]; apply set_dispatch_ok.
  - intros i m arr p m' arr' st H. discriminate H.
  - exact IH.
Qed.

Lemma cmd_set_never_persists_witness :
  exists m' arr',
    cmd_set sample_env 0 50%Z reset_machine [set_value cmd_new_object 7%float] 0
    = Some (m', arr', TG_OK)
    /\ nvm m' = nvm reset_machine /\ nvm_log m' = nvm_log reset_machine.
Proof.
  destruct (cmd_set sample_env 0 50%Z reset_machine [set_value cmd_new_object 7%float] 0)
    as [[[m' arr'] st]|] eqn:Hs.
  - exists m', arr'.
    pose proof (cmd_set_never_persists sample_env 0 50%Z reset_machine _ 0 m' arr' st Hs) as Hn.
    assert (Hst : st = TG_OK).
    { revert Hs. rewrite (cmd_set_leaf sample_env 0 50 reset_machine _ 0);
        [|vm_compute; lia | reflexivity].
      intro H. injection H as _ _ <-. reflexivity. }
    subst st. split; [reflexivity | exact Hn].
  - exfalso. revert Hs. vm_compute. discriminate.
Defined.

(** ** Command processing and the EEPROM *)

Lemma print_same_store (E : Env) (d : nat) (i : INDEX_T) (m m' : machine) :
  cmd_print E d i m = Some m' -> same_store m m'.
Proof.
  revert i m m'. induction d as [|d IH]; cbn [cmd_print]; apply print_dispatch_ok.
  - intros i m m' H. discriminate H.
  - exact IH.
Qed.

(** X10: a line that is not a single-value set, be it a pure query, a group
    line or a line turned down, leaves live storage, the EEPROM and its
    write log as they were. *)
Theorem cfg_config_parser_query_keeps_store (E : Env) (d : nat) (line : string)
        (m m' : machine) (st : status) :
  is_single_value (fst (_parse_config_string E line)) = false ->
  cfg_config_parser E d line m = Some (m', st) ->
  same_store m m'.
Proof.
  unfold cfg_config_parser.
  destruct (_parse_config_string E line) as [cmd st0]. cbn [fst].
  intros Hq. rewrite Hq.
  destruct st0.
  - destruct (cmd_print E d _ _) as [m2|] eqn:Hp; [|discriminate].
    intro H. injection H as <- _. apply print_same_store in Hp.
    destruct Hp as [H1 [H2 H3]]. repeat split; assumption.
  - intro H. injection H as <- _. repeat split.
  - intro H. injection H as <- _. repeat split.
Qed.

Lemma cfg_config_parser_query_keeps_store_witness :
  is_single_value (fst (_parse_config_string sample_env "$x")) = false
  /\ exists m' st,
      cfg_config_parser sample_env 2 "$x" reset_machine = Some (m', st)
      /\ same_store reset_machine m'.
Proof.
  split; [vm_compute; reflexivity|].
  destruct (cfg_config_parser sample_env 2 "$x" reset_machine) as [[m' st]|] eqn:Hc.
  - exists m', st. split; [reflexivity|].
    apply (cfg_config_parser_query_keeps_store sample_env 2 "$x" reset_machine m' st);
      [vm_compute; reflexivity | exact Hc].
  - exfalso. revert Hc. vm_compute. discriminate.
Defined.

Lemma set_leaf_keeps (E : Env) (k : setKind) (i : nat) (m : machine) (c : cmdObj) :
  cmd_index (snd (set_leaf E k i m c)) = cmd_index c
  /\ cmd_value (snd (set_leaf E k i m c))
     = match k with set_si => clamp_si E (cmd_value c) | _ => cmd_value c end.
Proof.
  destruct k; cbn [set_leaf snd]; unfold _set_si, _run_gc, clamp_si; cbn [snd];
    try (split; reflexivity).
  destruct (PrimFloat.ltb _ _); [split; reflexivity|].
  destruct (PrimFloat.ltb _ _); split; reflexivity.
Qed.

(** [cmd_set] on an object without successors, as the parser leaves it:
    it returns, and the object keeps its index and its value, clamped for
    the status interval. *)
Lemma cmd_set_lone_object (E : Env) (d : nat) (i : INDEX_T) (m : machine)
      (arr : list cmdObj) :
  in_table i = true ->
  arr <> [] ->
  cmd_nx (obj_at arr 0) = None ->
  exists m2 arr2,
    cmd_set E d i m arr 0 = Some (m2, arr2, TG_OK)
    /\ cmd_index (obj_at arr2 0) = cmd_index (obj_at arr 0)
    /\ cmd_value (obj_at arr2 0) = written_value E (Z.to_nat i) (cmd_value (obj_at arr 0)).
Proof.
  intros Hi Harr Hnx. unfold written_value.
  assert (Hlen : 0 < List.length arr) by (destruct arr; [contradiction | cbn; lia]).
  assert (Hd : cmd_set E d = set_dispatch E (match d with
                                             | O => fun _ _ _ _ => None
                                             | S d' => cmd_set E d'
                                             end)) by (destruct d; reflexivity).
  rewrite Hd. unfold set_dispatch. rewrite Hi.
  destruct (item_set (item_at (Z.to_nat i))) eqn:Hk;
    try match goal with
        | |- context [set_leaf E ?k ?n m (obj_at arr 0)] =>
            destruct (set_leaf_keeps E k n m (obj_at arr 0)) as [Hci Hcv];
            destruct (set_leaf E k n m (obj_at arr 0)) as [m1 c1];
            exists m1, (obj_put arr 0 c1);
            split; [reflexivity|];
            rewrite (obj_at_put_same arr 0 c1 Hlen); split; [exact Hci | exact Hcv]
        end.
  - exists (_set_sr E m arr 0), arr. repeat split.
  - exists m, arr.
    destruct (CMD_MAX_OBJECTS E); cbn [_set_grp_loop]; rewrite ?Hnx; repeat split.
Qed.

Lemma cfg_config_parser_set_written (E : Env) (d : nat) (line : string)
        (m m' : machine) (st : status) :
  cmd_array m <> [] ->
  snd (_parse_config_string E line) = TG_OK ->
  is_single_value (fst (_parse_config_string E line)) = true ->
  cfg_config_parser E d line m = Some (m', st) ->
  let cmd := fst (_parse_config_string E line) in
  exists v,
    nvm_log m' = (nvm_log m ++ [(cmd_index cmd, v)])%list
    /\ nvm m' (cmd_index cmd) = v
    /\ (forall j, j <> cmd_index cmd -> nvm m' j = nvm m j)
    /\ v = written_value E (Z.to_nat (cmd_index cmd)) (cmd_value cmd).
Proof.
  intros Harr Hok Hsv Hrun. cbv zeta.
  assert (Hfacts : in_table (cmd_index (fst (_parse_config_string E line))) = true
                   /\ cmd_nx (fst (_parse_config_string E line)) = None).
  { revert Hok. unfold _parse_config_string.
    set (cmd0 := match strpbrk _ _ with Some _ => _ | None => _ end).
    assert (Hnx0 : cmd_nx cmd0 = None).
    { unfold cmd0. destruct (strpbrk _ _); [|reflexivity].
      destruct (strtod E _) as [v used]. destruct (Nat.eqb used 0); reflexivity. }
    cbv zeta. cbn [cmd_index set_index set_token].
    destruct (cmd_get_index_range (cmd_name cmd0)) as [Hr|Hr].
    - rewrite Hr. cbn [Z.eqb snd]. discriminate.
    - destruct (cmd_get_index (cmd_name cmd0) =? -1)%Z; [cbn [snd]; discriminate|].
      destruct (Z.of_nat CMD_INDEX_START_GROUPS <=? _)%Z;
        cbn [fst snd cmd_index cmd_nx set_index set_token set_value_type];
        intros _; split; assumption. }
  destruct Hfacts as [Hin Hnx].
  revert Hrun. unfold cfg_config_parser.
  destruct (_parse_config_string E line) as [cmd st0].
  cbn [fst snd] in *. subst st0. rewrite Hsv.
  set (m1 := with_cmd_array m (obj_put (cmd_array m) 0 cmd)).
  assert (Hlen : 0 < List.length (cmd_array m))
    by (destruct (cmd_array m); [contradiction | cbn; lia]).
  assert (Hat : obj_at (cmd_array m1) 0 = cmd)
    by (unfold m1; cbn [cmd_array with_cmd_array]; apply obj_at_put_same; exact Hlen).
  destruct (cmd_set_lone_object E d (cmd_index cmd) m1 (cmd_array m1) Hin)
    as [m2 [arr2 [Hset [Hidx Hval]]]].
  { unfold m1. cbn [cmd_array with_cmd_array]. intro H.
    apply (f_equal (@List.length cmdObj)) in H. rewrite obj_put_length in H. cbn in H. lia. }
  { rewrite Hat. exact Hnx. }
  rewrite Hat in Hidx, Hval. rewrite Hset.
  destruct (cmd_set_never_persists_aux E d _ _ _ _ _ _ _ Hset) as [Hn Hl].
  rewrite Hidx.
  unfold cmd_write_NVM_value. rewrite Hin. cbn [fst].
  match goal with
  | |- context [cmd_print E d ?i ?mm] => destruct (cmd_print E d i mm) as [m3|] eqn:Hp
  end; [|discriminate].
  intro H. injection H as <- _.
  apply print_same_store in Hp. destruct Hp as [_ [Hp2 Hp3]].
  cbn [nvm nvm_log with_cmd_array] in Hp2, Hp3.
  exists (cmd_value (obj_at arr2 0)).
  rewrite Hp2, Hp3. cbn [with_cmd_array nvm nvm_log].
  rewrite Hl, Hn. unfold m1. cbn [nvm nvm_log with_cmd_array].
  rewrite Z.eqb_refl.
  split; [reflexivity|]. split; [reflexivity|]. split; [|exact Hval].
  intros j Hj. destruct (Z.eqb_spec j (cmd_index cmd)); [contradiction | reflexivity].
Qed.

Lemma cfg_config_parser_set_log (E : Env) (d : nat) (line : string)
        (m m' : machine) (st : status) :
  cmd_array m <> [] ->
  snd (_parse_config_string E line) = TG_OK ->
  is_single_value (fst (_parse_config_string E line)) = true ->
  cfg_config_parser E d line m = Some (m', st) ->
  let cmd := fst (_parse_config_string E line) in
  exists v,
    nvm_log m' = (nvm_log m ++ [(cmd_index cmd, v)])%list
    /\ nvm m' (cmd_index cmd) = v
    /\ (forall j, j <> cmd_index cmd -> nvm m' j = nvm m j)
    /\ (item_set (item_at (Z.to_nat (cmd_index cmd))) <> set_si -> v = cmd_value cmd).
Proof.
  intros Harr Hok Hsv Hrun.
  destruct (cfg_config_parser_set_written E d line m m' st Harr Hok Hsv Hrun)
    as [v [Hlog [Hslot [Hother Hv]]]].
  exists v. split; [exact Hlog|]. split; [exact Hslot|]. split; [exact Hother|].
  intro Hne. rewrite Hv. unfold written_value.
  destruct (item_set (item_at _)); try reflexivity. contradiction Hne. reflexivity.
Qed.


(** X11: a line accepted as a single-value set makes exactly one EEPROM
    write, to the slot of the resolved index, right after the set: the log
    grows by that one entry, the other slots are as before, and the value
    written is the one parsed from the line; for the status interval it is
    that value clamped to the range from STATUS_REPORT_MIN_MS to
    STATUS_REPORT_MAX_MS. *)
Theorem cfg_config_parser_set_persists (E : Env) (d : nat) (line : string)
        (m m' : machine) (st : status) :
  cmd_array m <> [] ->
  snd (_parse_config_string E line) = TG_OK ->
  is_single_value (fst (_parse_config_string E line)) = true ->
  cfg_config_parser E d line m = Some (m', st) ->
  let cmd := fst (_parse_config_string E line) in
  let x := cmd_value cmd in
  exists v,
    nvm_log m' = (nvm_log m ++ [(cmd_index cmd, v)])%list
    /\ nvm m' (cmd_index cmd) = v
    /\ (forall j, j <> cmd_index cmd -> nvm m' j = nvm m j)
    /\ (item_set (item_at (Z.to_nat (cmd_index cmd))) <> set_si -> v = x)
    /\ (item_set (item_at (Z.to_nat (cmd_index cmd))) = set_si ->
        v = if PrimFloat.ltb x (settings E "STATUS_REPORT_MIN_MS")
            then settings E "STATUS_REPORT_MIN_MS"
            else if PrimFloat.ltb (settings E "STATUS_REPORT_MAX_MS") x
                 then settings E "STATUS_REPORT_MAX_MS"
                 else x).
Proof.
  intros Harr Hok Hsv Hrun. cbv zeta.
  destruct (cfg_config_parser_set_written E d line m m' st Harr Hok Hsv Hrun)
    as [v [Hlog [Hslot [Hother Hv]]]].
  exists v. split; [exact Hlog|]. split; [exact Hslot|]. split; [exact Hother|].
  unfold written_value in Hv. split.
  - intro Hne. rewrite Hv.
    destruct (item_set (item_at _)); try reflexivity. contradiction Hne. reflexivity.
  - intro Hsi. rewrite Hv, Hsi. reflexivity.
Qed.

(** The line "$si=5" asks for a status interval below the minimum of 200:
    the one EEPROM write is (8, 200). *)
Lemma cfg_config_parser_set_persists_witness :
  cmd_array reset_machine <> []
  /\ exists m',
      cfg_config_parser sample_env 0 "$si=5" reset_machine = Some (m', TG_OK)
      /\ nvm_log m' = [(8%Z, 200%float)].
Proof.
  split; [vm_compute; discriminate|].
  assert (Hrun : exists m', cfg_config_parser sample_env 0 "$si=5" reset_machine = Some (m', TG_OK)).
  { vm_compute. eexists. reflexivity. }
  destruct Hrun as [m' Hrun]. exists m'. split; [exact Hrun|].
  destruct (cfg_config_parser_set_persists sample_env 0 "$si=5" reset_machine m' TG_OK)
    as [v [Hlog [_ [_ [_ Hsi]]]]].
  - vm_compute. discriminate.
  - vm_compute. reflexivity.
  - vm_compute. reflexivity.
  - exact Hrun.
  - rewrite Hlog. rewrite (Hsi ltac:(vm_compute; reflexivity)). vm_compute. reflexivity.
Defined.

(** ** Start-up from a valid EEPROM *)

Lemma set_leaf_cell (E : Env) (k : nat) (m : machine) (c : cmdObj) (v : val) :
  storage_ok k = true ->
  cm_get_units_mode m = MILLIMETER_MODE ->
  cell_of E k (cmd_value c) = Some v ->
  load (fst (set_leaf E (item_set (item_at k)) k m c)) (target_of k) = v.
Proof.
  unfold storage_ok, cell_of. intros Hok Hmm Hv.
  destruct (item_set (item_at k)); try discriminate Hv; injection Hv as <-;
    cbn [set_leaf fst];
    unfold _set_si, clamp_si, _set_sa, _set_mi, _set_po, set_serial, _set_motor_steps_per_unit,
           _set_dbu, _set_ui8, _set_int, _set_dbl;
    cbn [fst cmd_value set_value];
    rewrite ?Hmm; cbn [Z.eqb MILLIMETER_MODE INCHES_MODE];
    repeat match goal with
      | H : (_ && _) = true |- _ => let H1 := fresh H in apply andb_true_iff in H as [H H1]
      | H : negb _ = true |- _ => apply negb_true_iff in H
      | H : String.eqb _ _ = true |- _ => apply String.eqb_eq in H
      end;
    try match goal with H : target_of k = _ |- _ => rewrite H in * end;
    rewrite ?load_emit;
    try (erewrite load_store_other by eassumption);
    try (destruct (PrimFloat.ltb _ _); [|destruct (PrimFloat.ltb _ _)]);
    cbn [cmd_value set_value];
    rewrite ?load_store_same; reflexivity.
Qed.

Lemma cmd_set_single (E : Env) (d k : nat) (m : machine) (c : cmdObj) :
  k < CMD_INDEX_MAX ->
  not_excluded k = true ->
  cmd_nx c = None ->
  cmd_set E d (Z.of_nat k) m [c] 0
  = Some (fst (set_leaf E (item_set (item_at k)) k m c),
          [snd (set_leaf E (item_set (item_at k)) k m c)],
          TG_OK).
Proof.
  intros Hk Hne Hnx.
  pose proof (cfgArray_init_ok k Hk) as Hok. unfold init_ok in Hok.
  apply andb_true_iff in Hok as [Hok _]. apply andb_true_iff in Hok as [_ Hsr].
  rewrite Hne in Hsr. cbn [negb orb] in Hsr.
  destruct (is_leaf_set (item_set (item_at k))) eqn:Hleaf.
  - rewrite (cmd_set_leaf E d k m _ 0 Hk Hleaf). reflexivity.
  - assert (Hd : cmd_set E d = set_dispatch E (match d with
                                               | O => fun _ _ _ _ => None
                                               | S d' => cmd_set E d'
                                               end)) by (destruct d; reflexivity).
    rewrite Hd. unfold set_dispatch. rewrite (in_table_nat k Hk), Nat2Z.id.
    destruct (item_set (item_at k)); try discriminate Hleaf; try discriminate Hsr.
    destruct (CMD_MAX_OBJECTS E); cbn [_set_grp_loop obj_at nth]; rewrite ?Hnx; reflexivity.
Qed.

Lemma cfg_init_load_run (E : Env) (d : nat) :
  forall n k m cmd,
    k + n <= CMD_INDEX_MAX ->
    exists cmd',
      cfg_init_load E d n (Z.of_nat k) m cmd = Some (load_run E (seq k n) m, cmd').
Proof.
  induction n as [|n IH]; intros k m cmd Hkn.
  - exists cmd. reflexivity.
  - cbn [cfg_init_load seq load_run fold_left].
    replace (Z.of_nat k + 1)%Z with (Z.of_nat (S k)) by lia.
    unfold cmd_read_NVM_value. rewrite (in_table_nat k ltac:(lia)).
    cbn [fst cmd_token set_token].
    unfold not_excluded.
    destruct (is_substring exclusions (cmd_get_token (Z.of_nat k))) eqn:Hex; cbn [negb].
    + apply IH. lia.
    + assert (Hne : not_excluded k = true) by (unfold not_excluded; rewrite Hex; reflexivity).
      fold (load_cmd m k).
      rewrite (cmd_set_single E d k m (load_cmd m k) ltac:(lia) Hne eq_refl).
      cbn [obj_at nth]. fold (load_step E k m).
      apply IH. lia.
Qed.

Lemma load_run_snoc (E : Env) (n : nat) (m : machine) :
  load_run E (seq 0 (S n)) m
  = if not_excluded n then load_step E n (load_run E (seq 0 n) m) else load_run E (seq 0 n) m.
Proof. unfold load_run. rewrite seq_S, fold_left_app. reflexivity. Qed.

Lemma cell_of_stores (E : Env) (i : nat) (x : double) (v : val) :
  cell_of E i x = Some v -> stores i = true.
Proof.
  unfold cell_of, stores. destruct (item_set (item_at i)); intro H;
    try discriminate H; reflexivity.
Qed.

Lemma load_run_inv (E : Env) (m0 : machine) :
  cm_get_units_mode m0 = MILLIMETER_MODE ->
  forall n, n <= CMD_INDEX_MAX -> load_inv E m0 n (load_run E (seq 0 n) m0).
Proof.
  intros Hmm. induction n as [|n IH]; intro Hn.
  - constructor; try reflexivity; [exact Hmm|]. intros i v Hi. lia.
  - specialize (IH ltac:(lia)). destruct IH as [Hu Hv Hl Hc].
    rewrite load_run_snoc.
    set (M := load_run E (seq 0 n) m0) in *.
    pose proof (cfgArray_init_ok n ltac:(lia)) as Hok.
    destruct (not_excluded n) eqn:Hne.
    + assert (Hsok : storage_ok n = true).
      { unfold init_ok in Hok. apply andb_true_iff in Hok as [Hok _].
        apply andb_true_iff in Hok as [Hok _]. exact Hok. }
      destruct (set_leaf_nvm E (item_set (item_at n)) n M (load_cmd M n)) as [Hn1 Hl1].
      constructor.
      * unfold cm_get_units_mode, load_step.
        rewrite set_leaf_frame; [exact Hu|]. apply init_ok_units. exact Hok.
      * unfold load_step. rewrite Hn1. exact Hv.
      * unfold load_step. rewrite Hl1. exact Hl.
      * intros i v Hi Hnei Hd. unfold load_step.
        destruct (Nat.eq_dec i n) as [->|Hin].
        -- apply set_leaf_cell; [exact Hsok | exact Hu |].
           unfold load_cmd. cbn [cmd_value set_token set_value_type set_value].
           rewrite Hv. exact Hd.
        -- rewrite set_leaf_frame; [apply Hc; [lia | exact Hnei | exact Hd]|].
           apply (init_ok_earlier n i Hok); [lia | | exact Hnei].
           exact (cell_of_stores E i _ v Hd).
    + constructor; try assumption.
      intros i v Hi Hnei Hd.
      destruct (Nat.eq_dec i n) as [->|Hin]; [congruence|].
      apply Hc; [lia | exact Hnei | exact Hd].
Qed.

Lemma cfg_init_replay (E : Env) (d : nat) (m : machine) :
  PrimFloat.eqb (nvm m 0%Z) (read_dbl (load m "tg.build")) = true ->
  exists M,
    cfg_init E d m = Some M
    /\ nvm M = nvm m
    /\ nvm_log M = nvm_log m
    /\ cm_get_units_mode M = MILLIMETER_MODE
    /\ forall i v, i < CMD_INDEX_START_GROUPS -> not_excluded i = true ->
                   cell_of E i (nvm m (Z.of_nat i)) = Some v ->
                   load M (target_of i) = v.
Proof.
  intro Hver.
  unfold cfg_init. fold (init_start m).
  assert (Hread : cmd_value (fst (cmd_read_NVM_value 0%Z (init_start m) cmd_new_object)) = nvm m 0%Z)
    by reflexivity.
  assert (Hcur : read_dbl (load (init_start m) "cfg.version") = read_dbl (load m "tg.build")).
  { unfold init_start. rewrite load_store_same. unfold cm_set_units_mode.
    rewrite load_store_other by reflexivity. reflexivity. }
  rewrite Hread, Hcur, Hver.
  destruct (cfg_init_load_run E d CMD_INDEX_START_GROUPS 0 (init_start m)
              (fst (cmd_read_NVM_value 0%Z (init_start m) cmd_new_object))
              start_groups_in_table) as [cmd' Hrun].
  change (Z.of_nat 0) with 0%Z in Hrun. rewrite Hrun.
  eexists. split; [reflexivity|].
  assert (Hinv : load_inv E (init_start m) CMD_INDEX_START_GROUPS
                          (load_run E (seq 0 CMD_INDEX_START_GROUPS) (init_start m))).
  { apply load_run_inv; [|exact start_groups_in_table].
    unfold init_start. rewrite units_store_other by reflexivity. apply units_after_set. }
  destruct Hinv as [Hu Hv Hl Hc].
  split; [exact Hv|]. split; [exact Hl|]. split; [exact Hu|]. exact Hc.
Qed.

(** X12: when the version slot equals the running version, [cfg_init] replays
    the EEPROM: it runs to its end without a single EEPROM write, and for
    every index below [CMD_INDEX_START_GROUPS] that is not excluded and whose
    set binding stores, the live target holds the persisted value of that
    index narrowed to the storage kind (taken as millimetres for the
    unit-bearing ones, as a tick count for the status interval). *)
Theorem cfg_init_replays_eeprom (E : Env) (d : nat) (m : machine) :
  PrimFloat.eqb (nvm m 0%Z) (read_dbl (load m "tg.build")) = true ->
  exists M,
    cfg_init E d m = Some M
    /\ nvm M = nvm m
    /\ nvm_log M = nvm_log m
    /\ cm_get_units_mode M = MILLIMETER_MODE
    /\ forall i v, i < CMD_INDEX_START_GROUPS -> not_excluded i = true ->
                   cell_of E i (nvm m (Z.of_nat i)) = Some v ->
                   load M (target_of i) = v.
Proof. exact (cfg_init_replay E d m). Qed.

Lemma cfg_init_replays_eeprom_witness :
  PrimFloat.eqb (nvm (fst (cmd_write_NVM_value 0%Z reset_machine
                             (set_value cmd_new_object 0x1.4b051eb851eb8p+8%float))) 0%Z)
                (read_dbl (load reset_machine "tg.build")) = true
  /\ exists M,
      cfg_init sample_env 0 (fst (cmd_write_NVM_value 0%Z reset_machine
                                    (set_value cmd_new_object 0x1.4b051eb851eb8p+8%float)))
      = Some M
      /\ cm_get_units_mode M = MILLIMETER_MODE.
Proof.
  split; [vm_compute; reflexivity|].
  destruct (cfg_init_replays_eeprom sample_env 0
              (fst (cmd_write_NVM_value 0%Z reset_machine
                      (set_value cmd_new_object 0x1.4b051eb851eb8p+8%float))))
    as [M [Hrun [_ [_ [Hu _]]]]].
  - vm_compute. reflexivity.
  - exists M. split; [exact Hrun | exact Hu].
Defined.

(** ** The other groups *)

Lemma listed_kids_step (inc : string) (exc : option string) (k n : nat) :
  listed_kids inc exc k (S n)
  = if negb (excluded exc (cmd_get_token (Z.of_nat k)))
       && is_substring inc (cmd_get_token (Z.of_nat k))
    then k :: listed_kids inc exc (S k) n else listed_kids inc exc (S k) n.
Proof. reflexivity. Qed.

Lemma get_listed_loop_chain (E : Env) (d : nat) (inc : string) (exc : option string) :
  forall n k m arr p fuel,
    (forall i, In i (listed_kids inc exc k n) ->
               i < CMD_INDEX_MAX /\ is_leaf_get (item_get (item_at i)) = true) ->
    cmd_nx (obj_at arr p) = None ->
    p + List.length (listed_kids inc exc k n) < List.length arr ->
    List.length (listed_kids inc exc k n) <= fuel ->
    exists m' arr',
      get_listed_loop (get_binding E d) inc exc n (Z.of_nat k) m arr p = Some (m', arr')
      /\ List.length arr' = List.length arr
      /\ (forall q, q < p -> obj_at arr' q = obj_at arr q)
      /\ reported (obj_at arr' p) = reported (obj_at arr p)
      /\ cmd_value_type (obj_at arr' p) = cmd_value_type (obj_at arr p)
      /\ map reported (chain fuel arr' p) = map listed_child (listed_kids inc exc k n).
Proof.
  induction n as [|n IH]; intros k m arr p fuel Hkids Hnx Hroom Hfuel.
  - exists m, arr. cbn [get_listed_loop]. repeat split.
    destruct fuel; cbn [chain]; [reflexivity|]. rewrite Hnx. reflexivity.
  - cbn [get_listed_loop].
    replace (Z.of_nat k + 1)%Z with (Z.of_nat (S k)) by lia.
    rewrite listed_kids_step in *.
    destruct (excluded exc (cmd_get_token (Z.of_nat k))) eqn:Hex; cbn [negb andb] in *;
      [apply IH; assumption|].
    destruct (is_substring inc (cmd_get_token (Z.of_nat k))) eqn:Hin;
      [|apply IH; assumption].
    destruct (Hkids k (or_introl eq_refl)) as [Hk Hleaf].
    cbn [List.length] in Hroom, Hfuel.
    destruct fuel as [|fuel]; [lia|].
    unfold cmd_get_cmd. rewrite (in_table_nat k Hk), Nat2Z.id.
    rewrite (get_binding_leaf E d k m _ (S p) Hleaf).
    set (c0 := set_token (set_index cmd_new_object (Z.of_nat k)) (cmd_get_token (Z.of_nat k))).
    rewrite (obj_at_put_same arr (S p) c0) by lia.
    set (r := get_leaf E (item_get (item_at k)) k m c0).
    destruct (get_leaf_keeps E (item_get (item_at k)) k m c0) as [Hci [Hct Hcn]].
    fold r in Hci, Hct, Hcn.
    set (arr1 := obj_put (obj_put arr (S p) c0) (S p) (snd r)).
    assert (Hlen1 : List.length arr1 = List.length arr)
      by (unfold arr1; rewrite !obj_put_length; reflexivity).
    set (arr3 := link_next arr1 p).
    assert (Hlen3 : List.length arr3 = List.length arr)
      by (unfold arr3, link_next; rewrite !obj_put_length; exact Hlen1).
    assert (Hat3 : obj_at arr3 (S p) = snd r).
    { unfold arr3, link_next. rewrite obj_at_put_other by lia.
      unfold arr1. apply obj_at_put_same. rewrite obj_put_length. lia. }
    assert (Hatp : obj_at arr3 p = set_nx (obj_at arr p) (Some (S p))).
    { unfold arr3, link_next. rewrite obj_at_put_same by (rewrite Hlen1; lia).
      unfold arr1. rewrite !obj_at_put_other by lia. reflexivity. }
    destruct (IH (S k) (fst r) arr3 (S p) fuel) as [m' [arr' [Hrun [Hlen [Hframe [Hrep [Hvt Hch]]]]]]].
    + intros i Hi. apply Hkids. right. exact Hi.
    + rewrite Hat3, Hcn. reflexivity.
    + rewrite Hlen3. lia.
    + lia.
    + exists m', arr'. split; [exact Hrun|]. split; [rewrite Hlen; exact Hlen3|].
      split; [|split; [|split]].
      * intros q Hq. rewrite Hframe by lia.
        unfold arr3, link_next. rewrite obj_at_put_other by lia.
        unfold arr1. rewrite !obj_at_put_other by lia. reflexivity.
      * rewrite Hframe by lia. rewrite Hatp. reflexivity.
      * rewrite Hframe by lia. rewrite Hatp. reflexivity.
      * cbn [chain]. rewrite (Hframe p) by lia. rewrite Hatp. cbn [cmd_nx set_nx map].
        rewrite Hch, Hrep, Hat3. f_equal.
        unfold reported, listed_child. rewrite Hci, Hct. reflexivity.
Qed.

Lemma listed_children (E : Env) (d : nat) (inc : string) (exc : option string)
      (gi room : nat) (m : machine) (arr : list cmdObj) :
  listed_group_ok inc exc gi room = true ->
  cmd_nx (obj_at arr 0) = None ->
  room < List.length arr ->
  exists m' arr',
    get_listed_loop (get_binding E d) inc exc gi 0%Z m
                    (obj_put arr 0 (set_value_type (obj_at arr 0) VALUE_TYPE_PARENT)) 0
    = Some (m', arr')
    /\ cmd_value_type (obj_at arr' 0) = VALUE_TYPE_PARENT
    /\ map reported (chain (List.length arr') arr' 0)
       = map listed_child (listed_kids inc exc 0 gi).
Proof.
  intros Hok Hnx Hlen.
  unfold listed_group_ok in Hok.
  apply andb_true_iff in Hok as [Hok Hgi].
  apply andb_true_iff in Hok as [Hleaf Hcount].
  apply Nat.leb_le in Hcount. rewrite forallb_forall in Hleaf.
  set (arr0 := obj_put arr 0 (set_value_type (obj_at arr 0) VALUE_TYPE_PARENT)).
  assert (Hat0 : obj_at arr0 0 = set_value_type (obj_at arr 0) VALUE_TYPE_PARENT)
    by (unfold arr0; apply obj_at_put_same; lia).
  assert (Hlen0 : List.length arr0 = List.length arr) by (unfold arr0; apply obj_put_length).
  destruct (get_listed_loop_chain E d inc exc gi 0 m arr0 0 (List.length arr0))
    as [m' [arr' [Hrun [Hlen' [_ [_ [Hvt Hch]]]]]]].
  - intros i Hi. specialize (Hleaf i Hi). apply andb_true_iff in Hleaf as [Hlt Hl].
    apply Nat.ltb_lt in Hlt. split; assumption.
  - rewrite Hat0. exact Hnx.
  - rewrite Hlen0. lia.
  - rewrite Hlen0. lia.
  - change (Z.of_nat 0) with 0%Z in Hrun.
    exists m', arr'. split; [exact Hrun|].
    split; [rewrite Hvt, Hat0; reflexivity|].
    rewrite Hlen'. exact Hch.
Qed.

Lemma sys_group_facts :
  cmd_get_index "sys" = 186%Z
  /\ in_table 186%Z = true
  /\ item_get (item_at 186) = get_sys
  /\ listed_group_ok sys_include (Some "gc") 186 18 = true
  /\ map listed_child (listed_kids sys_include (Some "gc") 0 186)
     = [(1%Z, "fv"); (2%Z, "fb"); (8%Z, "si"); (10%Z, "gpl"); (11%Z, "gun"); (12%Z, "gco");
        (13%Z, "gpa"); (14%Z, "gdi"); (15%Z, "ea"); (16%Z, "ja"); (17%Z, "ml"); (18%Z, "ma");
        (19%Z, "mt"); (20%Z, "ic"); (21%Z, "il"); (22%Z, "ec"); (23%Z, "ee"); (24%Z, "ex")].
Proof. vm_compute. repeat split; reflexivity. Qed.

(** X13: expanding the system group gives a chain of exactly the eighteen
    listed system parameters, in the order of the table, each with its full
    token; the gcode block, although bound to the same first letters, is
    left out. *)
Theorem get_sys_children (E : Env) (d : nat) (m : machine) (arr : list cmdObj) :
  cmd_index (obj_at arr 0) = cmd_get_index "sys" ->
  cmd_nx (obj_at arr 0) = None ->
  18 < List.length arr ->
  exists m' arr',
    cmd_get E (S d) (cmd_get_index "sys") m arr 0 = Some (m', arr', TG_OK)
    /\ cmd_value_type (obj_at arr' 0) = VALUE_TYPE_PARENT
    /\ map reported (chain (List.length arr') arr' 0)
       = [(1%Z, "fv"); (2%Z, "fb"); (8%Z, "si"); (10%Z, "gpl"); (11%Z, "gun"); (12%Z, "gco");
          (13%Z, "gpa"); (14%Z, "gdi"); (15%Z, "ea"); (16%Z, "ja"); (17%Z, "ml"); (18%Z, "ma");
          (19%Z, "mt"); (20%Z, "ic"); (21%Z, "il"); (22%Z, "ec"); (23%Z, "ee"); (24%Z, "ex")].
Proof.
  destruct sys_group_facts as [Hidx [Hin [Hk [Hok Hlist]]]].
  rewrite Hidx. intros Hindex Hnx Hlen.
  destruct (listed_children E d sys_include (Some "gc") 186 18 m arr Hok Hnx Hlen)
    as [m' [arr' [Hrun [Hvt Hch]]]].
  exists m', arr'.
  unfold cmd_get. rewrite Hin. cbn [get_binding]. unfold get_dispatch.
  change (Z.to_nat 186) with 186. rewrite Hk.
  unfold _get_sys. rewrite Hindex. change (Z.to_nat 186) with 186.
  fold sys_include. rewrite Hrun.
  split; [reflexivity|]. split; [exact Hvt|]. rewrite Hch. exact Hlist.
Qed.

Lemma get_sys_children_witness :
  cmd_index (obj_at (set_index cmd_new_object 186%Z :: repeat cmd_new_object 23) 0)
  = cmd_get_index "sys"
  /\ exists m' arr',
      cmd_get sample_env 1 (cmd_get_index "sys") reset_machine
              (set_index cmd_new_object 186%Z :: repeat cmd_new_object 23) 0
      = Some (m', arr', TG_OK)
      /\ cmd_value_type (obj_at arr' 0) = VALUE_TYPE_PARENT.
Proof.
  split; [vm_compute; reflexivity|].
  destruct (get_sys_children sample_env 0 reset_machine
              (set_index cmd_new_object 186%Z :: repeat cmd_new_object 23))
    as [m' [arr' [Hrun [Hvt _]]]].
  - vm_compute. reflexivity.
  - reflexivity.
  - vm_compute. lia.
  - exists m', arr'. split; [exact Hrun | exact Hvt].
Defined.

Lemma qm_group_facts :
  cmd_get_index "?" = 187%Z
  /\ in_table 187%Z = true
  /\ item_get (item_at 187) = get_qm
  /\ listed_group_ok qm_include None 187 7 = true
  /\ map listed_child (listed_kids qm_include None 0 187)
     = [(4%Z, "stat"); (60%Z, "xpos"); (72%Z, "ypos"); (84%Z, "zpos"); (97%Z, "apos");
        (110%Z, "bpos"); (123%Z, "cpos")].
Proof. vm_compute. repeat split; reflexivity. Qed.

(** X14: expanding the question mark group gives a chain of the machine
    state followed by the six work positions: the children come in the order
    of the table, not in the order of the inclusion list. *)
Theorem get_qm_children (E : Env) (d : nat) (m : machine) (arr : list cmdObj) :
  cmd_index (obj_at arr 0) = cmd_get_index "?" ->
  cmd_nx (obj_at arr 0) = None ->
  7 < List.length arr ->
  exists m' arr',
    cmd_get E (S d) (cmd_get_index "?") m arr 0 = Some (m', arr', TG_OK)
    /\ cmd_value_type (obj_at arr' 0) = VALUE_TYPE_PARENT
    /\ map reported (chain (List.length arr') arr' 0)
       = [(4%Z, "stat"); (60%Z, "xpos"); (72%Z, "ypos"); (84%Z, "zpos"); (97%Z, "apos");
          (110%Z, "bpos"); (123%Z, "cpos")].
Proof.
  destruct qm_group_facts as [Hidx [Hin [Hk [Hok Hlist]]]].
  rewrite Hidx. intros Hindex Hnx Hlen.
  destruct (listed_children E d qm_include None 187 7 m arr Hok Hnx Hlen)
    as [m' [arr' [Hrun [Hvt Hch]]]].
  exists m', arr'.
  unfold cmd_get. rewrite Hin. cbn [get_binding]. unfold get_dispatch.
  change (Z.to_nat 187) with 187. rewrite Hk.
  unfold _get_qm. rewrite Hindex. change (Z.to_nat 187) with 187.
  fold qm_include. rewrite Hrun.
  split; [reflexivity|]. split; [exact Hvt|]. rewrite Hch. exact Hlist.
Qed.

Lemma get_qm_children_witness :
  cmd_index (obj_at (set_index cmd_new_object 187%Z :: repeat cmd_new_object 23) 0)
  = cmd_get_index "?"
  /\ exists m' arr',
      cmd_get sample_env 1 (cmd_get_index "?") reset_machine
              (set_index cmd_new_object 187%Z :: repeat cmd_new_object 23) 0
      = Some (m', arr', TG_OK)
      /\ cmd_value_type (obj_at arr' 0) = VALUE_TYPE_PARENT.
Proof.
  split; [vm_compute; reflexivity|].
  destruct (get_qm_children sample_env 0 reset_machine
              (set_index cmd_new_object 187%Z :: repeat cmd_new_object 23))
    as [m' [arr' [Hrun [Hvt _]]]].
  - vm_compute. reflexivity.
  - reflexivity.
  - vm_compute. lia.
  - exists m', arr'. split; [exact Hrun | exact Hvt].
Defined.

Lemma motor_and_coordinate_groups_ok :
  forallb (fun g => group_ok g (Z.to_nat (cmd_get_index g)) 6
                    && (0 <=? cmd_get_index g)%Z)
          motor_and_coordinate_groups = true.
Proof. vm_compute. reflexivity. Qed.

Lemma motor_and_coordinate_children_table (g : string) :
  In g motor_and_coordinate_groups ->
  map (fun i => (Z.of_nat i, str_from (String.length g) (cmd_get_token (Z.of_nat i))))
      (kids g 0 (Z.to_nat (cmd_get_index g)))
  = motor_and_coordinate_children g.
Proof.
  intro Hg. repeat (destruct Hg as [<-|Hg]; [vm_compute; reflexivity|]). destruct Hg.
Qed.

(** X15: for a parent of a motor group or of a coordinate system group whose
    name begins with the group token, expanding the group gives a chain of
    exactly the descriptors below the group's index whose token begins with
    that name, in ascending index order, each reported with as many leading
    characters stripped as the name has.  When the name is the group token
    itself these are the six children the table lists for the group, the
    group token stripped. *)
Theorem get_grp_motor_and_coordinate_children (E : Env) (d : nat) (g : string) (m : machine)
        (arr : list cmdObj) :
  In g motor_and_coordinate_groups ->
  prefix g (cmd_name (obj_at arr 0)) = true ->
  cmd_index (obj_at arr 0) = cmd_get_index g ->
  cmd_nx (obj_at arr 0) = None ->
  6 < List.length arr ->
  exists m' arr',
    cmd_get E (S d) (cmd_get_index g) m arr 0 = Some (m', arr', TG_OK)
    /\ cmd_value_type (obj_at arr' 0) = VALUE_TYPE_PARENT
    /\ map reported (chain (List.length arr') arr' 0)
       = map (fun i => (Z.of_nat i,
                        str_from (String.length (cmd_name (obj_at arr 0)))
                                 (cmd_get_token (Z.of_nat i))))
             (filter (fun i => prefix (cmd_name (obj_at arr 0)) (cmd_get_token (Z.of_nat i)))
                     (seq 0 (Z.to_nat (cmd_get_index g))))
    /\ (cmd_name (obj_at arr 0) = g ->
        map reported (chain (List.length arr') arr' 0) = motor_and_coordinate_children g).
Proof.
  intros Hg Hname Hindex Hnx Hlen.
  pose proof motor_and_coordinate_groups_ok as Hall. rewrite forallb_forall in Hall.
  specialize (Hall g Hg). apply andb_true_iff in Hall as [Hok Hpos].
  apply Z.leb_le in Hpos.
  assert (Hgi : cmd_get_index g = Z.of_nat (Z.to_nat (cmd_get_index g)))
    by (symmetry; apply Z2Nat.id; exact Hpos).
  pose proof (motor_and_coordinate_children_table g Hg) as Htable.
  set (gi := Z.to_nat (cmd_get_index g)) in *.
  rewrite Hgi in Hindex. rewrite Hgi.
  destruct (named_group_children E d g (cmd_name (obj_at arr 0)) gi 6 m arr
              Hok Hname eq_refl Hindex Hnx Hlen) as [m' [arr' [Hrun [Hvt Hch]]]].
  exists m', arr'. split; [exact Hrun|]. split; [exact Hvt|]. split; [exact Hch|].
  intro Hsame. rewrite Hch, Hsame. exact Htable.
Qed.

Lemma get_grp_motor_and_coordinate_children_witness :
  In "g54" motor_and_coordinate_groups
  /\ prefix "g54" (cmd_name (obj_at (set_index (set_name cmd_new_object "g54") 180%Z
                                      :: repeat cmd_new_object 23) 0)) = true
  /\ exists m' arr',
      cmd_get sample_env 1 (cmd_get_index "g54") reset_machine
              (set_index (set_name cmd_new_object "g54") 180%Z :: repeat cmd_new_object 23) 0
      = Some (m', arr', TG_OK)
      /\ map reported (chain (List.length arr') arr' 0)
         = [(124%Z, "x"); (125%Z, "y"); (126%Z, "z"); (127%Z, "a"); (128%Z, "b"); (129%Z, "c")].
Proof.
  split; [vm_compute; tauto|]. split; [reflexivity|].
  destruct (get_grp_motor_and_coordinate_children sample_env 0 "g54" reset_machine
              (set_index (set_name cmd_new_object "g54") 180%Z :: repeat cmd_new_object 23))
    as [m' [arr' [Hrun [_ [_ Hlist]]]]].
  - vm_compute. tauto.
  - reflexivity.
  - vm_compute. reflexivity.
  - reflexivity.
  - vm_compute. lia.
  - exists m', arr'. split; [exact Hrun | exact (Hlist eq_refl)].
Defined.

(** The name typed decides: the line "$1m" resolves to the group of motor 1
    and expands it to the two descriptors whose token begins with "1m". *)
Example ex_group_1m :
  cmd_index (fst (_parse_config_string sample_env "$1m")) = 194%Z
  /\ option_map (fun r => map reported (chain 24 (snd (fst r)) 0))
                (cmd_get sample_env 1 194%Z reset_machine
                         (fst (_parse_config_string sample_env "$1m")
                          :: repeat cmd_new_object 23) 0)
     = Some [(25%Z, "a"); (28%Z, "i")].
Proof. vm_compute. split; reflexivity. Qed.

Example ex_group_g54 :
  option_map (fun r => map reported (chain 24 (snd (fst r)) 0))
             (cmd_get sample_env 1 180%Z reset_machine
                      (set_index (set_name cmd_new_object "g54") 180%Z :: repeat cmd_new_object 23) 0)
  = Some [(124%Z, "x"); (125%Z, "y"); (126%Z, "z"); (127%Z, "a"); (128%Z, "b"); (129%Z, "c")].
Proof. vm_compute. reflexivity. Qed.

(** ** Motors *)

Lemma cfgArray_motor_ok : forall i, i < CMD_INDEX_MAX -> motor_ok i = true.
Proof. apply table_fact. vm_compute. reflexivity. Qed.

Lemma append_eqb_prefix (p a b : string) : String.eqb (p ++ a) (p ++ b) = String.eqb a b.
Proof.
  induction p as [|c p IH]; [reflexivity|].
  cbn [append String.eqb]. rewrite Ascii.eqb_refl. exact IH.
Qed.

Lemma motor_field_eqb (mo : Z) (a b : string) :
  String.eqb (motor_field mo a) (motor_field mo b) = String.eqb a b.
Proof. unfold motor_field. rewrite !append_eqb_prefix. reflexivity. Qed.

(** X16: setting the microsteps of a motor stores them as a byte, recomputes
    the motor's steps per unit as 360 / (step angle / microsteps) / travel per
    revolution from the new microsteps and the stored angle and travel, and
    then tells the stepper subsystem the new microsteps. *)
Theorem set_microsteps_recomputes (E : Env) (d i : nat) (x : double) (m : machine) :
  i < CMD_INDEX_MAX ->
  item_set (item_at i) = set_mi ->
  let mo := _get_motor i in
  exists m',
    set_value_at E d (Z.of_nat i) x m = Some m'
    /\ load m' (motor_field mo "microsteps") = VU8 (to_u8 E x)
    /\ load m' (motor_field mo "steps_per_unit")
       = VDbl (360 / (read_dbl (load m (motor_field mo "step_angle")) / Z2d (to_u8 E x))
               / read_dbl (load m (motor_field mo "travel_rev")))%float
    /\ io_log m' = (io_log m ++ [Ev_st_set_microsteps mo (to_u8 E x)])%list.
Proof.
  intros Hi Hs. cbv zeta.
  pose proof (cfgArray_motor_ok i Hi) as Hok. unfold motor_ok in Hok. rewrite Hs in Hok.
  apply andb_true_iff in Hok as [_ Ht]. apply String.eqb_eq in Ht.
  assert (Hls : is_leaf_set (item_set (item_at i)) = true) by (rewrite Hs; reflexivity).
  unfold set_value_at. rewrite (cmd_set_leaf E d i m _ 0 Hi Hls), Hs.
  cbn [set_leaf fst obj_at nth].
  eexists. split; [reflexivity|].
  unfold _set_mi, _set_motor_steps_per_unit, _set_ui8. rewrite Ht.
  cbn [cmd_value set_value].
  rewrite !load_emit.
  rewrite (load_store_other _ _ (motor_field (_get_motor i) "microsteps"))
    by (rewrite motor_field_eqb; reflexivity).
  rewrite !load_store_same.
  rewrite (load_store_other _ _ (motor_field (_get_motor i) "step_angle"))
    by (rewrite motor_field_eqb; reflexivity).
  rewrite (load_store_other _ _ (motor_field (_get_motor i) "travel_rev"))
    by (rewrite motor_field_eqb; reflexivity).
  repeat split.
Qed.

Lemma set_microsteps_recomputes_witness :
  28 < CMD_INDEX_MAX
  /\ item_set (item_at 28) = set_mi
  /\ exists m',
      set_value_at sample_env 0 28%Z 8%float reset_machine = Some m'
      /\ load m' (motor_field (_get_motor 28) "microsteps") = VU8 8.
Proof.
  split; [vm_compute; lia|]. split; [reflexivity|].
  destruct (set_microsteps_recomputes sample_env 0 28 8%float reset_machine)
    as [m' [Hrun [Hmi _]]].
  - vm_compute. lia.
  - reflexivity.
  - exists m'. split; [exact Hrun | exact Hmi].
Defined.

(** X17: setting the step angle or the travel per revolution of a motor
    stores the value and recomputes the motor's steps per unit as
    360 / (step angle / microsteps) / travel per revolution, with the new
    value in the place of the one that was set. *)
Theorem set_step_angle_recomputes (E : Env) (d i : nat) (x : double) (m : machine) :
  i < CMD_INDEX_MAX ->
  item_set (item_at i) = set_sa ->
  let mo := _get_motor i in
  let is_angle := String.eqb (target_of i) (motor_field mo "step_angle") in
  let angle := if is_angle then x else read_dbl (load m (motor_field mo "step_angle")) in
  let travel := if is_angle then read_dbl (load m (motor_field mo "travel_rev")) else x in
  exists m',
    set_value_at E d (Z.of_nat i) x m = Some m'
    /\ load m' (target_of i) = VDbl x
    /\ load m' (motor_field mo "steps_per_unit")
       = VDbl (360 / (angle / Z2d (read_u8 (load m (motor_field mo "microsteps")))) / travel)%float
    /\ io_log m' = io_log m.
Proof.
  intros Hi Hs. cbv zeta.
  pose proof (cfgArray_motor_ok i Hi) as Hok. unfold motor_ok in Hok. rewrite Hs in Hok.
  apply andb_true_iff in Hok as [_ Ht].
  assert (Hls : is_leaf_set (item_set (item_at i)) = true) by (rewrite Hs; reflexivity).
  unfold set_value_at. rewrite (cmd_set_leaf E d i m _ 0 Hi Hls), Hs.
  cbn [set_leaf fst obj_at nth].
  eexists. split; [reflexivity|].
  unfold _set_sa, _set_motor_steps_per_unit, _set_dbl. cbn [cmd_value set_value].
  destruct (String.eqb (target_of i) (motor_field (_get_motor i) "step_angle")) eqn:Ha.
  - apply String.eqb_eq in Ha. rewrite Ha.
    rewrite (load_store_other _ _ (motor_field (_get_motor i) "step_angle"))
      by (rewrite motor_field_eqb; reflexivity).
    rewrite !load_store_same.
    rewrite (load_store_other _ _ (motor_field (_get_motor i) "microsteps"))
      by (rewrite motor_field_eqb; reflexivity).
    rewrite (load_store_other _ _ (motor_field (_get_motor i) "travel_rev"))
      by (rewrite motor_field_eqb; reflexivity).
    repeat split.
  - cbn [orb] in Ht. apply String.eqb_eq in Ht. rewrite Ht.
    rewrite (load_store_other _ _ (motor_field (_get_motor i) "travel_rev"))
      by (rewrite motor_field_eqb; reflexivity).
    rewrite !load_store_same.
    rewrite (load_store_other _ _ (motor_field (_get_motor i) "microsteps"))
      by (rewrite motor_field_eqb; reflexivity).
    rewrite (load_store_other _ _ (motor_field (_get_motor i) "step_angle"))
      by (rewrite motor_field_eqb; reflexivity).
    repeat split.
Qed.

Lemma set_step_angle_recomputes_witness :
  26 < CMD_INDEX_MAX
  /\ item_set (item_at 26) = set_sa
  /\ exists m',
      set_value_at sample_env 0 26%Z 2%float reset_machine = Some m'
      /\ load m' (target_of 26) = VDbl 2%float.
Proof.
  split; [vm_compute; lia|]. split; [reflexivity|].
  destruct (set_step_angle_recomputes sample_env 0 26 2%float reset_machine)
    as [m' [Hrun [Hsa _]]].
  - vm_compute. lia.
  - reflexivity.
  - exists m'. split; [exact Hrun | exact Hsa].
Defined.

(** ** Tokens and names of the table *)

Lemma prefix_refl (s : string) : prefix s s = true.
Proof.
  induction s as [|c s IH]; [reflexivity|].
  cbn [prefix]. destruct (ascii_dec c c) as [_|Hne]; [exact IH | contradiction Hne; reflexivity].
Qed.

(** X18: resolving a descriptor's own token, or its own friendly name, with
    the general resolver never fails and never gives a later descriptor: the
    first match wins, so the result is an index at or below the descriptor's
    own. *)
Theorem cmd_get_index_own_name (i : nat) :
  i < CMD_INDEX_MAX ->
  (0 <= cmd_get_index (token_field i) <= Z.of_nat i)%Z
  /\ (0 <= cmd_get_index (name_field i) <= Z.of_nat i)%Z.
Proof.
  intro Hi.
  assert (H : forall s, matches i s = true -> (0 <= cmd_get_index s <= Z.of_nat i)%Z).
  { intros s Hm. unfold cmd_get_index.
    destruct (cmd_get_index_scan_spec cfgArray s 0) as [[_ Hall]|[k [Hr [Hk [_ Hlt]]]]].
    - specialize (Hall i Hi). unfold matches, token_field, name_field, item_at in Hm.
      unfold matches_item in Hall. congruence.
    - rewrite Hr. split; [lia|].
      destruct (Nat.le_gt_cases k i) as [Hle|Hgt]; [lia|].
      specialize (Hlt i Hgt). unfold matches, token_field, name_field, item_at in Hm.
      unfold matches_item in Hlt. congruence. }
  split; apply H; unfold matches; rewrite prefix_refl.
  - reflexivity.
  - apply orb_true_r.
Qed.

Lemma cmd_get_index_own_name_witness :
  56 < CMD_INDEX_MAX /\ (0 <= cmd_get_index (name_field 56) <= 56)%Z.
Proof.
  split; [vm_compute; lia|].
  apply (cmd_get_index_own_name 56). vm_compute. lia.
Defined.

Example ex_name_collision :
  name_field 56 = name_field 55 /\ cmd_get_index (name_field 56) = 55%Z
  /\ cmd_get_token 56%Z = "xsv" /\ cmd_get_token 55%Z = "xsm".
Proof. vm_compute. repeat split; reflexivity. Qed.

(** X19: through the general resolver every token resolves to its own
    descriptor, with two kinds of exception: "gco" resolves to the gcode
    block "gc", whose token is a prefix of it and comes first, and the
    status report slots "sr00" to "sr19" resolve to "sr". *)
Theorem cmd_get_index_of_tokens (i : nat) :
  i < CMD_INDEX_MAX ->
  cmd_get_index (cmd_get_token (Z.of_nat i))
  = if Nat.eqb i 12 then 9%Z
    else if Nat.leb 160 i && Nat.ltb i 180 then 7%Z
    else Z.of_nat i.
Proof.
  intro Hi.
  apply Z.eqb_eq.
  apply (table_fact (fun i => (cmd_get_index (cmd_get_token (Z.of_nat i))
                               =? (if Nat.eqb i 12 then 9
                                   else if Nat.leb 160 i && Nat.ltb i 180 then 7
                                   else Z.of_nat i))%Z));
    [vm_compute; reflexivity | exact Hi].
Qed.

Lemma cmd_get_index_of_tokens_witness :
  12 < CMD_INDEX_MAX /\ cmd_get_index (cmd_get_token 12%Z) = 9%Z.
Proof.
  split; [vm_compute; lia|].
  apply (cmd_get_index_of_tokens 12). vm_compute. lia.
Defined.



(** X21: the exclusion test of [cfg_init], a substring test against "sr,gc",
    leaves out exactly the status report (7) and the gcode block (9) among
    the indices the start-up loops visit. *)
Theorem cfg_init_excludes (i : nat) :
  i < CMD_INDEX_START_GROUPS ->
  not_excluded i = negb (Nat.eqb i 7 || Nat.eqb i 9).
Proof.
  intro Hi.
  apply Bool.eqb_prop.
  assert (H : forallb (fun i => Bool.eqb (not_excluded i) (negb (Nat.eqb i 7 || Nat.eqb i 9)))
                      (seq 0 CMD_INDEX_START_GROUPS) = true) by (vm_compute; reflexivity).
  rewrite forallb_forall in H. apply H. apply in_seq. lia.
Qed.

Lemma cfg_init_excludes_witness :
  7 < CMD_INDEX_START_GROUPS /\ not_excluded 7 = false.
Proof.
  split; [vm_compute; lia|].
  apply (cfg_init_excludes 7). vm_compute. lia.
Defined.

Lemma cfgArray_axis_ok : forall i, i < CMD_INDEX_MAX -> axis_ok i = true.
Proof. apply table_fact. vm_compute. reflexivity. Qed.

Lemma strchr_bound (s : string) (c : ascii) (k : nat) :
  strchr s c = Some k -> k < String.length s.
Proof.
  revert k. induction s as [|x s IH]; intros k; cbn [strchr String.length]; [discriminate|].
  destruct (Ascii.eqb x c); [intro H; injection H as <-; lia|].
  destruct (strchr s c) as [j|]; [|discriminate].
  intro H. injection H as <-. specialize (IH j eq_refl). lia.
Qed.

(** X22: the axis of a descriptor is -1 or one of 0 .. 5 and its motor is -1
    or one of 0 .. 3, and the -1 is never used: the position bindings sit on
    axis descriptors only, and the motor bindings, which take the motor as an
    unsigned byte, sit on motor descriptors only. *)
Theorem axis_and_motor_in_range (i : nat) :
  i < CMD_INDEX_MAX ->
  (-1 <= _get_axis i < 6)%Z
  /\ (-1 <= _get_motor i < 4)%Z
  /\ (item_get (item_at i) = get_abs \/ item_get (item_at i) = get_pos -> (0 <= _get_axis i)%Z)
  /\ (item_set (item_at i) = set_sa \/ item_set (item_at i) = set_mi
      \/ item_set (item_at i) = set_po -> (0 <= _get_motor i)%Z).
Proof.
  intro Hi.
  pose proof (cfgArray_axis_ok i Hi) as Ha. pose proof (cfgArray_motor_ok i Hi) as Hm.
  unfold axis_ok in Ha. unfold motor_ok in Hm.
  split; [|split; [|split]].
  - unfold _get_axis. destruct (strchr "xyzabc" (first_char i)) as [k|] eqn:Hk; [|lia].
    apply strchr_bound in Hk. cbn in Hk. lia.
  - unfold _get_motor. destruct (strchr "1234" (first_char i)) as [k|] eqn:Hk; [|lia].
    apply strchr_bound in Hk. cbn in Hk. lia.
  - intros [H|H]; rewrite H in Ha; apply Z.leb_le; exact Ha.
  - intros [H|[H|H]]; rewrite H in Hm; apply andb_true_iff in Hm as [Hm _];
      apply Z.leb_le; exact Hm.
Qed.

Lemma axis_and_motor_in_range_witness :
  28 < CMD_INDEX_MAX /\ (-1 <= _get_axis 28 < 6)%Z.
Proof.
  split; [vm_compute; lia|].
  apply (axis_and_motor_in_range 28). vm_compute. lia.
Defined.

(** ** The status report vector *)

Lemma sr_spec_field_inj (a b : nat) :
  a < 100 -> b < 100 -> a <> b -> String.eqb (sr_spec_field a) (sr_spec_field b) = false.
Proof.
  intros Ha Hb Hab.
  assert (H : forallb (fun a => forallb (fun b => Nat.eqb a b
                                                  || negb (String.eqb (sr_spec_field a)
                                                                      (sr_spec_field b)))
                                        (seq 0 100))
                      (seq 0 100) = true) by (vm_compute; reflexivity).
  rewrite forallb_forall in H. specialize (H a ltac:(apply in_seq; lia)).
  rewrite forallb_forall in H. specialize (H b ltac:(apply in_seq; lia)).
  apply orb_true_iff in H as [H|H].
  - apply Nat.eqb_eq in H. contradiction.
  - apply negb_true_iff in H. exact H.
Qed.

Lemma clear_sr_spec_load (n : nat) (m : machine) :
  n <= 100 ->
  (forall j, j < n -> load (clear_sr_spec n m) (sr_spec_field j) = VU32 0)
  /\ (forall t, (forall j, j < n -> String.eqb t (sr_spec_field j) = false) ->
                load (clear_sr_spec n m) t = load m t).
Proof.
  induction n as [|n IH]; intro Hn.
  - split; [intros j Hj; lia | intros t _; reflexivity].
  - destruct (IH ltac:(lia)) as [IH1 IH2]. cbn [clear_sr_spec]. split.
    + intros j Hj. destruct (Nat.eq_dec j n) as [->|Hne].
      * apply load_store_same.
      * rewrite load_store_other by (apply sr_spec_field_inj; lia). apply IH1. lia.
    + intros t Ht. rewrite load_store_other by (apply Ht; lia).
      apply IH2. intros j Hj. apply Ht. lia.
Qed.

Lemma forallb_seq_shift (f : nat -> bool) (k : nat) :
  forall a, forallb f (seq (S a) k) = forallb (fun j => f (S j)) (seq a k).
Proof.
  induction k as [|k IH]; intro a; [reflexivity|].
  cbn [seq forallb]. rewrite IH. reflexivity.
Qed.

Lemma sr_reached_step (arr : list cmdObj) (p k : nat) :
  sr_reached arr p (S k)
  = match cmd_nx (obj_at arr (S p)) with Some _ => true | None => false end
    && sr_reached arr (S p) k.
Proof.
  unfold sr_reached. cbn [seq forallb]. rewrite forallb_seq_shift.
  replace (p + 1 + 0) with (S p) by lia. f_equal.
  induction (seq 0 k) as [|j l IHl]; [reflexivity|].
  cbn [forallb]. rewrite IHl. replace (p + 1 + S j) with (S p + 1 + j) by lia. reflexivity.
Qed.

Lemma set_sr_loop_load (arr : list cmdObj) :
  forall n j0 m p,
    j0 + n <= 100 ->
    (forall k, k < n ->
               load (_set_sr_loop n j0 m arr p) (sr_spec_field (j0 + k))
               = if sr_reached arr p k && sr_flagged (obj_at arr (p + 1 + k))
                 then VU32 (cmd_index (obj_at arr (p + 1 + k)) mod 2 ^ 32)%Z
                 else load m (sr_spec_field (j0 + k)))
    /\ (forall t, (forall k, k < n -> String.eqb t (sr_spec_field (j0 + k)) = false) ->
                  load (_set_sr_loop n j0 m arr p) t = load m t).
Proof.
  induction n as [|n IH]; intros j0 m p Hn.
  - split; [intros k Hk; lia | intros t _; reflexivity].
  - cbn [_set_sr_loop]. fold (sr_flagged (obj_at arr (S p))).
    set (m1 := if sr_flagged (obj_at arr (S p))
               then store m (sr_spec_field j0)
                          (VU32 (cmd_index (obj_at arr (S p)) mod 2 ^ 32)%Z)
               else m).
    assert (Hm1 : forall t, String.eqb t (sr_spec_field j0) = false -> load m1 t = load m t).
    { intros t Ht. unfold m1. destruct (sr_flagged _); [|reflexivity].
      apply load_store_other. exact Ht. }
    assert (Hm1' : load m1 (sr_spec_field j0)
                   = if sr_flagged (obj_at arr (S p))
                     then VU32 (cmd_index (obj_at arr (S p)) mod 2 ^ 32)%Z
                     else load m (sr_spec_field j0)).
    { unfold m1. destruct (sr_flagged _); [apply load_store_same | reflexivity]. }
    destruct (IH (S j0) m1 (S p) ltac:(lia)) as [IH1 IH2].
    split.
    + intros [|k] Hk.
      * replace (j0 + 0) with j0 by lia. replace (p + 1 + 0) with (S p) by lia.
        cbn [sr_reached seq forallb andb].
        destruct (cmd_nx (obj_at arr (S p))); [|exact Hm1'].
        rewrite IH2; [exact Hm1'|].
        intros k Hk'. apply sr_spec_field_inj; lia.
      * rewrite sr_reached_step.
        replace (p + 1 + S k) with (S p + 1 + k) by lia.
        replace (j0 + S k) with (S j0 + k) by lia.
        assert (Hother : load m1 (sr_spec_field (S j0 + k)) = load m (sr_spec_field (S j0 + k)))
          by (apply Hm1; apply sr_spec_field_inj; lia).
        destruct (cmd_nx (obj_at arr (S p))).
        -- rewrite (IH1 k ltac:(lia)). cbn [andb]. rewrite Hother. reflexivity.
        -- cbn [andb]. exact Hother.
    + intros t Ht.
      assert (Ht0 : String.eqb t (sr_spec_field j0) = false).
      { replace j0 with (j0 + 0) by lia. apply Ht. lia. }
      destruct (cmd_nx (obj_at arr (S p))); [|apply Hm1; exact Ht0].
      rewrite IH2; [apply Hm1; exact Ht0|].
      intros k Hk. replace (S j0 + k) with (j0 + S k) by lia. apply Ht. lia.
Qed.

(** X23: setting the status report replaces the whole vector: slot [k]
    holds the index of the [k]-th object after the parent when the chain
    reaches that object and it is flagged true, and zero otherwise, so no
    slot keeps an earlier content; no other cell of live storage changes. *)
Theorem set_sr_replaces_vector (E : Env) (m : machine) (arr : list cmdObj) (p : nat) :
  CMD_STATUS_REPORT_LEN E <= 100 ->
  (forall k, k < CMD_STATUS_REPORT_LEN E ->
             load (_set_sr E m arr p) (sr_spec_field k) = sr_expected arr p k)
  /\ (forall t, (forall k, k < CMD_STATUS_REPORT_LEN E ->
                           String.eqb t (sr_spec_field k) = false) ->
                load (_set_sr E m arr p) t = load m t).
Proof.
  intro Hlen. unfold _set_sr.
  destruct (set_sr_loop_load arr (CMD_STATUS_REPORT_LEN E) 0
              (clear_sr_spec (CMD_STATUS_REPORT_LEN E) m) p ltac:(lia)) as [H1 H2].
  destruct (clear_sr_spec_load (CMD_STATUS_REPORT_LEN E) m Hlen) as [C1 C2].
  split.
  - intros k Hk. specialize (H1 k Hk). cbn [Nat.add] in H1. rewrite H1.
    unfold sr_expected. rewrite (C1 k Hk). reflexivity.
  - intros t Ht. rewrite H2 by exact Ht. apply C2. exact Ht.
Qed.

Lemma set_sr_replaces_vector_witness :
  CMD_STATUS_REPORT_LEN sample_env <= 100
  /\ load (_set_sr sample_env (store reset_machine (sr_spec_field 5) (VU32 50))
                   [cmd_new_object;
                    set_index (set_value (set_value_type cmd_new_object VALUE_TYPE_TRUE) 1%float) 60%Z]
                   0)
          (sr_spec_field 5) = VU32 0.
Proof.
  split; [vm_compute; lia|].
  destruct (set_sr_replaces_vector sample_env
              (store reset_machine (sr_spec_field 5) (VU32 50))
              [cmd_new_object;
               set_index (set_value (set_value_type cmd_new_object VALUE_TYPE_TRUE) 1%float) 60%Z]
              0) as [H _].
  - vm_compute. lia.
  - rewrite (H 5); [reflexivity | vm_compute; lia].
Defined.

Example ex_set_sr :
  map (fun k => load (_set_sr sample_env reset_machine
                        [cmd_new_object;
                         set_nx (set_index (set_value (set_value_type cmd_new_object VALUE_TYPE_TRUE)
                                                      1%float) 60%Z) (Some 2);
                         set_nx (set_index cmd_new_object 72%Z) (Some 3);
                         set_index (set_value (set_value_type cmd_new_object VALUE_TYPE_TRUE)
                                              1%float) 84%Z]
                        0)
                     (sr_spec_field k)) [0; 1; 2; 3]
  = [VU32 60; VU32 0; VU32 84; VU32 0].
Proof. vm_compute. reflexivity. Qed.

(** ** From the command line to the next start *)

(** X24: a value set from the command line survives a restart.  When a line
    accepted as a single-value set names a descriptor that is not excluded
    (and is not the status interval), and the machine it leaves is started
    again with a matching version slot, [cfg_init] runs to its end and the
    live target of the descriptor holds the value as typed on the line,
    narrowed to the storage kind; the replay takes it as millimetres,
    whatever unit mode it was typed in. *)
Theorem set_survives_restart (E : Env) (d : nat) (line : string) (m m1 : machine) (st : status) :
  let cmd := fst (_parse_config_string E line) in
  let i := Z.to_nat (cmd_index cmd) in
  cmd_array m <> [] ->
  snd (_parse_config_string E line) = TG_OK ->
  is_single_value cmd = true ->
  not_excluded i = true ->
  item_set (item_at i) <> set_si ->
  cfg_config_parser E d line m = Some (m1, st) ->
  PrimFloat.eqb (nvm m1 0%Z) (read_dbl (load m1 "tg.build")) = true ->
  exists M,
    cfg_init E d m1 = Some M
    /\ forall v, cell_of E i (cmd_value cmd) = Some v -> load M (target_of i) = v.
Proof.
  cbv zeta. intros Harr Hok Hsv Hne Hsi Hrun Hver.
  destruct (parse_config_string_facts E line) as [_ Hfacts].
  destruct (Hfacts Hok) as [Hin [_ [_ Hpar]]].
  assert (Hpos : (0 <= cmd_index (fst (_parse_config_string E line)))%Z).
  { unfold in_table in Hin. apply andb_true_iff in Hin as [Hin _]. apply Z.leb_le. exact Hin. }
  assert (Hlt : Z.to_nat (cmd_index (fst (_parse_config_string E line))) < CMD_INDEX_START_GROUPS).
  { destruct (Z.lt_ge_cases (cmd_index (fst (_parse_config_string E line)))
                            (Z.of_nat CMD_INDEX_START_GROUPS)) as [H|H]; [lia|].
    apply Hpar in H.
    unfold is_single_value in Hsv. rewrite H in Hsv. discriminate Hsv. }
  destruct (cfg_config_parser_set_log E d line m m1 st Harr Hok Hsv Hrun)
    as [v0 [_ [Hslot [_ Hval]]]].
  specialize (Hval Hsi). rewrite Hval in Hslot.
  destruct (cfg_init_replay E d m1 Hver) as [M [Hinit [_ [_ [_ Hcells]]]]].
  exists M. split; [exact Hinit|].
  intros v Hv. apply Hcells; [exact Hlt | exact Hne|].
  rewrite Z2Nat.id by exact Hpos. rewrite Hslot. exact Hv.
Qed.

Lemma set_survives_restart_witness :
  exists m1 M,
    cfg_config_parser sample_env 0 "$xfr=1200"
                      (fst (cmd_write_NVM_value 0%Z reset_machine
                              (set_value cmd_new_object 0x1.4b051eb851eb8p+8%float)))
    = Some (m1, TG_OK)
    /\ cfg_init sample_env 0 m1 = Some M
    /\ load M (target_of 50) = VDbl 1200%float.
Proof.
  destruct (cfg_config_parser sample_env 0 "$xfr=1200"
              (fst (cmd_write_NVM_value 0%Z reset_machine
                      (set_value cmd_new_object 0x1.4b051eb851eb8p+8%float))))
    as [[m1 st]|] eqn:Hrun; [|exfalso; revert Hrun; vm_compute; discriminate].
  assert (Hst : st = TG_OK).
  { revert Hrun. vm_compute. intro H. injection H as _ <-. reflexivity. }
  subst st.
  assert (Hver : PrimFloat.eqb (nvm m1 0%Z) (read_dbl (load m1 "tg.build")) = true).
  { revert Hrun. vm_compute. intro H. injection H as <-. vm_compute. reflexivity. }
  destruct (set_survives_restart sample_env 0 "$xfr=1200"
              (fst (cmd_write_NVM_value 0%Z reset_machine
                      (set_value cmd_new_object 0x1.4b051eb851eb8p+8%float)))
              m1 TG_OK) as [M [Hinit Hcell]].
  - vm_compute. discriminate.
  - vm_compute. reflexivity.
  - vm_compute. reflexivity.
  - vm_compute. reflexivity.
  - vm_compute. discriminate.
  - exact Hrun.
  - exact Hver.
  - exists m1, M. split; [reflexivity|]. split; [exact Hinit|].
    apply Hcell. vm_compute. reflexivity.
Defined.

(** ** Running to the end *)

(** X25: [cfg_init] always runs to its end, at any depth: neither start-up
    loop needs the recursion of the group bindings, since the one group it
    visits is handed an object without successors. *)
Theorem cfg_init_returns (E : Env) (d : nat) (m : machine) :
  exists M, cfg_init E d m = Some M.
Proof.
  destruct (PrimFloat.eqb (nvm m 0%Z) (read_dbl (load m "tg.build"))) eqn:Hver.
  - destruct (cfg_init_replay E d m Hver) as [M [H _]]. exists M. exact H.
  - destruct (cfg_init_mismatch E d m Hver) as [M [H _]]. eexists. exact H.
Qed.

Lemma cfgArray_single_print_ok : forall i, i < CMD_INDEX_MAX -> single_print_ok i = true.
Proof. apply table_fact. vm_compute. reflexivity. Qed.

Lemma in_table_to_nat (i : INDEX_T) :
  in_table i = true -> Z.to_nat i < CMD_INDEX_MAX /\ Z.of_nat (Z.to_nat i) = i.
Proof.
  unfold in_table. intro H. apply andb_true_iff in H as [H1 H2].
  apply Z.leb_le in H1. apply Z.ltb_lt in H2. split; lia.
Qed.

Lemma cmd_print_single (E : Env) (d : nat) (i : INDEX_T) (m : machine) :
  in_table i = true ->
  item_print (item_at (Z.to_nat i)) <> print_grp ->
  exists m', cmd_print E d i m = Some m'.
Proof.
  intros Hin Hp.
  destruct (in_table_to_nat i Hin) as [Hlt _].
  pose proof (cfgArray_single_print_ok _ Hlt) as Hok. unfold single_print_ok in Hok.
  assert (Hd : cmd_print E d = print_dispatch E d (match d with
                                                   | O => fun _ _ => None
                                                   | S d' => cmd_print E d'
                                                   end)) by (destruct d; reflexivity).
  rewrite Hd. unfold print_dispatch. rewrite Hin.
  destruct (item_print (item_at (Z.to_nat i))) eqn:Hk;
    try (contradiction Hp; reflexivity);
    try (exists m; reflexivity);
    unfold print_value, value_via_get;
    rewrite (get_binding_leaf E d _ m _ 0 Hok);
    eexists; reflexivity.
Qed.

(** X26: a line that names a parameter printed as a number (no group, no
    axis mode, no message looked up), on a machine whose unit mode is one of
    the three that have a unit string, is always answered, at any depth, and
    with TG_OK: neither its set nor its print needs the recursion of the
    group bindings.  The lines left out are those whose print reads a
    message array at an index the code does not check. *)
Theorem cfg_config_parser_single_returns (E : Env) (d : nat) (line : string) (m : machine) :
  cmd_array m <> [] ->
  snd (_parse_config_string E line) = TG_OK ->
  prints_number (Z.to_nat (cmd_index (fst (_parse_config_string E line)))) = true ->
  (cm_get_units_mode m <? 3)%Z = true ->
  exists m', cfg_config_parser E d line m = Some (m', TG_OK).
Proof.
  intros Harr Hok Hnum _.
  assert (Hp : item_print (item_at (Z.to_nat (cmd_index (fst (_parse_config_string E line)))))
               <> print_grp).
  { intro H. unfold prints_number in Hnum. rewrite H in Hnum. discriminate Hnum. }
  clear Hnum.
  destruct (parse_config_string_facts E line) as [_ Hfacts].
  destruct (Hfacts Hok) as [Hin [_ [Hnx _]]].
  unfold cfg_config_parser.
  destruct (_parse_config_string E line) as [cmd st0]. cbn [fst snd] in *. subst st0.
  set (m1 := with_cmd_array m (obj_put (cmd_array m) 0 cmd)).
  assert (Hlen : 0 < List.length (cmd_array m))
    by (destruct (cmd_array m); [contradiction | cbn; lia]).
  assert (Hat : obj_at (cmd_array m1) 0 = cmd)
    by (unfold m1; cbn [cmd_array with_cmd_array]; apply obj_at_put_same; exact Hlen).
  destruct (is_single_value cmd).
  - destruct (cmd_set_lone_object E d (cmd_index cmd) m1 (cmd_array m1) Hin)
      as [m2 [arr2 [Hset [Hidx _]]]].
    { unfold m1. cbn [cmd_array with_cmd_array]. intro H.
      apply (f_equal (@List.length cmdObj)) in H. rewrite obj_put_length in H. cbn in H. lia. }
    { rewrite Hat. exact Hnx. }
    rewrite Hset. rewrite Hat in Hidx. rewrite Hidx.
    unfold cmd_write_NVM_value. rewrite Hin. cbn [fst cmd_array with_cmd_array].
    rewrite Hidx.
    match goal with
    | |- context [cmd_print E d ?i ?mm] =>
        destruct (cmd_print_single E d i mm Hin Hp) as [m3 Hpr]
    end.
    rewrite Hpr. exists m3. reflexivity.
  - rewrite Hat.
    destruct (cmd_print_single E d (cmd_index cmd) m1 Hin Hp) as [m3 Hpr].
    rewrite Hpr. exists m3. reflexivity.
Qed.

Lemma cfg_config_parser_single_returns_witness :
  cmd_array reset_machine <> []
  /\ prints_number (Z.to_nat (cmd_index (fst (_parse_config_string sample_env "$xfr=1200")))) = true
  /\ exists m', cfg_config_parser sample_env 0 "$xfr=1200" reset_machine = Some (m', TG_OK).
Proof.
  split; [vm_compute; discriminate|]. split; [vm_compute; reflexivity|].
  apply (cfg_config_parser_single_returns sample_env 0 "$xfr=1200" reset_machine).
  - vm_compute. discriminate.
  - vm_compute. reflexivity.
  - vm_compute. reflexivity.
  - vm_compute. reflexivity.
Defined.

(** The line "$xam=11" is one of those left out: its print hands [fprintf]
    the string found at index 11 of the eleven axis mode messages. *)
Example ex_axis_mode_beyond_messages :
  prints_number (Z.to_nat (cmd_index (fst (_parse_config_string sample_env "$xam=11")))) = false
  /\ List.length msg_am = 11
  /\ option_map (fun r => last (io_log (fst r)) Ev_status_report)
                (cfg_config_parser sample_env 0 "$xam=11" reset_machine)
     = Some (Ev_print 49%Z (VU8 11) (Some (pgm_read_beyond sample_env msg_am 11))).
Proof. vm_compute. repeat split; reflexivity. Qed.

Lemma substring_length_le (s : string) :
  forall n, String.length (substring 0 n s) <= n.
Proof.
  induction s as [|c s IH]; intros [|n]; cbn; try lia.
  specialize (IH n). lia.
Qed.

(** X27: the parser never overfills the fields of the command object: the
    name holds at most [CMD_NAME_LEN] characters of the line, and on an
    accepted line the token holds between one and [CMD_TOKEN_LEN]
    characters. *)
Theorem parse_config_string_field_lengths (E : Env) (line : string) :
  let cmd := fst (_parse_config_string E line) in
  String.length (cmd_name cmd) <= CMD_NAME_LEN
  /\ (snd (_parse_config_string E line) = TG_OK ->
      1 <= String.length (cmd_token cmd) <= CMD_TOKEN_LEN).
Proof.
  cbv zeta. split.
  - unfold _parse_config_string.
    set (cmd0 := match strpbrk _ _ with Some _ => _ | None => _ end).
    assert (H0 : String.length (cmd_name cmd0) <= CMD_NAME_LEN).
    { unfold cmd0. destruct (strpbrk _ _).
      - destruct (strtod E _) as [v used].
        destruct (Nat.eqb used 0); cbn [cmd_name set_name set_value set_value_type];
          apply substring_length_le.
      - cbn [cmd_name set_name]. apply substring_length_le. }
    cbv zeta.
    destruct (cmd_index _ =? -1)%Z; [exact H0|].
    destruct (Z.of_nat CMD_INDEX_START_GROUPS <=? _)%Z; exact H0.
  - intro Hok.
    destruct (parse_config_string_facts E line) as [_ Hfacts].
    destruct (Hfacts Hok) as [Hin [Htok _]].
    rewrite Htok.
    destruct (in_table_to_nat _ Hin) as [Hlt Hid].
    pose proof (cfgArray_token_length_ok _ Hlt) as Hl. unfold token_length_ok in Hl.
    rewrite Hid in Hl. apply andb_true_iff in Hl as [H1 H2].
    apply Nat.leb_le in H1, H2. lia.
Qed.

Lemma parse_config_string_field_lengths_witness :
  snd (_parse_config_string sample_env "$x_feedrate_maximum_of_the_machine=5") = TG_OK
  /\ String.length (cmd_name (fst (_parse_config_string sample_env
                                     "$x_feedrate_maximum_of_the_machine=5"))) <= CMD_NAME_LEN.
Proof.
  split; [vm_compute; reflexivity|].
  apply (parse_config_string_field_lengths sample_env "$x_feedrate_maximum_of_the_machine=5").
Defined.

(** ** Unit conversion *)

(** X28: for every descriptor bound to the converting set and get bindings,
    a value set in inch mode is stored multiplied by 25.4 and read in
    millimetre mode as that product; a value set in millimetre mode is
    stored as it is and read in inch mode multiplied by 1/25.4. *)
Theorem unit_conversion_inverse (E : Env) (d i : nat) (v : double) (m : machine) :
  i < CMD_INDEX_MAX ->
  item_set (item_at i) = set_dbu ->
  item_get (item_at i) = get_dbu ->
  (exists m1,
      set_value_at E d (Z.of_nat i) v (cm_set_units_mode m INCHES_MODE) = Some m1
      /\ load m1 (target_of i) = VDbl (v * 0x1.9666666666666p+4)%float
      /\ get_value_at E d (Z.of_nat i) (cm_set_units_mode m1 MILLIMETER_MODE)
         = Some (v * 0x1.9666666666666p+4)%float)
  /\ (exists m2,
         set_value_at E d (Z.of_nat i) v (cm_set_units_mode m MILLIMETER_MODE) = Some m2
         /\ load m2 (target_of i) = VDbl v
         /\ get_value_at E d (Z.of_nat i) (cm_set_units_mode m2 INCHES_MODE)
            = Some (v * (1 / 0x1.9666666666666p+4))%float).
Proof.
  intros Hi Hs Hg.
  pose proof (cfgArray_storage_ok i Hi) as Hok.
  storage_facts Hok. apply negb_true_iff in Hok.
  assert (Hok' : String.eqb "gm.units_mode" (target_of i) = false)
    by (rewrite String.eqb_sym; exact Hok).
  assert (Hls : is_leaf_set (item_set (item_at i)) = true) by (rewrite Hs; reflexivity).
  assert (Hlg : is_leaf_get (item_get (item_at i)) = true) by (rewrite Hg; reflexivity).
  unfold set_value_at, get_value_at.
  split.
  - eexists. rewrite (cmd_set_leaf E d i _ _ 0 Hi Hls). split; [reflexivity|].
    rewrite (cmd_get_leaf E d i _ _ 0 Hi Hlg). rewrite Hs, Hg.
    cbn [set_leaf get_leaf fst snd obj_at obj_put nth].
    unfold _get_dbu, _set_dbu. cbn [cmd_value set_value set_value_type].
    rewrite !units_after_set. cbn [Z.eqb INCHES_MODE MILLIMETER_MODE].
    rewrite load_store_same. split; [reflexivity|].
    unfold cm_set_units_mode at 1.
    rewrite (load_store_other _ _ _ _ Hok), load_store_same. reflexivity.
  - eexists. rewrite (cmd_set_leaf E d i _ _ 0 Hi Hls). split; [reflexivity|].
    rewrite (cmd_get_leaf E d i _ _ 0 Hi Hlg). rewrite Hs, Hg.
    cbn [set_leaf get_leaf fst snd obj_at obj_put nth].
    unfold _get_dbu, _set_dbu. cbn [cmd_value set_value set_value_type].
    rewrite !units_after_set. cbn [Z.eqb INCHES_MODE MILLIMETER_MODE].
    rewrite load_store_same. split; [reflexivity|].
    unfold cm_set_units_mode at 1.
    rewrite (load_store_other _ _ _ _ Hok), load_store_same. reflexivity.
Qed.

(** Two inches of x feed rate are stored as 50.8 millimetres and read back
    as 50.8 in millimetre mode. *)
Lemma unit_conversion_inverse_witness :
  50 < CMD_INDEX_MAX
  /\ item_set (item_at 50) = set_dbu
  /\ item_get (item_at 50) = get_dbu
  /\ exists m1,
      set_value_at sample_env 0 50%Z 2%float (cm_set_units_mode reset_machine INCHES_MODE) = Some m1
      /\ load m1 (target_of 50) = VDbl 0x1.9666666666666p+5%float
      /\ get_value_at sample_env 0 50%Z (cm_set_units_mode m1 MILLIMETER_MODE)
         = Some 0x1.9666666666666p+5%float.
Proof.
  split; [vm_compute; lia|]. split; [reflexivity|]. split; [reflexivity|].
  destruct (unit_conversion_inverse sample_env 0 50 2%float reset_machine)
    as [[m1 [Hset [Hcell Hget]]] _].
  - vm_compute. lia.
  - reflexivity.
  - reflexivity.
  - exists m1. split; [exact Hset|]. split; [exact Hcell | exact Hget].
Defined.
